(** * poster_exporter: a shallow embedding of the HTML poster export pipeline

    The development follows [src/poster_exporter.py].  The pure parts of the
    program (string tests, the density table, the candidate selection loop of
    [extract_zip_to_temp], the injected style sheet) are Rocq functions.  The
    effectful parts run in a small state-and-exception monad over a [World]
    holding the file system, the log of calls made to the headless browser
    and the console output.  Everything the program does not decide itself
    (the browser engine, the archive contents, the image decoder, the
    temporary-name generator, the traversal order of a directory) is read
    from an [Env] record, so every definition computes.

    Conventions.
    - A Python [str] is a [string] of bytes, its UTF-8 encoding.  [strip]
      removes the white space of [str.isspace], ASCII or not, read off the
      encoding.  [lower] acts on the ASCII letters: the program only tests
      lower-cased strings against ASCII literals ([.html], [.htm], [.zip],
      [poster], [index]), and outside ASCII only U+0130 and U+212A have a
      lower case with an ASCII letter (an [i] followed by a combining dot,
      and [k]), which completes none of these literals.
    - Paths are POSIX paths: [/] separates components, matching of glob
      patterns is case sensitive, and a leading double slash is read as a
      single one.
    - An exception carries the flag [exn_is_Exception]: [except Exception]
      catches exactly the exceptions that have it.
    - [os.path.exists] is answered by the operating system: the answer
      is read from the [Host], given the path string and the files there
      are.
    - The device scale factor [ppi / 96.0] is the exact rational.  Python
      computes a binary64 float: the same number for the four presets,
      which are all the four operations pass (their quotients are dyadic),
      a rounded one for other densities, and no number at all, but an
      [OverflowError], for an integer of magnitude [2^1024 - 2^970] or
      more.  Statements about a render with another density than a preset
      say so. *)

From Stdlib Require Import ZArith QArith String Ascii List DecimalString.
From stdpp Require Import gmap strings list.

#[local] Open Scope Z_scope.

(** ** Python strings *)

Module Py.

Definition lower_ascii (c : ascii) : ascii :=
  let n := N_of_ascii c in
  if ((65 <=? n) && (n <=? 90))%N then ascii_of_N (n + 32) else c.

(** [s.lower()] *)
Fixpoint lower (s : string) : string :=
  match s with
  | "" => ""
  | String c s' => String (lower_ascii c) (lower s')
  end.

(** [c.isspace()] for a character of the ASCII range: U+0009 to U+000D
    and U+001C to U+0020. *)
Definition isspace (c : ascii) : bool :=
  let n := N_of_ascii c in
  (((9 <=? n) && (n <=? 13)) || ((28 <=? n) && (n <=? 32)))%N.

(** The white space that takes two bytes: U+0085 and U+00A0. *)
Definition isspace2 (a b : ascii) : bool :=
  let x := N_of_ascii a in
  let y := N_of_ascii b in
  ((x =? 194) && ((y =? 133) || (y =? 160)))%N.

(** The white space that takes three bytes: U+1680, U+2000 to U+200A,
    U+2028, U+2029, U+202F, U+205F and U+3000. *)
Definition isspace3 (a b c : ascii) : bool :=
  let x := N_of_ascii a in
  let y := N_of_ascii b in
  let z := N_of_ascii c in
  (((x =? 225) && (y =? 154) && (z =? 128)) ||
   ((x =? 226) && (y =? 128) &&
    (((128 <=? z) && (z <=? 138)) || (z =? 168) || (z =? 169) || (z =? 175))) ||
   ((x =? 226) && (y =? 129) && (z =? 159)) ||
   ((x =? 227) && (y =? 128) && (z =? 128)))%N.

(** [s.lstrip()]: the leading white-space characters are dropped, one
    encoded character at a time. *)
Fixpoint lstrip (s : string) : string :=
  match s with
  | "" => ""
  | String a s1 =>
      if isspace a then lstrip s1
      else
        match s1 with
        | "" => s
        | String b s2 =>
            if isspace2 a b then lstrip s2
            else
              match s2 with
              | "" => s
              | String c s3 => if isspace3 a b c then lstrip s3 else s
              end
        end
  end.

(** [s.rstrip()]: a tail made of white space only is dropped.  (In an
    encoded string a tail that starts inside a character starts with a
    continuation byte, which begins no white space.) *)
Fixpoint rstrip (s : string) : string :=
  match s with
  | "" => ""
  | String c s' =>
      if String.eqb (lstrip s) "" then "" else String c (rstrip s')
  end.

(** [s.strip()] *)
Definition strip (s : string) : string := rstrip (lstrip s).

(** [s.startswith(p)] *)
Definition startswith (s p : string) : bool := String.prefix p s.

(** [s.endswith(suf)]: some tail of [s] is [suf]. *)
Fixpoint endswith (s suf : string) : bool :=
  String.eqb s suf ||
  match s with
  | "" => false
  | String _ s' => endswith s' suf
  end.

(** [s.endswith((a, b, ...))] *)
Definition endswith_any (s : string) (sufs : list string) : bool :=
  existsb (endswith s) sufs.

(** [sub in s] *)
Fixpoint contains (sub s : string) : bool :=
  String.prefix sub s ||
  match s with
  | "" => false
  | String _ s' => contains sub s'
  end.

(** [s.split(sep)] for a one-character separator. *)
Fixpoint split (sep : ascii) (s : string) : list string :=
  match s with
  | "" => [""]
  | String c s' =>
      if Ascii.eqb c sep then "" :: split sep s'
      else match split sep s' with
           | [] => [String c ""]
           | h :: t => String c h :: t
           end
  end.

(** [sep.join(l)] *)
Fixpoint join (sep : string) (l : list string) : string :=
  match l with
  | [] => ""
  | [x] => x
  | x :: l' => x +:+ sep +:+ join sep l'
  end.

(** [s.rfind(".")], [None] standing for -1. *)
Fixpoint rfind_dot (s : string) : option nat :=
  match s with
  | "" => None
  | String c s' =>
      match rfind_dot s' with
      | Some i => Some (S i)
      | None => if Ascii.eqb c "." then Some 0%nat else None
      end
  end.

(** [str(n)] and [f"{n}"] for an integer. *)
Definition str_int (n : Z) : string := NilZero.string_of_int (Z.to_int n).

(** [not s]: the empty string is falsy. *)
Definition falsy (s : string) : bool := String.eqb s "".

End Py.

(** ** pathlib: pure POSIX paths *)

(** A path is its anchor (is it absolute?) and its components, as
    [PurePosixPath] keeps them: empty and [.] components are dropped when a
    string is parsed. *)
Record Path : Type := mkPath { anchor : bool; parts : list string }.

#[global] Instance Path_eq_dec : EqDecision Path.
Proof. solve_decision. Defined.

Definition keep_part (c : string) : bool :=
  negb (String.eqb c "" || String.eqb c ".").

(** [Path(s)] *)
Definition Path_of_str (s : string) : Path :=
  {| anchor := Py.startswith s "/";
     parts := List.filter keep_part (Py.split "/" s) |}.

(** [str(p)] *)
Definition Path_str (p : Path) : string :=
  match anchor p, parts p with
  | false, [] => "."
  | false, l => Py.join "/" l
  | true, l => "/" +:+ Py.join "/" l
  end.

(** [p / c1 / ... / cn] for relative components. *)
Definition joinpath (p : Path) (rel : list string) : Path :=
  {| anchor := anchor p; parts := parts p ++ rel |}.

(** [p.parent] *)
Definition parent (p : Path) : Path :=
  {| anchor := anchor p; parts := removelast (parts p) |}.

(** [p.name] *)
Definition name (p : Path) : string := List.last (parts p) "".

(** [p.stem]: the name without its last suffix; a leading or a trailing dot
    does not start a suffix. *)
Definition stem (p : Path) : string :=
  let n := name p in
  match Py.rfind_dot n with
  | Some i =>
      if ((0 <? i) && (i <? String.length n - 1))%nat
      then String.substring 0 i n else n
  | None => n
  end.

(** ** Configuration constants *)

Definition DEFAULT_WIDTH : Z := 900.
Definition DEFAULT_HEIGHT : Z := 1200.

(** The density presets, keyed by the label shown in the drop-down. *)
Definition PPI_OPTIONS : gmap string Z :=
  <["72 PPI (屏幕预览)" := 72]>
  (<["150 PPI (普通打印)" := 150]>
  (<["300 PPI (高清印刷)" := 300]>
  (<["600 PPI (超清印刷)" := 600]> ∅))).

(** [PPI_OPTIONS.get(ppi_choice, 300)] *)
Definition PPI_OPTIONS_get (ppi_choice : string) : Z :=
  default 300 (PPI_OPTIONS !! ppi_choice).

(** ** Candidate selection of [extract_zip_to_temp] *)

(** ['poster' in f.name.lower() or 'index' in f.name.lower()] *)
Definition has_keyword (f : Path) : bool :=
  Py.contains "poster" (Py.lower (name f)) ||
  Py.contains "index" (Py.lower (name f)).

(** The [for f in html_files] loop: [html_file] is the variable the loop
    assigns, the list is what remains to be visited.  A file whose parent is
    the extraction root ends the loop ([break]). *)
Fixpoint select_loop (temp_dir : Path) (html_file : Path)
    (html_files : list Path) : Path :=
  match html_files with
  | [] => html_file
  | f :: rest =>
      if bool_decide (parent f = temp_dir) then f
      else if has_keyword f then select_loop temp_dir f rest
      else select_loop temp_dir html_file rest
  end.

(** [html_file = html_files[0]] followed by the loop; [None] when the list
    is empty (the caller has raised [ValueError] before). *)
Definition select_html (temp_dir : Path) (html_files : list Path)
    : option Path :=
  match html_files with
  | [] => None
  | f0 :: _ => Some (select_loop temp_dir f0 html_files)
  end.

(** ** Exceptions, outcomes and the world *)

(** A raised exception: whether it is an instance of [Exception] (and not
    only of [BaseException], as an interrupt is) and its [str(e)]. *)
Record exn : Type := mkExn { exn_is_Exception : bool; exn_str : string }.

Inductive outcome (A : Type) : Type :=
| Returns (a : A)
| Raises (e : exn).
Arguments Returns {A} a.
Arguments Raises {A} e.

(** Python [bytes]. *)
Abbreviation bytes := (list Byte.byte).

(** What a path names in the file system. *)
Inductive node : Type :=
| Dir
| File (content : bytes).

(** The calls the program makes to the browser automation library, with
    their arguments. *)
Inductive event : Type :=
| PlaywrightStart
| PlaywrightStop
| Launch (headless : bool)
| NewContext (viewport_width viewport_height : Z) (device_scale_factor : Q)
| NewPage
| Goto (url wait_until : string)
| AddStyleTag (content : string)
| WaitForTimeout (ms : Z)
| Evaluate (expression : string)
| QuerySelector (selector : string)
| ElementScreenshot (type : string) (omit_background : bool)
| PageScreenshot (type : string) (full_page : bool)
| BrowserClose.

#[global] Instance Path_countable : Countable Path :=
  inj_countable' (fun p => (anchor p, parts p))
                 (fun ap => mkPath (fst ap) (snd ap))
                 (fun p => match p with mkPath _ _ => eq_refl end).

(** The file system maps the paths that exist to what they name. *)
Record World : Type := mkWorld {
  fs : gmap Path node;
  calls : list event;         (* browser calls so far, oldest first *)
  stdout : list string        (* printed lines, oldest first *)
}.

(** The browser engine as a black box: the result of each call. *)
Record Engine : Type := mkEngine {
  eng_start : outcome unit;
  eng_launch : bool -> outcome unit;
  eng_new_context : Z -> Z -> Q -> outcome unit;
  eng_new_page : outcome unit;
  eng_goto : string -> string -> outcome unit;
  eng_add_style_tag : string -> outcome unit;
  eng_wait_for_timeout : Z -> outcome unit;
  eng_evaluate : string -> outcome unit;
  (* [true]: an element handle; [false]: [None] *)
  eng_query_selector : string -> outcome bool;
  eng_element_screenshot : string -> bool -> outcome bytes;
  eng_page_screenshot : string -> bool -> outcome bytes;
  eng_close : outcome unit
}.

(** The host: operating system, archive reader and image decoder. *)
Record Host : Type := mkHost {
  (* [os.path.expanduser] *)
  host_expanduser : string -> string;
  (* [os.path.exists(s)] when the files are those of the map: the
     operating system resolves the string (working directory, [.] and [..],
     a trailing slash, length limits, permissions) and answers *)
  host_exists : gmap Path node -> string -> bool;
  (* [Path.resolve], as the string of the resolved path *)
  host_resolve : Path -> string;
  (* [tempfile.gettempdir()] *)
  host_tempdir : string;
  (* the random name parts [tempfile] tries, in order *)
  host_random_names : list string;
  (* [ZipFile(zip_path).extractall(dir)]: failure, or the tree it creates
     below [dir], as relative paths listed in the order in which a
     recursive glob of [dir] visits them *)
  host_extractall : string -> outcome (list (list string * node));
  (* [shutil.rmtree(dir)]: [None] when the tree is removed *)
  host_rmtree : Path -> option exn;
  (* [tmp_file.write(data)] on the file of that name *)
  host_write : string -> bytes -> outcome unit;
  (* [Image.open(io.BytesIO(data)).size] *)
  host_image_size : bytes -> outcome (Z * Z);
  (* [traceback.format_exc()] in a handler of the exception *)
  host_format_exc : exn -> string
}.

Record Env : Type := mkEnv { engine : Engine; host : Host }.

(** ** The monad of effectful code *)

Definition M (A : Type) : Type := World -> outcome A * World.

Definition ret {A} (a : A) : M A := fun w => (Returns a, w).

Definition bind {A B} (m : M A) (k : A -> M B) : M B :=
  fun w =>
    match m w with
    | (Returns a, w') => k a w'
    | (Raises e, w') => (Raises e, w')
    end.

Definition raise {A} (e : exn) : M A := fun w => (Raises e, w).

Definition lift {A} (r : outcome A) : M A := fun w => (r, w).

Declare Scope M_scope.
Delimit Scope M_scope with M.
Notation "'do' x '<-' m 'in' k" := (bind m (fun x => k))
  (at level 10, x pattern, m at level 99, k at level 200) : M_scope.
Notation "m '>>' k" := (bind m (fun _ => k))
  (at level 99, k at level 200, right associativity) : M_scope.
#[local] Open Scope M_scope.

(** [try: body except Exception as e: handler(e)] *)
Definition try_except {A} (body : M A) (handler : exn -> M A) : M A :=
  fun w =>
    match body w with
    | (Returns a, w') => (Returns a, w')
    | (Raises e, w') =>
        if exn_is_Exception e then handler e w' else (Raises e, w')
    end.

(** [try: body finally: fin]: [fin] runs on every exit of [body]; an
    exception of [fin] replaces the outcome of [body]. *)
Definition try_finally {A} (body : M A) (fin : M unit) : M A :=
  fun w =>
    match body w with
    | (r, w') =>
        match fin w' with
        | (Returns _, w'') => (r, w'')
        | (Raises e, w'') => (Raises e, w'')
        end
    end.

(** Run [m] and continue with its outcome, returned or raised. *)
Definition attempt {A B} (m : M A) (k : outcome A -> M B) : M B :=
  fun w => match m w with (r, w') => k r w' end.

(** A call to the browser: it is logged, then it returns or raises. *)
Definition call {A} (ev : event) (r : outcome A) : M A :=
  fun w =>
    (r, {| fs := fs w; calls := calls w ++ [ev]; stdout := stdout w |}).

(** [print(line)] *)
Definition print (line : string) : M unit :=
  fun w =>
    (Returns tt,
     {| fs := fs w; calls := calls w; stdout := stdout w ++ [line] |}).

Definition set_fs (w : World) (m : gmap Path node) : World :=
  {| fs := m; calls := calls w; stdout := stdout w |}.

(** [Path.exists()] *)
Definition Path_exists (p : Path) : M bool :=
  fun w => (Returns (bool_decide (is_Some (fs w !! p))), w).

(** [os.path.exists(s)] *)
Definition os_path_exists (h : Host) (s : string) : M bool :=
  fun w => (Returns (host_exists h (fs w) s), w).

(** How a POSIX system without symbolic links, permissions and length
    limits answers: the node reached from the directory with components
    [cur] along [comps].  An empty component and [.] stay in the directory,
    [..] goes up (the root is its own parent), a name goes down; only a
    directory can be gone through, so a file followed by anything, even by
    the empty component of a trailing slash, is not found. *)
Fixpoint posix_lookup (m : gmap Path node) (cur comps : list string)
    : option node :=
  match comps with
  | [] => Some Dir
  | c :: rest =>
      if String.eqb c "" || String.eqb c "." then posix_lookup m cur rest
      else if String.eqb c ".." then posix_lookup m (removelast cur) rest
      else
        match m !! mkPath true (cur ++ [c]) with
        | Some Dir => posix_lookup m (cur ++ [c]) rest
        | Some (File content) =>
            match rest with
            | [] => Some (File content)
            | _ :: _ => None
            end
        | None => None
        end
  end.

(** [os.path.exists(s)] on such a system, with working directory [cwd]:
    the empty string and a string with a null character name nothing. *)
Definition posix_exists (cwd : string) (m : gmap Path node) (s : string)
    : bool :=
  if String.eqb s "" || Py.contains (String Ascii.zero "") s then false
  else
    match posix_lookup m
            (if Py.startswith s "/" then [] else parts (Path_of_str cwd))
            (Py.split "/" s) with
    | Some _ => true
    | None => false
    end.

(** ** tempfile *)

(** The first candidate name that does not exist yet. *)
Fixpoint first_fresh (m : gmap Path node) (pre suf : string)
    (cands : list string) : option string :=
  match cands with
  | [] => None
  | c :: cands' =>
      let s := pre +:+ c +:+ suf in
      match m !! Path_of_str s with
      | None => Some s
      | Some _ => first_fresh m pre suf cands'
      end
  end.

Definition FileExistsError : exn :=
  mkExn true "[Errno 17] No usable temporary file name found".

(** The name [tempfile.mkdtemp(prefix=prefix)] settles on. *)
Definition mkdtemp_name (h : Host) (prefix : string) (m : gmap Path node)
    : option string :=
  first_fresh m (host_tempdir h +:+ "/" +:+ prefix) "" (host_random_names h).

(** [tempfile.mkdtemp(prefix=prefix)]: a new, empty directory. *)
Definition mkdtemp (h : Host) (prefix : string) : M string :=
  fun w =>
    match mkdtemp_name h prefix (fs w) with
    | Some s => (Returns s, set_fs w (<[Path_of_str s := Dir]> (fs w)))
    | None => (Raises FileExistsError, w)
    end.

(** The name [NamedTemporaryFile(suffix=suffix)] settles on. *)
Definition mkstemp_name (h : Host) (suffix : string) (m : gmap Path node)
    : option string :=
  first_fresh m (host_tempdir h +:+ "/tmp") suffix (host_random_names h).

(** [with tempfile.NamedTemporaryFile(suffix=suffix, delete=False) as
    tmp_file: tmp_file.write(data); path = tmp_file.name]: a new file that
    is kept, with [data] as its content; the name is the result. *)
Definition NamedTemporaryFile_write (h : Host) (suffix : string)
    (data : bytes) : M string :=
  fun w =>
    match mkstemp_name h suffix (fs w) with
    | None => (Raises FileExistsError, w)
    | Some s =>
        let w1 := set_fs w (<[Path_of_str s := File []]> (fs w)) in
        match host_write h s data with
        | Returns _ =>
            (Returns s, set_fs w1 (<[Path_of_str s := File data]> (fs w1)))
        | Raises e => (Raises e, w1)
        end
    end.

(** ** shutil and zipfile *)

(** Is [p] the directory [dir] or a path below it? *)
Definition under (dir p : Path) : bool :=
  bool_decide (anchor p = anchor dir /\ parts dir `prefix_of` parts p).

(** [shutil.rmtree(dir)]: on success nothing at or below [dir] is left. *)
Definition rmtree (h : Host) (dir : Path) : M unit :=
  fun w =>
    match host_rmtree h dir with
    | None =>
        (Returns tt,
         set_fs w (filter (fun kv => under dir (fst kv) = false) (fs w)))
    | Some e => (Raises e, w)
    end.

(** [zip_ref.extractall(temp_dir)]: the members appear below [temp_dir]. *)
Definition extractall (h : Host) (zip_path : string) (temp_dir : Path)
    : M (list (list string * node)) :=
  fun w =>
    match host_extractall h zip_path with
    | Raises e => (Raises e, w)
    | Returns tree =>
        (Returns tree,
         set_fs w (foldr (fun en m => <[joinpath temp_dir (fst en) := snd en]> m)
                         (fs w) tree))
    end.

(** The relative paths of the tree whose last component matches the
    pattern ["*" + ext], in traversal order. *)
Definition glob_members (tree : list (list string * node)) (ext : string)
    : list (list string) :=
  List.filter (fun rel => Py.endswith (List.last rel "") ext)
    (List.filter (fun rel => negb (bool_decide (rel = [])))
       (List.map fst tree)).

(** [temp_dir.rglob("*" + ext)] on the extracted tree ([temp_dir] itself
    is never listed). *)
Definition rglob (temp_dir : Path) (tree : list (list string * node))
    (ext : string) : list Path :=
  List.map (joinpath temp_dir) (glob_members tree ext).

(** ** The style override *)

(** The literal passed to [page.add_style_tag(content=...)]. *)
Definition snapshot_css : string := "
            .glass-panel {
                background: rgba(255, 255, 255, 0.96) !important; 
                backdrop-filter: none !important;
                -webkit-backdrop-filter: none !important;
                box-shadow: 0 8px 30px rgba(0,0,0,0.08) !important;
            }
            body, #poster {
                text-rendering: geometricPrecision; 
                -webkit-font-smoothing: antialiased;
            }
            #control-panel {
                display: none !important;
            }
        ".

Definition dquote : string := String (ascii_of_nat 34) "".

(** [inject_snapshot_mode_css()]: the same rules inside a [style] element. *)
Definition inject_snapshot_mode_css : string :=
  "
    <style id=" +:+ dquote +:+ "snapshot-mode-inject" +:+ dquote +:+ ">
        .glass-panel {
            background: rgba(255, 255, 255, 0.96) !important; 
            backdrop-filter: none !important;
            -webkit-backdrop-filter: none !important;
            box-shadow: 0 8px 30px rgba(0,0,0,0.08) !important;
        }
        body, #poster {
            text-rendering: geometricPrecision; 
            -webkit-font-smoothing: antialiased;
        }
        #control-panel {
            display: none !important;
        }
    </style>
    ".

(** A reading of a style sheet as its rules: for each block the selector
    and the declarations [(property, value, important)].  Blocks end at a
    closing brace, declarations at a semicolon, and the property ends at the
    first colon. *)
Definition split_first (sep : ascii) (s : string) : string * string :=
  match Py.split sep s with
  | [] => (s, "")
  | h :: t => (h, Py.join (String sep "") t)
  end.

Definition strip_important (v : string) : string * bool :=
  let v := Py.strip v in
  if Py.endswith v "!important"
  then (Py.strip (String.substring 0 (String.length v - 10) v), true)
  else (v, false).

Definition css_declaration (d : string) : option (string * string * bool) :=
  if Py.falsy (Py.strip d) then None
  else
    let (prop, value) := split_first ":" d in
    let (v, imp) := strip_important value in
    Some (Py.strip prop, v, imp).

Definition css_rule (block : string)
    : option (string * list (string * string * bool)) :=
  if Py.falsy (Py.strip block) then None
  else
    let (sel, body) := split_first "{" block in
    Some (Py.strip sel, omap css_declaration (Py.split ";" body)).

Definition css_rules (sheet : string)
    : list (string * list (string * string * bool)) :=
  omap css_rule (Py.split "}" sheet).

(** The declaration of [prop] in the rule for [selector], if there is one. *)
Definition css_lookup (sheet selector prop : string) : option (string * bool) :=
  match List.find (fun r => String.eqb (fst r) selector) (css_rules sheet) with
  | None => None
  | Some r =>
      match List.find (fun d => String.eqb (fst (fst d)) prop) (snd r) with
      | None => None
      | Some d => Some (snd (fst d), snd d)
      end
  end.

(** A decimal numeral [i.f] (or [i]) as a rational. *)
Definition digit_value (c : ascii) : option Z :=
  let n := N_of_ascii c in
  if ((48 <=? n) && (n <=? 57))%N then Some (Z.of_N n - 48) else None.

Fixpoint digits_value (acc : Z) (s : string) : option Z :=
  match s with
  | "" => Some acc
  | String c s' =>
      match digit_value c with
      | Some d => digits_value (10 * acc + d) s'
      | None => None
      end
  end.

Definition decimal_value (s : string) : option Q :=
  let (i, f) := split_first "." s in
  match digits_value 0 i, digits_value 0 f with
  | Some a, Some b =>
      Some (inject_Z a + inject_Z b / inject_Z (10 ^ Z.of_nat (String.length f)))%Q
  | _, _ => None
  end.

(** The alpha channel of a colour [rgba(r, g, b, a)]: 1 is fully opaque. *)
Definition rgba_alpha (v : string) : option Q :=
  if Py.startswith v "rgba(" && Py.endswith v ")" then
    match Py.split "," (String.substring 5 (String.length v - 6) v) with
    | [_; _; _; a] => decimal_value (Py.strip a)
    | _ => None
    end
  else None.

(** ** The render engine *)

(** [async with async_playwright() as p: body]: the driver is started, and
    stopped on every exit of the body. *)
Definition async_with_playwright {A} (e : Engine) (body : M A) : M A :=
  call PlaywrightStart (eng_start e) >>
  try_finally body (call PlaywrightStop (Returns tt)).

(** [render_html_file_to_image(html_file_path, ppi, width, height,
    poster_selector)] *)
Definition render_html_file_to_image (env : Env) (html_file_path : string)
    (ppi width height : Z) (poster_selector : string) : M bytes :=
  let e := engine env in
  let device_scale_factor := (inject_Z ppi / 96)%Q in
  let file_path := host_resolve (host env) (Path_of_str html_file_path) in
  let file_url := "file://" +:+ file_path in
  print ("📂 直接加载本地文件: " +:+ file_url) >>
  async_with_playwright e
    (call (Launch true) (eng_launch e true) >>
     call (NewContext (width + 100) (height + 200) device_scale_factor)
          (eng_new_context e (width + 100) (height + 200) device_scale_factor) >>
     call NewPage (eng_new_page e) >>
     call (Goto file_url "networkidle") (eng_goto e file_url "networkidle") >>
     call (AddStyleTag snapshot_css) (eng_add_style_tag e snapshot_css) >>
     call (WaitForTimeout 2000) (eng_wait_for_timeout e 2000) >>
     try_except
       (call (Evaluate "document.fonts.ready")
             (eng_evaluate e "document.fonts.ready"))
       (fun _ => ret tt) >>
     do poster_element <-
       call (QuerySelector poster_selector)
            (eng_query_selector e poster_selector) in
     do screenshot_bytes <-
       (if poster_element : bool
        then call (ElementScreenshot "png" false)
                  (eng_element_screenshot e "png" false)
        else call (PageScreenshot "png" false)
                  (eng_page_screenshot e "png" false)) in
     call BrowserClose (eng_close e) >>
     ret screenshot_bytes).

(** [sync_render_html_file_to_image(html_file_path, ppi)]: the coroutine is
    run to completion with the default size and selector. *)
Definition sync_render_html_file_to_image (env : Env)
    (html_file_path : string) (ppi : Z) : M bytes :=
  render_html_file_to_image env html_file_path ppi
    DEFAULT_WIDTH DEFAULT_HEIGHT "#poster".

(** ** The resource locator *)

Definition ValueError_no_html : exn := mkExn true "ZIP 文件中未找到 HTML 文件".

(** [extract_zip_to_temp(zip_path)] *)
Definition extract_zip_to_temp (h : Host) (zip_path : string)
    : M (Path * string) :=
  do tmp <- mkdtemp h "poster_export_" in
  let temp_dir := Path_of_str tmp in
  do tree <- extractall h zip_path temp_dir in
  let html_files :=
    rglob temp_dir tree ".html" ++ rglob temp_dir tree ".htm" in
  match html_files with
  | [] => raise ValueError_no_html
  | f0 :: _ => ret (temp_dir, Path_str (select_loop temp_dir f0 html_files))
  end.

(** ** The export orchestrator *)

Definition nl : string := String (ascii_of_nat 10) "".

Definition two_digits (d : Z) : string :=
  (if d <? 10 then "0" else "") +:+ Py.str_int d.

(** [f"{n / 1024 / 1024:.2f}"] for a length [n]: both divisions are exact in
    binary floating point, and the format rounds the quotient to two
    decimals, ties to even. *)
Definition format_mb (n : Z) : string :=
  let q := (n * 100) / 1048576 in
  let r := (n * 100) mod 1048576 in
  let c := if 2 * r <? 1048576 then q
           else if 1048576 <? 2 * r then q + 1
           else if Z.even q then q else q + 1 in
  Py.str_int (c / 100) +:+ "." +:+ two_digits (c mod 100).

Definition len (b : bytes) : Z := Z.of_nat (List.length b).

Definition export_failed (h : Host) (e : exn) : string :=
  "❌ 导出失败: " +:+ exn_str e +:+ nl +:+ host_format_exc h e.

Definition preview_failed (h : Host) (e : exn) : string :=
  "❌ 预览失败: " +:+ exn_str e +:+ nl +:+ host_format_exc h e.

(** [process_local_path(local_path, ppi_choice)] *)
Definition process_local_path (env : Env) (local_path ppi_choice : string)
    : M (option string * option string * string) :=
  if Py.falsy local_path || Py.falsy (Py.strip local_path) then
    ret (None, None, "⚠️ 请输入 HTML 文件路径")
  else
    let local_path := Py.strip local_path in
    let local_path := host_expanduser (host env) local_path in
    do found <- os_path_exists (host env) local_path in
    if negb found then
      ret (None, None, "❌ 文件不存在: " +:+ local_path)
    else if negb (Py.endswith_any (Py.lower local_path) [".html"; ".htm"]) then
      ret (None, None, "❌ 请输入 HTML 文件路径（.html 或 .htm）")
    else
      try_except
        (let ppi := PPI_OPTIONS_get ppi_choice in
         print ("📄 处理本地文件: " +:+ local_path) >>
         do image_bytes <- sync_render_html_file_to_image env local_path ppi in
         let output_filename := stem (Path_of_str local_path) in
         do output_path <-
           NamedTemporaryFile_write (host env)
             ("_" +:+ output_filename +:+ "_" +:+ Py.str_int ppi +:+ "PPI.png")
             image_bytes in
         do size <- lift (host_image_size (host env) image_bytes) in
         let '(img_width, img_height) := size in
         let status :=
           "✅ 导出成功！" +:+ nl +:+
           "📐 输出尺寸: " +:+ Py.str_int img_width +:+ " x " +:+
             Py.str_int img_height +:+ " 像素" +:+ nl +:+
           "🎯 PPI: " +:+ Py.str_int ppi +:+ nl +:+
           "📁 文件大小: " +:+ format_mb (len image_bytes) +:+ " MB" +:+ nl +:+
           "📄 源文件: " +:+ local_path in
         ret (Some output_path, Some output_path, status))
        (fun e => ret (None, None, export_failed (host env) e)).

(** [preview_local_path(local_path)] *)
Definition preview_local_path (env : Env) (local_path : string)
    : M (option string * string) :=
  if Py.falsy local_path || Py.falsy (Py.strip local_path) then
    ret (None, "⏳ 请输入 HTML 文件路径")
  else
    let local_path := Py.strip local_path in
    let local_path := host_expanduser (host env) local_path in
    do found <- os_path_exists (host env) local_path in
    if negb found then
      ret (None, "❌ 文件不存在: " +:+ local_path)
    else if negb (Py.endswith_any (Py.lower local_path) [".html"; ".htm"]) then
      ret (None, "❌ 请输入 HTML 文件路径")
    else
      try_except
        (print ("👁️ 预览本地文件: " +:+ local_path) >>
         do image_bytes <- sync_render_html_file_to_image env local_path 72 in
         do preview_path <-
           NamedTemporaryFile_write (host env) "_preview.png" image_bytes in
         ret (Some preview_path,
              "✅ 预览已加载（72 PPI）" +:+ nl +:+ "📄 文件: " +:+ local_path))
        (fun e => ret (None, preview_failed (host env) e)).

(** The [finally] clause of the two archive operations:
    [if temp_dir and temp_dir.exists(): try: shutil.rmtree(temp_dir)
    except Exception: pass]. *)
Definition cleanup (h : Host) (temp_dir : option Path) : M unit :=
  match temp_dir with
  | None => ret tt
  | Some d =>
      do found <- Path_exists d in
      if found : bool
      then try_except (rmtree h d) (fun _ => ret tt)
      else ret tt
  end.

(** The part of [process_zip_upload] that follows the extraction inside
    the [try] block, with the [except Exception] clause. *)
Definition zip_export_body (env : Env) (ppi : Z) (html_file_path : string)
    : M (option string * option string * string) :=
  let h := host env in
  try_except
    (print ("📄 渲染 HTML: " +:+ html_file_path) >>
     do image_bytes <- sync_render_html_file_to_image env html_file_path ppi in
     do output_path <-
       NamedTemporaryFile_write h
         ("_export_" +:+ Py.str_int ppi +:+ "PPI.png") image_bytes in
     do size <- lift (host_image_size h image_bytes) in
     let '(img_width, img_height) := size in
     let status :=
       "✅ 导出成功！" +:+ nl +:+
       "📐 输出尺寸: " +:+ Py.str_int img_width +:+ " x " +:+
         Py.str_int img_height +:+ " 像素" +:+ nl +:+
       "🎯 PPI: " +:+ Py.str_int ppi +:+ nl +:+
       "📁 文件大小: " +:+ format_mb (len image_bytes) +:+ " MB" in
     ret (Some output_path, Some output_path, status))
    (fun e => ret (None, None, export_failed h e)).

(** [process_zip_upload(file_obj, ppi_choice)].  [file_obj] is the path of
    the uploaded file or [None].  The local [temp_dir] is [None] until
    [extract_zip_to_temp] has returned, so the [finally] clause sees
    [Some] directory exactly when the extraction returned; an exception of
    the extraction reaches the same handler and the same [finally]. *)
Definition process_zip_upload (env : Env) (file_obj : option string)
    (ppi_choice : string) : M (option string * option string * string) :=
  match file_obj with
  | None => ret (None, None, "⚠️ 请先上传 ZIP 文件")
  | Some file_path =>
      let h := host env in
      let ppi := PPI_OPTIONS_get ppi_choice in
      if negb (Py.endswith (Py.lower file_path) ".zip") then
        try_finally
          (ret (None, None, "❌ 请上传 ZIP 文件（包含 HTML 和资源）"))
          (cleanup h None)
      else
        attempt (print "📦 解压 ZIP 文件..." >> extract_zip_to_temp h file_path)
          (fun extracted =>
             match extracted with
             | Raises e =>
                 try_finally
                   (try_except (raise e)
                      (fun e => ret (None, None, export_failed h e)))
                   (cleanup h None)
             | Returns (temp_dir, html_file_path) =>
                 try_finally (zip_export_body env ppi html_file_path)
                   (cleanup h (Some temp_dir))
             end)
  end.

(** The part of [preview_zip_upload] that follows the extraction inside
    the [try] block, with the [except Exception] clause. *)
Definition zip_preview_body (env : Env) (html_file_path : string)
    : M (option string * string) :=
  let h := host env in
  try_except
    (do image_bytes <- sync_render_html_file_to_image env html_file_path 72 in
     do preview_path <-
       NamedTemporaryFile_write h "_preview.png" image_bytes in
     ret (Some preview_path, "✅ 预览已加载（72 PPI）"))
    (fun e => ret (None, preview_failed h e)).

(** [preview_zip_upload(file_obj)] *)
Definition preview_zip_upload (env : Env) (file_obj : option string)
    : M (option string * string) :=
  match file_obj with
  | None => ret (None, "⏳ 请上传 ZIP 文件")
  | Some file_path =>
      let h := host env in
      if negb (Py.endswith (Py.lower file_path) ".zip") then
        try_finally (ret (None, "❌ 请上传 ZIP 文件")) (cleanup h None)
      else
        attempt (print "📦 预览 ZIP 文件..." >> extract_zip_to_temp h file_path)
          (fun extracted =>
             match extracted with
             | Raises e =>
                 try_finally
                   (try_except (raise e)
                      (fun e => ret (None, preview_failed h e)))
                   (cleanup h None)
             | Returns (temp_dir, html_file_path) =>
                 try_finally (zip_preview_body env html_file_path)
                   (cleanup h (Some temp_dir))
             end)
  end.

(** ** The event bindings of the interface *)

(** The components the handlers read. *)
Record UI : Type := mkUI {
  local_path_input : string;
  zip_input : option string;
  ppi_dropdown : string
}.

(** [local_preview_btn.click] and [local_path_input.submit] *)
Definition on_local_preview (env : Env) (ui : UI) :=
  preview_local_path env (local_path_input ui).

(** [local_export_btn.click] *)
Definition on_local_export (env : Env) (ui : UI) :=
  process_local_path env (local_path_input ui) (ppi_dropdown ui).

(** [zip_preview_btn.click] and [zip_input.change] *)
Definition on_zip_preview (env : Env) (ui : UI) :=
  preview_zip_upload env (zip_input ui).

(** [zip_export_btn.click] *)
Definition on_zip_export (env : Env) (ui : UI) :=
  process_zip_upload env (zip_input ui) (ppi_dropdown ui).

(** ** The file dialogs and the entry point *)

(** What [subprocess.run(args, capture_output=True, text=True, timeout=t)]
    gives back: a completed process, or one of the exceptions the program
    tells apart. *)
Record completed : Type :=
  mkCompleted { returncode : Z; proc_stdout : string; proc_stderr : string }.

Inductive run_error : Type :=
| TimeoutExpired (msg : string)
| FileNotFoundError (msg : string)
| OtherError (e : exn).

Inductive run_result : Type :=
| Done (c : completed)
| Failed (err : run_error).

(** [str(e)] and [isinstance(e, Exception)] for these exceptions. *)
Definition run_error_str (err : run_error) : string :=
  match err with
  | TimeoutExpired msg | FileNotFoundError msg => msg
  | OtherError e => exn_str e
  end.

Definition run_error_exn (err : run_error) : exn :=
  match err with
  | TimeoutExpired msg | FileNotFoundError msg => mkExn true msg
  | OtherError e => e
  end.

(** The arguments of [app.launch]. *)
Record launch_args : Type := mkLaunch {
  server_name : string;
  server_port : Z;
  share : bool;
  inbrowser : bool;
  css : string;
  theme_primary_hue : string;
  theme_secondary_hue : string
}.

(** The desktop the program runs on. *)
Record Desktop : Type := mkDesktop {
  (* [platform.system()] *)
  desk_system : string;
  (* [os.path.expanduser('~')] *)
  desk_home : string;
  (* [subprocess.run] on the command and its timeout *)
  desk_run : list string -> option Z -> run_result;
  (* [repr(signal.Signals(n))], if [n] is a signal number *)
  desk_signal_repr : Z -> option string;
  (* [app.launch(...)]: it returns when the server stops, or raises *)
  desk_launch : launch_args -> outcome unit
}.

(** What these functions leave behind: the commands run, the lines
    printed and the launches of the interface, oldest first. *)
Record Desk : Type := mkDesk {
  desk_runs : list (list string * option Z);
  desk_printed : list string;
  desk_launches : list launch_args
}.

Definition D (A : Type) : Type := Desk -> outcome A * Desk.

Definition dret {A} (a : A) : D A := fun s => (Returns a, s).

Definition dbind {A B} (m : D A) (k : A -> D B) : D B :=
  fun s =>
    match m s with
    | (Returns a, s') => k a s'
    | (Raises e, s') => (Raises e, s')
    end.

Definition dprint (line : string) : D unit :=
  fun s =>
    (Returns tt,
     {| desk_runs := desk_runs s; desk_printed := desk_printed s ++ [line];
        desk_launches := desk_launches s |}).

(** [subprocess.run]: the command is logged; the result is handed to the
    [try] statement around the call. *)
Definition subprocess_run (d : Desktop) (args : list string)
    (timeout : option Z) : Desk -> run_result * Desk :=
  fun s =>
    (desk_run d args timeout,
     {| desk_runs := desk_runs s ++ [(args, timeout)];
        desk_printed := desk_printed s; desk_launches := desk_launches s |}).

Definition macos_script : string :=
  "
    tell application " +:+ dquote +:+
  "System Events" +:+ dquote +:+
  "
        activate
    end tell
    
    set theFile to choose file with prompt " +:+ dquote +:+
  "选择 HTML 文件" +:+ dquote +:+
  " of type {" +:+ dquote +:+
  "html" +:+ dquote +:+
  ", " +:+ dquote +:+
  "htm" +:+ dquote +:+
  ", " +:+ dquote +:+
  "public.html" +:+ dquote +:+
  "} default location (path to home folder)
    return POSIX path of theFile
    ".

(** [open_file_dialog_macos()] *)
Definition open_file_dialog_macos (d : Desktop) : D string :=
  fun s =>
    match subprocess_run d ["osascript"; "-e"; macos_script] (Some 120) s with
    | (Done result, s1) =>
        if returncode result =? 0 then
          let path := Py.strip (proc_stdout result) in
          if negb (Py.falsy path) then (Returns path, s1)
          else (Returns "", s1)
        else
          dbind (dprint ("文件选择取消或出错: " +:+ proc_stderr result))
            (fun _ => dret "") s1
    | (Failed (TimeoutExpired _), s1) =>
        dbind (dprint "文件选择超时") (fun _ => dret "") s1
    | (Failed err, s1) =>
        if exn_is_Exception (run_error_exn err) then
          dbind (dprint ("文件对话框错误: " +:+ run_error_str err))
            (fun _ => dret "") s1
        else (Raises (run_error_exn err), s1)
    end.

Definition windows_script : string :=
  "
    Add-Type -AssemblyName System.Windows.Forms
    $dialog = New-Object System.Windows.Forms.OpenFileDialog
    $dialog.Title = " +:+ dquote +:+
  "选择 HTML 文件" +:+ dquote +:+
  "
    $dialog.Filter = " +:+ dquote +:+
  "HTML 文件 (*.html;*.htm)|*.html;*.htm|所有文件 (*.*)|*.*" +:+ dquote +:+
  "
    $dialog.InitialDirectory = [Environment]::GetFolderPath(" +:+ dquote +:+
  "UserProfile" +:+ dquote +:+
  ")
    if ($dialog.ShowDialog() -eq [System.Windows.Forms.DialogResult]::OK) {
        Write-Output $dialog.FileName
    }
    ".

(** [open_file_dialog_windows()] *)
Definition open_file_dialog_windows (d : Desktop) : D string :=
  fun s =>
    match subprocess_run d ["powershell"; "-Command"; windows_script]
            (Some 120) s with
    | (Done result, s1) =>
        if returncode result =? 0 then
          let path := Py.strip (proc_stdout result) in
          if negb (Py.falsy path) then (Returns path, s1)
          else (Returns "", s1)
        else (Returns "", s1)
    | (Failed (TimeoutExpired _), s1) =>
        dbind (dprint "文件选择超时") (fun _ => dret "") s1
    | (Failed err, s1) =>
        if exn_is_Exception (run_error_exn err) then
          dbind (dprint ("文件对话框错误: " +:+ run_error_str err))
            (fun _ => dret "") s1
        else (Raises (run_error_exn err), s1)
    end.

(** One of the two attempts of [open_file_dialog_linux]: [Some path] is
    the [return] inside the [try], [None] means that the function goes on
    after the [try] statement. *)
Definition linux_attempt (d : Desktop) (args : list string)
    (label : string) : D (option string) :=
  fun s =>
    match subprocess_run d args (Some 120) s with
    | (Done result, s1) =>
        if returncode result =? 0
        then (Returns (Some (Py.strip (proc_stdout result))), s1)
        else (Returns None, s1)
    | (Failed (FileNotFoundError _), s1) => (Returns None, s1)
    | (Failed err, s1) =>
        if exn_is_Exception (run_error_exn err) then
          dbind (dprint (label +:+ run_error_str err))
            (fun _ => dret None) s1
        else (Raises (run_error_exn err), s1)
    end.

Definition zenity_args : list string :=
  ["zenity"; "--file-selection"; "--title=选择 HTML 文件";
   "--file-filter=HTML files | *.html *.htm"].

Definition kdialog_args (d : Desktop) : list string :=
  ["kdialog"; "--getopenfilename"; desk_home d; "HTML files (*.html *.htm)"].

(** [open_file_dialog_linux()] *)
Definition open_file_dialog_linux (d : Desktop) : D string :=
  dbind (linux_attempt d zenity_args "Zenity 错误: ")
    (fun r =>
       match r with
       | Some path => dret path
       | None =>
           dbind (linux_attempt d (kdialog_args d) "KDialog 错误: ")
             (fun r =>
                match r with
                | Some path => dret path
                | None => dret ""
                end)
       end).

(** [browse_file()]: the new value of the path box ([None] stands for
    [gr.update()], which leaves it as it is) and the status line. *)
Definition browse_file (d : Desktop) : D (option string * string) :=
  dbind
    (if String.eqb (desk_system d) "Darwin" then open_file_dialog_macos d
     else if String.eqb (desk_system d) "Windows"
          then open_file_dialog_windows d
          else open_file_dialog_linux d)
    (fun path =>
       if negb (Py.falsy path)
       then dret (Some path, "✅ 已选择: " +:+ name (Path_of_str path))
       else dret (None, "⏳ 未选择文件（点击浏览或直接粘贴路径）")).

Definition custom_css : string := "
.gradio-container {
    max-width: 1400px !important;
    margin: auto !important;
}

.path-input input {
    font-family: monospace !important;
    font-size: 14px !important;
}
".

(** [str(e)] of the [CalledProcessError] that [check=True] raises for the
    command of [main]. *)
Definition CalledProcessError_str (d : Desktop) (rc : Z) : string :=
  let cmd := "Command '['playwright', 'install', 'chromium']' " in
  if rc <? 0 then
    match desk_signal_repr d (- rc) with
    | Some r => cmd +:+ "died with " +:+ r +:+ "."
    | None => cmd +:+ "died with unknown signal " +:+ Py.str_int (- rc) +:+ "."
    end
  else cmd +:+ "returned non-zero exit status " +:+ Py.str_int rc +:+ ".".

(** The [except Exception as e] clause of [main]. *)
Definition install_failed (msg : string) : D unit :=
  dbind (dprint "⚠️ 请手动运行: playwright install chromium")
    (fun _ => dprint ("   错误信息: " +:+ msg)).

(** [app.launch(...)] *)
Definition app_launch (d : Desktop) (a : launch_args) : D unit :=
  fun s =>
    (desk_launch d a,
     {| desk_runs := desk_runs s; desk_printed := desk_printed s;
        desk_launches := desk_launches s ++ [a] |}).

Definition main_launch_args : launch_args :=
  {| server_name := "localhost"; server_port := 7860; share := false;
     inbrowser := true; css := custom_css;
     theme_primary_hue := "indigo"; theme_secondary_hue := "blue" |}.

(** [main()] *)
Definition main (d : Desktop) : D unit :=
  dbind (dprint "🚀 正在启动 HTML 海报导出工具...") (fun _ =>
  dbind (dprint "📦 首次运行可能需要安装 Playwright 浏览器...") (fun _ =>
  dbind
    (fun s =>
       match subprocess_run d ["playwright"; "install"; "chromium"] None s with
       | (Done result, s1) =>
           if returncode result =? 0
           then dprint "✅ Playwright 浏览器已就绪" s1
           else install_failed (CalledProcessError_str d (returncode result)) s1
       | (Failed err, s1) =>
           if exn_is_Exception (run_error_exn err)
           then install_failed (run_error_str err) s1
           else (Raises (run_error_exn err), s1)
       end)
    (fun _ => app_launch d main_launch_args))).

(** ** Vocabulary of the statements *)

(** The awaited steps of the page pipeline. *)
Definition is_step (ev : event) : bool :=
  match ev with
  | Goto _ _ | AddStyleTag _ | WaitForTimeout _ | Evaluate _
  | ElementScreenshot _ _ | PageScreenshot _ _ => true
  | _ => false
  end.

(** What every call of one render looks like, given its arguments. *)
Definition render_call_ok (url : string) (ppi width height : Z)
    (sel : string) (ev : event) : Prop :=
  match ev with
  | PlaywrightStart | PlaywrightStop | NewPage | BrowserClose => True
  | Launch headless => headless = true
  | NewContext vw vh s =>
      vw = width + 100 /\ vh = height + 200 /\ s = (inject_Z ppi / 96)%Q
  | Goto u wait_until => u = url /\ wait_until = "networkidle"
  | AddStyleTag c => c = snapshot_css
  | WaitForTimeout ms => ms = 2000
  | Evaluate x => x = "document.fonts.ready"
  | QuerySelector s => s = sel
  | ElementScreenshot t omit_background => t = "png" /\ omit_background = false
  | PageScreenshot t full_page => t = "png" /\ full_page = false
  end.

(** The awaited steps of one complete render, ending in the capture. *)
Definition pipeline (url : string) (shot : event) : list event :=
  [Goto url "networkidle"; AddStyleTag snapshot_css; WaitForTimeout 2000;
   Evaluate "document.fonts.ready"; shot].

(** All the calls of one complete render. *)
Definition session (url : string) (ppi width height : Z) (sel : string)
    (shot : event) : list event :=
  [PlaywrightStart; Launch true;
   NewContext (width + 100) (height + 200) (inject_Z ppi / 96)%Q; NewPage;
   Goto url "networkidle"; AddStyleTag snapshot_css; WaitForTimeout 2000;
   Evaluate "document.fonts.ready"; QuerySelector sel; shot; BrowserClose;
   PlaywrightStop].

(** A colour value is fully opaque: its alpha channel, if it has one, is 1. *)
Definition fully_opaque (v : string) : Prop :=
  forall a, rgba_alpha v = Some a -> (a == 1)%Q.

(** A relation between the world before and the world after holds for
    every run of a computation. *)
Definition preserves (R : World -> World -> Prop) {A} (m : M A) : Prop :=
  forall w, R w (snd (m w)).

(** The browser calls made in between all satisfy [P]. *)
Definition calls_extend (P : event -> Prop) (w w' : World) : Prop :=
  exists tr, calls w' = calls w ++ tr /\ Forall P tr.

(** No path disappears. *)
Definition fs_grows (w w' : World) : Prop :=
  forall p, is_Some (fs w !! p) -> is_Some (fs w' !! p).

(** A context, if the call asks for one, has device scale factor [q]. *)
Definition context_scale (q : Q) (ev : event) : Prop :=
  match ev with
  | NewContext _ _ s => s = q
  | _ => True
  end.

(** The URL a render navigates to. *)
Definition file_url (h : Host) (html_file_path : string) : string :=
  "file://" +:+ host_resolve h (Path_of_str html_file_path).

(** The same environment with another answer to the font-readiness wait. *)
Definition with_evaluate (env : Env) (r : outcome unit) : Env :=
  let e := engine env in
  {| engine :=
       {| eng_start := eng_start e; eng_launch := eng_launch e;
          eng_new_context := eng_new_context e; eng_new_page := eng_new_page e;
          eng_goto := eng_goto e; eng_add_style_tag := eng_add_style_tag e;
          eng_wait_for_timeout := eng_wait_for_timeout e;
          eng_evaluate := fun _ => r;
          eng_query_selector := eng_query_selector e;
          eng_element_screenshot := eng_element_screenshot e;
          eng_page_screenshot := eng_page_screenshot e;
          eng_close := eng_close e |};
     host := host env |}.

(** The same environment with another behaviour of [shutil.rmtree]. *)
Definition with_rmtree (env : Env) (r : option exn) : Env :=
  let h := host env in
  {| engine := engine env;
     host :=
       {| host_expanduser := host_expanduser h; host_exists := host_exists h;
          host_resolve := host_resolve h;
          host_tempdir := host_tempdir h;
          host_random_names := host_random_names h;
          host_extractall := host_extractall h;
          host_rmtree := fun _ => r;
          host_write := host_write h; host_image_size := host_image_size h;
          host_format_exc := host_format_exc h |} |}.



(** The candidates of an extracted tree, in the order of [html_files]. *)
Definition html_candidates (tree : list (list string * node))
    : list (list string) :=
  glob_members tree ".html" ++ glob_members tree ".htm".

(** ** A concrete environment *)

Definition demo_png : bytes := [Byte.x89; Byte.x50; Byte.x4e; Byte.x47].

Definition demo_engine : Engine :=
  {| eng_start := Returns tt;
     eng_launch := fun _ => Returns tt;
     eng_new_context := fun _ _ _ => Returns tt;
     eng_new_page := Returns tt;
     eng_goto := fun _ _ => Returns tt;
     eng_add_style_tag := fun _ => Returns tt;
     eng_wait_for_timeout := fun _ => Returns tt;
     eng_evaluate := fun _ => Returns tt;
     eng_query_selector := fun s => Returns (String.eqb s "#poster");
     eng_element_screenshot := fun _ _ => Returns demo_png;
     eng_page_screenshot := fun _ _ => Returns demo_png;
     eng_close := Returns tt |}.

Definition demo_tree : list (list string * node) :=
  [ (["docs"], Dir);
    (["docs"; "report.html"], File []);
    (["docs"; "poster-final.html"], File []);
    (["docs"; "logo.png"], File []) ].

Definition demo_host : Host :=
  {| host_expanduser := fun s => s;
     host_exists := posix_exists "/home/u";
     host_resolve := Path_str;
     host_tempdir := "/tmp";
     host_random_names := ["k3x9q2ab"];
     host_extractall := fun _ => Returns demo_tree;
     host_rmtree := fun _ => None;
     host_write := fun _ _ => Returns tt;
     host_image_size := fun _ => Returns (2813, 3750);
     host_format_exc := fun _ => "Traceback (most recent call last):" |}.

Definition demo_env : Env := {| engine := demo_engine; host := demo_host |}.

(** The same environment, where removing a directory is refused. *)
Definition demo_env_locked : Env :=
  with_rmtree demo_env (Some (mkExn true "[Errno 13] Permission denied")).

(** The same environment, where the archive holds no HTML document. *)
Definition demo_env_no_html : Env :=
  {| engine := demo_engine;
     host :=
       {| host_expanduser := fun s => s;
          host_exists := posix_exists "/home/u";
          host_resolve := Path_str;
          host_tempdir := "/tmp";
          host_random_names := ["k3x9q2ab"];
          host_extractall := fun _ => Returns [(["readme.txt"], File [])];
          host_rmtree := fun _ => None;
          host_write := fun _ _ => Returns tt;
          host_image_size := fun _ => Returns (2813, 3750);
          host_format_exc := fun _ => "Traceback (most recent call last):" |} |}.

Definition demo_ui : UI :=
  {| local_path_input := "/home/u/myposter.html";
     zip_input := Some "/uploads/poster.zip";
     ppi_dropdown := "600 PPI (超清印刷)" |}.

Definition demo_ui_screen : UI :=
  {| local_path_input := "/home/u/myposter.html";
     zip_input := Some "/uploads/poster.zip";
     ppi_dropdown := "72 PPI (屏幕预览)" |}.

Definition demo_world : World :=
  {| fs := {[ Path_of_str "/home" := Dir;
              Path_of_str "/home/u" := Dir;
              Path_of_str "/home/u/myposter.html" := File [];
              Path_of_str "/home/u/notes.txt" := File [];
              Path_of_str "/tmp" := Dir ]};
     calls := [];
     stdout := [] |}.

(** The export of the local poster in the concrete environment: the name
    of the exported file, the status and the world it ends in. *)
Definition demo_out : string := "/tmp/tmpk3x9q2ab_myposter_300PPI.png".

Definition demo_status : string :=
  Eval vm_compute in
    match fst (process_local_path demo_env "/home/u/myposter.html"
                 "300 PPI (高清印刷)" demo_world) with
    | Returns (_, _, status) => status
    | Raises _ => ""
    end.

Definition demo_final_world : World :=
  Eval vm_compute in
    snd (process_local_path demo_env "/home/u/myposter.html"
           "300 PPI (高清印刷)" demo_world).

(** ** Further vocabulary *)

(** The four densities of the presets. *)
Definition preset_density (v : Z) : Prop :=
  v = 72 \/ v = 150 \/ v = 300 \/ v = 600.

(** A dialog answered with a file: the process exits with code 0. *)
Definition answered (r : run_result) : option string :=
  match r with
  | Done c => if returncode c =? 0 then Some (Py.strip (proc_stdout c)) else None
  | Failed _ => None
  end.

(** The call was cut short by an exception that is no [Exception]. *)
Definition interrupted (r : run_result) : option exn :=
  match r with
  | Failed err =>
      if exn_is_Exception (run_error_exn err) then None
      else Some (run_error_exn err)
  | Done _ => None
  end.

(** The calls of a session between the start and the stop of the driver. *)
Definition session_body (url : string) (ppi width height : Z) (sel : string)
    (shot : event) : list event :=
  [Launch true;
   NewContext (width + 100) (height + 200) (inject_Z ppi / 96)%Q; NewPage;
   Goto url "networkidle"; AddStyleTag snapshot_css; WaitForTimeout 2000;
   Evaluate "document.fonts.ready"; QuerySelector sel; shot; BrowserClose].

(** The calls of at most one browser session: none, or a start of the
    driver that failed, or a start and a stop of the driver with only
    calls of other kinds in between. *)
Definition one_session (tr : list event) : Prop :=
  tr = [] \/ tr = [PlaywrightStart] \/
  exists body,
    tr = PlaywrightStart :: body ++ [PlaywrightStop] /\
    Forall (fun ev => ev <> PlaywrightStart /\ ev <> PlaywrightStop) body.

(** Every path that exists keeps what it names. *)
Definition fs_keeps (w w' : World) : Prop :=
  forall p n, fs w !! p = Some n -> fs w' !! p = Some n.

(** No browser call is made. *)
Definition no_calls (w w' : World) : Prop := calls_extend (fun _ => False) w w'.


(** The same environment with another behaviour of the start of the
    driver. *)
Definition with_start (env : Env) (r : outcome unit) : Env :=
  let e := engine env in
  {| engine :=
       {| eng_start := r; eng_launch := eng_launch e;
          eng_new_context := eng_new_context e; eng_new_page := eng_new_page e;
          eng_goto := eng_goto e; eng_add_style_tag := eng_add_style_tag e;
          eng_wait_for_timeout := eng_wait_for_timeout e;
          eng_evaluate := eng_evaluate e;
          eng_query_selector := eng_query_selector e;
          eng_element_screenshot := eng_element_screenshot e;
          eng_page_screenshot := eng_page_screenshot e;
          eng_close := eng_close e |};
     host := host env |}.

(** The same environment with another behaviour of the image decoder. *)
Definition with_image_size (env : Env) (r : outcome (Z * Z)) : Env :=
  let h := host env in
  {| engine := engine env;
     host :=
       {| host_expanduser := host_expanduser h; host_exists := host_exists h;
          host_resolve := host_resolve h;
          host_tempdir := host_tempdir h;
          host_random_names := host_random_names h;
          host_extractall := host_extractall h;
          host_rmtree := host_rmtree h;
          host_write := host_write h; host_image_size := fun _ => r;
          host_format_exc := host_format_exc h |} |}.

(** Two white-space characters outside ASCII, as encoded: the no-break
    space U+00A0 and the ideographic space U+3000. *)
Definition nbsp : string :=
  String (ascii_of_nat 194) (String (ascii_of_nat 160) "").

Definition ideographic_space : string :=
  String (ascii_of_nat 227)
    (String (ascii_of_nat 128) (String (ascii_of_nat 128) "")).

(** The scratch directory of the concrete environment, the document the
    locator finds there and the world after the extraction. *)
Definition demo_scratch : string := "/tmp/poster_export_k3x9q2ab".

Definition demo_document : string :=
  "/tmp/poster_export_k3x9q2ab/docs/poster-final.html".

Definition demo_extracted : World :=
  Eval vm_compute in
    snd (extract_zip_to_temp demo_host "/uploads/poster.zip" demo_world).

(** What every browser call of the four operations looks like, whatever
    their input: the size, the selector and the options are the fixed ones,
    and navigation is to a file URL. *)
Definition operation_call (ev : event) : Prop :=
  match ev with
  | Launch headless => headless = true
  | NewContext vw vh _ => vw = 1000 /\ vh = 1400
  | Goto u wait_until =>
      Py.startswith u "file://" = true /\ wait_until = "networkidle"
  | AddStyleTag c => c = snapshot_css
  | WaitForTimeout ms => ms = 2000
  | Evaluate x => x = "document.fonts.ready"
  | QuerySelector s => s = "#poster"
  | ElementScreenshot t omit_background => t = "png" /\ omit_background = false
  | PageScreenshot t full_page => t = "png" /\ full_page = false
  | PlaywrightStart | PlaywrightStop | NewPage | BrowserClose => True
  end.

(** The preview of the local poster in the concrete environment: the name
    of the preview file, the status and the world it ends in. *)
Definition demo_preview : string := "/tmp/tmpk3x9q2ab_preview.png".

Definition demo_preview_status : string :=
  Eval vm_compute in
    match fst (preview_local_path demo_env "/home/u/myposter.html"
                 demo_world) with
    | Returns (_, status) => status
    | Raises _ => ""
    end.

Definition demo_preview_world : World :=
  Eval vm_compute in
    snd (preview_local_path demo_env "/home/u/myposter.html" demo_world).



(** The concrete environment without an installed browser. *)
Definition demo_no_browser : exn :=
  mkExn true "BrowserType.launch: Executable doesn't exist".

Definition demo_env_no_browser : Env :=
  with_start demo_env (Raises demo_no_browser).

(** The concrete environment with a decoder that rejects every image. *)
Definition demo_bad_image : exn := mkExn true "cannot identify image file".

Definition demo_env_bad_image : Env :=
  with_image_size demo_env (Raises demo_bad_image).

(** A desktop with zenity, where the user closes the first dialog and
    picks a file in the second. *)
Definition demo_desktop : Desktop :=
  {| desk_system := "Linux";
     desk_home := "/home/u";
     desk_run := fun args _ =>
       match args with
       | "zenity" :: _ => Done (mkCompleted 1 "" "")
       | "kdialog" :: _ =>
           Done (mkCompleted 0 ("/home/u/myposter.html" +:+ nl) "")
       | _ => Failed (FileNotFoundError "[Errno 2] No such file or directory")
       end;
     desk_signal_repr := fun _ => None;
     desk_launch := fun _ => Returns tt |}.

(** A desktop whose zenity prints the chosen path followed by a no-break
    space and a line feed. *)
Definition demo_desktop_nbsp : Desktop :=
  {| desk_system := "Linux";
     desk_home := "/home/u";
     desk_run := fun _ _ =>
       Done (mkCompleted 0 ("/home/u/myposter.html" +:+ nbsp +:+ nl) "");
     desk_signal_repr := fun _ => None;
     desk_launch := fun _ => Returns tt |}.

Definition demo_desk : Desk :=
  {| desk_runs := []; desk_printed := []; desk_launches := [] |}.

(** * Properties *)

(** ** Paths *)









(** ** The selection loop *)

Section SelectLoop.
Variable temp_dir : Path.


Lemma select_loop_In html_file l :
  select_loop temp_dir html_file l = html_file \/
  In (select_loop temp_dir html_file l) l.
Proof.
  revert html_file. induction l as [|f l IH]; intros html_file; simpl.
  - by left.
  - case_bool_decide; [right; by left|].
    destruct (has_keyword f).
    + destruct (IH f) as [->|Hin]; right; [by left | by right].
    + destruct (IH html_file) as [->|Hin]; [by left | right; by right].
Qed.




End SelectLoop.

(** ** C1: the selection policy of the locator *)

Lemma rglob_candidates temp_dir tree :
  rglob temp_dir tree ".html" ++ rglob temp_dir tree ".htm" =
  List.map (joinpath temp_dir) (html_candidates tree).
Proof. unfold rglob, html_candidates. by rewrite List.map_app. Qed.



(** The order of the candidates is that of [html_files]: the matches of
    [*.html] come before those of [*.htm], each in traversal order; among
    several names with a keyword the loop keeps the last one. *)
Example enumeration_order_demo :
  select_loop (Path_of_str "/t") (Path_of_str "/t/b/y.html")
    (rglob (Path_of_str "/t")
       [(["a"; "x.htm"], File []); (["b"; "y.html"], File [])] ".html" ++
     rglob (Path_of_str "/t")
       [(["a"; "x.htm"], File []); (["b"; "y.html"], File [])] ".htm") =
    Path_of_str "/t/b/y.html" /\
  select_loop (Path_of_str "/t") (Path_of_str "/t/a/index.html")
    [Path_of_str "/t/a/index.html"; Path_of_str "/t/b/Poster.html"] =
    Path_of_str "/t/b/Poster.html".
Proof. split; vm_compute; reflexivity. Qed.

(** The example of the specification: among [report.html] and
    [poster-final.html], neither at the root, the second is selected. *)
Example locate_demo :
  fst (extract_zip_to_temp demo_host "/uploads/poster.zip" demo_world) =
    Returns (Path_of_str "/tmp/poster_export_k3x9q2ab",
             "/tmp/poster_export_k3x9q2ab/docs/poster-final.html").
Proof. vm_compute. reflexivity. Qed.

(** ** The render engine *)

Ltac engine_call x :=
  lazymatch x with
  | eng_start _ => idtac
  | eng_launch _ _ => idtac
  | eng_new_context _ _ _ _ => idtac
  | eng_new_page _ => idtac
  | eng_goto _ _ _ => idtac
  | eng_add_style_tag _ _ => idtac
  | eng_wait_for_timeout _ _ => idtac
  | eng_evaluate _ _ => idtac
  | eng_query_selector _ _ => idtac
  | eng_element_screenshot _ _ _ => idtac
  | eng_page_screenshot _ _ _ => idtac
  | eng_close _ => idtac
  end.

Ltac step_outcome :=
  match goal with
  | |- context [match ?x with Returns _ => _ | Raises _ => _ end] =>
      engine_call x;
      let E := fresh "E" in destruct x as [?|?] eqn:E
  | |- context [if exn_is_Exception ?e then _ else _] =>
      is_var e;
      let E := fresh "E" in destruct (exn_is_Exception e) eqn:E
  | |- context [if ?b then _ else _] => is_var b; destruct b
  end;
  cbn [fst snd fs calls stdout].

Ltac run_render :=
  cbv beta iota zeta delta
    [sync_render_html_file_to_image render_html_file_to_image
     async_with_playwright try_finally try_except bind call print ret
     fst snd fs calls stdout];
  repeat step_outcome.

Lemma render_inv env path ppi width height sel w r w' :
  render_html_file_to_image env path ppi width height sel w = (r, w') ->
  exists tr,
    w' = {| fs := fs w; calls := calls w ++ tr;
            stdout := stdout w ++ ["📂 直接加载本地文件: " +:+ file_url (host env) path] |} /\
    Forall (render_call_ok (file_url (host env) path) ppi width height sel) tr /\
    (exists tr', tr = PlaywrightStart :: tr') /\
    (eng_start (engine env) = Returns tt -> In (Launch true) tr) /\
    (eng_start (engine env) = Returns tt ->
     eng_launch (engine env) true = Returns tt ->
     In (NewContext (width + 100) (height + 200) (inject_Z ppi / 96)%Q) tr) /\
    exists shot,
      (shot = ElementScreenshot "png" false \/ shot = PageScreenshot "png" false) /\
      List.filter is_step tr `prefix_of` pipeline (file_url (host env) path) shot /\
      match r with
      | Returns _ =>
          List.filter is_step tr = pipeline (file_url (host env) path) shot
      | Raises _ => True
      end.
Proof.
  unfold file_url, pipeline.
  run_render; intros [= <- <-];
    rewrite <- ?app_assoc; cbn [app];
    (eexists; split; [reflexivity|]; split; [repeat constructor|];
     split; [eexists; reflexivity|];
     split; [intros; first [congruence | cbn; tauto]|];
     split; [intros; first [congruence | cbn; tauto]|];
     first
       [ exists (ElementScreenshot "png" false); split; [by left|];
         split; [eexists; cbn; reflexivity | by cbn]
       | exists (PageScreenshot "png" false); split; [by right|];
         split; [eexists; cbn; reflexivity | by cbn] ]).
Qed.


(** ** C2: the order of the awaited steps *)


(** A concrete run, and the same run when the font wait raises. *)
Example pipeline_demo :
  List.filter is_step
    (calls (snd (render_html_file_to_image demo_env "/home/u/myposter.html"
                   300 900 1200 "#poster" demo_world))) =
    pipeline "file:///home/u/myposter.html" (ElementScreenshot "png" false) /\
  fst (render_html_file_to_image
         (with_evaluate demo_env (Raises (mkExn true "fonts are not ready")))
         "/home/u/myposter.html" 300 900 1200 "#poster" demo_world) =
    Returns demo_png.
Proof. split; vm_compute; reflexivity. Qed.

(** ** C6: viewport and device scale factor *)

(** C6.  A render with density [d] and size [(w, h)] asks for a browser
    context only with a viewport of [(w + 100, h + 200)] and the device
    scale factor [d / 96], and it does ask for it once the browser has been
    launched. *)
Theorem C6_viewport_and_scale env path d w h sel world :
  exists tr,
    calls (snd (render_html_file_to_image env path d w h sel world)) =
      calls world ++ tr /\
    (forall vw vh s, In (NewContext vw vh s) tr ->
       vw = w + 100 /\ vh = h + 200 /\ s = (inject_Z d / 96)%Q) /\
    (eng_start (engine env) = Returns tt ->
     eng_launch (engine env) true = Returns tt ->
     In (NewContext (w + 100) (h + 200) (inject_Z d / 96)%Q) tr).
Proof.
  destruct (render_html_file_to_image env path d w h sel world)
    as [r w'] eqn:Hrun.
  destruct (render_inv _ _ _ _ _ _ _ _ _ Hrun)
    as (tr & -> & Hok & _ & _ & Hctx & _).
  exists tr. cbn [snd calls]. split; [reflexivity|]. split; [|exact Hctx].
  intros vw vh s Hin.
  rewrite List.Forall_forall in Hok. exact (Hok _ Hin).
Qed.

Lemma C6_viewport_and_scale_witness :
  exists tr,
    calls (snd (render_html_file_to_image demo_env "/home/u/myposter.html"
                  300 900 1200 "#poster" demo_world)) = calls demo_world ++ tr /\
    In (NewContext (900 + 100) (1200 + 200) (inject_Z 300 / 96)%Q) tr.
Proof.
  destruct (C6_viewport_and_scale demo_env "/home/u/myposter.html"
              300 900 1200 "#poster" demo_world) as (tr & Hcalls & _ & Hctx).
  exists tr. split; [exact Hcalls|]. apply Hctx; reflexivity.
Defined.

(** A render in which every call of the browser succeeds (the font wait
    may raise an [Exception]). *)
Lemma render_success env path ppi width height sel w q bs :
  eng_start (engine env) = Returns tt ->
  eng_launch (engine env) true = Returns tt ->
  eng_new_context (engine env) (width + 100) (height + 200)
    (inject_Z ppi / 96)%Q = Returns tt ->
  eng_new_page (engine env) = Returns tt ->
  eng_goto (engine env) (file_url (host env) path) "networkidle" = Returns tt ->
  eng_add_style_tag (engine env) snapshot_css = Returns tt ->
  eng_wait_for_timeout (engine env) 2000 = Returns tt ->
  (eng_evaluate (engine env) "document.fonts.ready" = Returns tt \/
   exists ex, eng_evaluate (engine env) "document.fonts.ready" = Raises ex /\
              exn_is_Exception ex = true) ->
  eng_query_selector (engine env) sel = Returns q ->
  (if q then eng_element_screenshot (engine env) "png" false
   else eng_page_screenshot (engine env) "png" false) = Returns bs ->
  eng_close (engine env) = Returns tt ->
  render_html_file_to_image env path ppi width height sel w =
    (Returns bs,
     {| fs := fs w;
        calls := calls w ++
          session (file_url (host env) path) ppi width height sel
            (if q then ElementScreenshot "png" false
             else PageScreenshot "png" false);
        stdout := stdout w ++ ["📂 直接加载本地文件: " +:+ file_url (host env) path] |}).
Proof.
  unfold file_url, session.
  intros H1 H2 H3 H4 H5 H6 H7 H8 H9 H10 H11.
  cbv beta iota zeta delta
    [render_html_file_to_image async_with_playwright try_finally try_except
     bind call print ret fst snd fs calls stdout].
  rewrite H1, H2, H3, H4, H5, H6, H7.
  destruct H8 as [H8|(ex & H8 & Hex)]; rewrite H8, ?Hex, H9;
    destruct q; rewrite H10, H11; cbn [fs calls stdout];
    rewrite <- ?app_assoc; reflexivity.
Qed.

(** The scale factors of the four presets are dyadic rationals. *)
Example preset_scale_factors :
  (inject_Z (PPI_OPTIONS_get "72 PPI (屏幕预览)") / 96 == 3 # 4)%Q /\
  (inject_Z (PPI_OPTIONS_get "150 PPI (普通打印)") / 96 == 25 # 16)%Q /\
  (inject_Z (PPI_OPTIONS_get "300 PPI (高清印刷)") / 96 == 25 # 8)%Q /\
  (inject_Z (PPI_OPTIONS_get "600 PPI (超清印刷)") / 96 == 25 # 4)%Q.
Proof. repeat split. Qed.

(** ** C5: capture of the element, or of the viewport *)

(** C5.  In a render whose browser calls succeed (the font wait may raise
    an [Exception]): if the selector matches no element the render returns
    the bytes of a capture of the page taken with [full_page=False], and no
    element capture is made; if it matches, the render returns the bytes of
    a capture of that element taken with [omit_background=False], and no
    page capture is made. *)
Theorem C5_capture_fallback env path ppi width height sel w bs :
  eng_start (engine env) = Returns tt ->
  eng_launch (engine env) true = Returns tt ->
  eng_new_context (engine env) (width + 100) (height + 200)
    (inject_Z ppi / 96)%Q = Returns tt ->
  eng_new_page (engine env) = Returns tt ->
  eng_goto (engine env) (file_url (host env) path) "networkidle" = Returns tt ->
  eng_add_style_tag (engine env) snapshot_css = Returns tt ->
  eng_wait_for_timeout (engine env) 2000 = Returns tt ->
  (eng_evaluate (engine env) "document.fonts.ready" = Returns tt \/
   exists ex, eng_evaluate (engine env) "document.fonts.ready" = Raises ex /\
              exn_is_Exception ex = true) ->
  eng_close (engine env) = Returns tt ->
  (eng_query_selector (engine env) sel = Returns false ->
   eng_page_screenshot (engine env) "png" false = Returns bs ->
   fst (render_html_file_to_image env path ppi width height sel w) = Returns bs /\
   calls (snd (render_html_file_to_image env path ppi width height sel w)) =
     calls w ++ session (file_url (host env) path) ppi width height sel
                  (PageScreenshot "png" false)) /\
  (eng_query_selector (engine env) sel = Returns true ->
   eng_element_screenshot (engine env) "png" false = Returns bs ->
   fst (render_html_file_to_image env path ppi width height sel w) = Returns bs /\
   calls (snd (render_html_file_to_image env path ppi width height sel w)) =
     calls w ++ session (file_url (host env) path) ppi width height sel
                  (ElementScreenshot "png" false)).
Proof.
  intros H1 H2 H3 H4 H5 H6 H7 H8 H11. split; intros H9 H10.
  - rewrite (render_success env path ppi width height sel w false bs); auto.
  - rewrite (render_success env path ppi width height sel w true bs); auto.
Qed.

Lemma C5_capture_fallback_witness :
  fst (render_html_file_to_image demo_env "/home/u/myposter.html" 300
         900 1200 "#nothing" demo_world) = Returns demo_png /\
  calls (snd (render_html_file_to_image demo_env "/home/u/myposter.html" 300
                900 1200 "#nothing" demo_world)) =
    calls demo_world ++
    session (file_url demo_host "/home/u/myposter.html") 300 900 1200
      "#nothing" (PageScreenshot "png" false).
Proof.
  apply (C5_capture_fallback demo_env "/home/u/myposter.html" 300 900 1200
           "#nothing" demo_world demo_png);
    first [reflexivity | left; reflexivity].
Defined.

(** ** C8: the style override *)

(** C8, as the specification words it, fails at the background of the
    glass panels: the colour is white with alpha 0.96, which is not fully
    opaque. *)
Lemma C8_background_not_fully_opaque :
  exists v, css_lookup snapshot_css ".glass-panel" "background" = Some (v, true) /\
            ~ fully_opaque v.
Proof.
  exists "rgba(255, 255, 255, 0.96)". split; [vm_compute; reflexivity|].
  intros H. specialize (H _ eq_refl). vm_compute in H. discriminate H.
Qed.

(** C8 (amended).  Every style sheet a render injects is the one fixed
    string [snapshot_css], whatever the arguments and the environment.  It
    (1) gives the glass panels, with [!important], a white background of
    alpha 0.96 and no backdrop filter, (2) sets geometric-precision text
    rendering and antialiased font smoothing on [body] and [#poster], and
    (3) hides [#control-panel] with [display: none !important]. *)
Theorem C8_style_override :
  (forall env path ppi width height sel w,
     exists tr,
       calls (snd (render_html_file_to_image env path ppi width height sel w)) =
         calls w ++ tr /\
       forall c, In (AddStyleTag c) tr -> c = snapshot_css) /\
  css_lookup snapshot_css ".glass-panel" "background" =
    Some ("rgba(255, 255, 255, 0.96)", true) /\
  (exists a, rgba_alpha "rgba(255, 255, 255, 0.96)" = Some a /\ (a == 96 # 100)%Q) /\
  css_lookup snapshot_css ".glass-panel" "backdrop-filter" = Some ("none", true) /\
  css_lookup snapshot_css ".glass-panel" "-webkit-backdrop-filter" =
    Some ("none", true) /\
  css_lookup snapshot_css "body, #poster" "text-rendering" =
    Some ("geometricPrecision", false) /\
  css_lookup snapshot_css "body, #poster" "-webkit-font-smoothing" =
    Some ("antialiased", false) /\
  css_lookup snapshot_css "#control-panel" "display" = Some ("none", true).
Proof.
  split.
  - intros env path ppi width height sel w.
    destruct (render_html_file_to_image env path ppi width height sel w)
      as [r w'] eqn:Hrun.
    destruct (render_inv _ _ _ _ _ _ _ _ _ Hrun) as (tr & -> & Hok & _).
    exists tr. cbn [snd calls]. split; [reflexivity|].
    intros c Hin. rewrite List.Forall_forall in Hok. exact (Hok _ Hin).
  - repeat split; try (vm_compute; reflexivity).
    eexists. split; [vm_compute; reflexivity|reflexivity].
Qed.

Lemma C8_style_override_witness :
  exists tr,
    calls (snd (render_html_file_to_image demo_env "/home/u/myposter.html"
                  300 900 1200 "#poster" demo_world)) = calls demo_world ++ tr /\
    forall c, In (AddStyleTag c) tr -> c = snapshot_css.
Proof.
  exact (proj1 C8_style_override demo_env "/home/u/myposter.html"
           300 900 1200 "#poster" demo_world).
Defined.

(** ** Relations that every step preserves *)

Section Preserves.
Variable R : World -> World -> Prop.
Hypothesis R_refl : forall w, R w w.
Hypothesis R_trans : forall w1 w2 w3, R w1 w2 -> R w2 w3 -> R w1 w3.

Lemma preserves_ret {A} (a : A) : preserves R (ret a).
Proof. intros w. apply R_refl. Qed.

Lemma preserves_raise {A} (e : exn) : preserves R (@raise A e).
Proof. intros w. apply R_refl. Qed.

Lemma preserves_lift {A} (r : outcome A) : preserves R (lift r).
Proof. intros w. apply R_refl. Qed.

Lemma preserves_bind {A B} (m : M A) (k : A -> M B) :
  preserves R m -> (forall a, preserves R (k a)) -> preserves R (bind m k).
Proof.
  intros Hm Hk w. unfold bind. specialize (Hm w).
  destruct (m w) as [[a|e] w1]; cbn [snd] in *; [|exact Hm].
  eapply R_trans; [exact Hm | apply Hk].
Qed.

Lemma preserves_attempt {A B} (m : M A) (k : outcome A -> M B) :
  preserves R m -> (forall r, preserves R (k r)) -> preserves R (attempt m k).
Proof.
  intros Hm Hk w. unfold attempt. specialize (Hm w).
  destruct (m w) as [r w1]; cbn [snd] in *.
  eapply R_trans; [exact Hm | apply Hk].
Qed.

Lemma preserves_try_except {A} (body : M A) (handler : exn -> M A) :
  preserves R body -> (forall e, preserves R (handler e)) ->
  preserves R (try_except body handler).
Proof.
  intros Hb Hh w. unfold try_except. specialize (Hb w).
  destruct (body w) as [[a|e] w1]; cbn [snd] in *; [exact Hb|].
  destruct (exn_is_Exception e); [|exact Hb].
  eapply R_trans; [exact Hb | apply Hh].
Qed.

Lemma preserves_try_finally {A} (body : M A) (fin : M unit) :
  preserves R body -> preserves R fin -> preserves R (try_finally body fin).
Proof.
  intros Hb Hf w. unfold try_finally. specialize (Hb w).
  destruct (body w) as [r w1]; cbn [snd] in *. specialize (Hf w1).
  destruct (fin w1) as [[u|e] w2]; cbn [snd] in *;
    eapply R_trans; eassumption.
Qed.
End Preserves.

Ltac preserves_step side leaf :=
  first
    [ leaf
    | lazymatch goal with
      | |- preserves _ (ret _) => apply preserves_ret; side
      | |- preserves _ (raise _) => apply preserves_raise; side
      | |- preserves _ (lift _) => apply preserves_lift; side
      | |- preserves _ (bind _ _) =>
          apply preserves_bind; [side | | intros ?; cbv beta]
      | |- preserves _ (attempt _ _) =>
          apply preserves_attempt; [side | | intros ?; cbv beta]
      | |- preserves _ (try_except _ _) =>
          apply preserves_try_except; [side | | intros ?; cbv beta]
      | |- preserves _ (try_finally _ _) =>
          apply preserves_try_finally; [side | |]
      | |- preserves _ (if ?b then _ else _) => destruct b
      | |- preserves _ (match ?x with _ => _ end) => destruct x
      end ].

(** *** The browser calls *)

Lemma calls_extend_refl P w : calls_extend P w w.
Proof. exists []. by rewrite app_nil_r. Qed.

Lemma calls_extend_trans P w1 w2 w3 :
  calls_extend P w1 w2 -> calls_extend P w2 w3 -> calls_extend P w1 w3.
Proof.
  intros (t1 & E1 & F1) (t2 & E2 & F2). exists (t1 ++ t2).
  rewrite E2, E1, app_assoc. split; [reflexivity|]. by apply Forall_app.
Qed.

Lemma calls_extend_same P w w' : calls w' = calls w -> calls_extend P w w'.
Proof. intros E. exists []. by rewrite app_nil_r. Qed.

Lemma calls_extend_weaken (P Q : event -> Prop) w w' :
  (forall ev, P ev -> Q ev) -> calls_extend P w w' -> calls_extend Q w w'.
Proof.
  intros HPQ (tr & E & F). exists tr. split; [exact E|].
  eapply Forall_impl; eassumption.
Qed.

Lemma print_calls P line : preserves (calls_extend P) (print line).
Proof. intros w. by apply calls_extend_same. Qed.

Lemma Path_exists_world p w : snd (Path_exists p w) = w.
Proof. reflexivity. Qed.

Lemma Path_exists_calls P p : preserves (calls_extend P) (Path_exists p).
Proof. intros w. by apply calls_extend_same. Qed.

Lemma os_path_exists_calls P h s :
  preserves (calls_extend P) (os_path_exists h s).
Proof. intros w. by apply calls_extend_same. Qed.

Lemma NamedTemporaryFile_write_calls P h suffix data :
  preserves (calls_extend P) (NamedTemporaryFile_write h suffix data).
Proof.
  intros w. apply calls_extend_same. unfold NamedTemporaryFile_write.
  destruct (mkstemp_name h suffix (fs w)); [|reflexivity].
  destruct (host_write h s data); reflexivity.
Qed.

Lemma mkdtemp_calls P h prefix : preserves (calls_extend P) (mkdtemp h prefix).
Proof.
  intros w. apply calls_extend_same. unfold mkdtemp.
  destruct (mkdtemp_name h prefix (fs w)); reflexivity.
Qed.

Lemma extractall_calls P h zip_path temp_dir :
  preserves (calls_extend P) (extractall h zip_path temp_dir).
Proof.
  intros w. apply calls_extend_same. unfold extractall.
  destruct (host_extractall h zip_path); reflexivity.
Qed.

Lemma rmtree_calls P h dir : preserves (calls_extend P) (rmtree h dir).
Proof.
  intros w. apply calls_extend_same. unfold rmtree.
  destruct (host_rmtree h dir); reflexivity.
Qed.

Lemma render_calls env path ppi width height sel :
  preserves
    (calls_extend (render_call_ok (file_url (host env) path) ppi width height sel))
    (render_html_file_to_image env path ppi width height sel).
Proof.
  intros w.
  destruct (render_html_file_to_image env path ppi width height sel w)
    as [r w'] eqn:Hrun.
  destruct (render_inv _ _ _ _ _ _ _ _ _ Hrun) as (tr & -> & Hok & _).
  exists tr. by split.
Qed.

Lemma render_call_ok_scale url ppi width height sel ev :
  render_call_ok url ppi width height sel ev ->
  context_scale (inject_Z ppi / 96)%Q ev.
Proof. destruct ev; cbn; tauto. Qed.

Lemma sync_render_scale env path ppi :
  preserves (calls_extend (context_scale (inject_Z ppi / 96)%Q))
    (sync_render_html_file_to_image env path ppi).
Proof.
  intros w. eapply calls_extend_weaken; [apply render_call_ok_scale|].
  apply render_calls.
Qed.

Ltac calls_leaf :=
  first
    [ apply print_calls | apply Path_exists_calls | apply os_path_exists_calls
    | apply NamedTemporaryFile_write_calls | apply mkdtemp_calls
    | apply extractall_calls | apply rmtree_calls
    | apply sync_render_scale ].

Ltac calls_side :=
  first [exact (calls_extend_refl _) | exact (calls_extend_trans _)].

Ltac preserves_calls leaf :=
  repeat preserves_step calls_side ltac:(first [calls_leaf | leaf]).

Lemma extract_zip_to_temp_calls P h zip_path :
  preserves (calls_extend P) (extract_zip_to_temp h zip_path).
Proof.
  unfold extract_zip_to_temp.
  preserves_calls fail.
Qed.

Lemma cleanup_calls P h temp_dir : preserves (calls_extend P) (cleanup h temp_dir).
Proof.
  unfold cleanup.
  preserves_calls fail.
Qed.

Lemma preview_local_path_scale env local_path :
  preserves (calls_extend (context_scale (inject_Z 72 / 96)%Q))
    (preview_local_path env local_path).
Proof.
  unfold preview_local_path.
  preserves_calls fail.
Qed.

Lemma preview_zip_upload_scale env file_obj :
  preserves (calls_extend (context_scale (inject_Z 72 / 96)%Q))
    (preview_zip_upload env file_obj).
Proof.
  unfold preview_zip_upload, zip_preview_body.
  preserves_calls
    ltac:(first [apply extract_zip_to_temp_calls | apply cleanup_calls]).
Qed.

Lemma process_local_path_scale env local_path ppi_choice :
  preserves
    (calls_extend (context_scale (inject_Z (PPI_OPTIONS_get ppi_choice) / 96)%Q))
    (process_local_path env local_path ppi_choice).
Proof.
  unfold process_local_path.
  preserves_calls fail.
Qed.

Lemma process_zip_upload_scale env file_obj ppi_choice :
  preserves
    (calls_extend (context_scale (inject_Z (PPI_OPTIONS_get ppi_choice) / 96)%Q))
    (process_zip_upload env file_obj ppi_choice).
Proof.
  unfold process_zip_upload, zip_export_body.
  preserves_calls
    ltac:(first [apply extract_zip_to_temp_calls | apply cleanup_calls]).
Qed.

(** ** The density of a preview *)

(** A preview of a valid document does create a context, at density 72,
    although 600 is selected. *)
Example preview_context_demo :
  In (NewContext 1000 1400 (inject_Z 72 / 96)%Q)
     (calls (snd (on_local_preview demo_env demo_ui demo_world))).
Proof. vm_compute. tauto. Qed.

(** ** C4: the density is not validated *)

(** C4, as the specification words it, fails: a label that is no preset is
    replaced by 300 and exported, and a render asked for density 0 or -72
    starts and launches the browser and returns an image. *)
Lemma C4_invalid_density_not_rejected :
  PPI_OPTIONS !! "0 PPI" = None /\
  In (NewContext 1000 1400 (inject_Z 300 / 96)%Q)
     (calls (snd (process_local_path demo_env "/home/u/myposter.html" "0 PPI"
                    demo_world))) /\
  (exists out status,
     fst (process_local_path demo_env "/home/u/myposter.html" "0 PPI"
            demo_world) = Returns (Some out, Some out, status)) /\
  In (NewContext 1000 1400 (inject_Z 0 / 96)%Q)
     (calls (snd (render_html_file_to_image demo_env "/home/u/myposter.html"
                    0 900 1200 "#poster" demo_world))) /\
  fst (render_html_file_to_image demo_env "/home/u/myposter.html"
         0 900 1200 "#poster" demo_world) = Returns demo_png /\
  In (Launch true)
     (calls (snd (render_html_file_to_image demo_env "/home/u/myposter.html"
                    (-72) 900 1200 "#poster" demo_world))).
Proof.
  split; [vm_compute; reflexivity|].
  split; [vm_compute; tauto|].
  split; [do 2 eexists; vm_compute; reflexivity|].
  split; [vm_compute; tauto|].
  split; [vm_compute; reflexivity | vm_compute; tauto].
Qed.

(** C4 (amended).  No density is rejected.  A label that is not one of
    the presets stands for the default density 300: the export runs exactly
    as with the label of that preset.  A render checks nothing about its
    density [d]: for every integer that a float holds (of magnitude below
    [2^1024 - 2^970]), zero and negative ones included, it starts the
    browser driver, launches the browser once the driver has started, and
    then asks for a context.  The device scale factor it asks for is
    [d / 96] exactly when [d] is a multiple of 3 of magnitude at most
    [2^53], as 0 and -72 are (the quotient is then a float). *)
Theorem C4_density_unchecked :
  (forall ppi_choice,
     PPI_OPTIONS !! ppi_choice = None ->
     PPI_OPTIONS_get ppi_choice = 300 /\
     forall env local_path file_obj,
       process_local_path env local_path ppi_choice =
       process_local_path env local_path "300 PPI (高清印刷)" /\
       process_zip_upload env file_obj ppi_choice =
       process_zip_upload env file_obj "300 PPI (高清印刷)") /\
  (forall env path d width height sel w,
     Z.abs d < 2 ^ 1024 - 2 ^ 970 ->
     exists tr,
       calls (snd (render_html_file_to_image env path d width height sel w)) =
         calls w ++ PlaywrightStart :: tr /\
       (eng_start (engine env) = Returns tt -> In (Launch true) tr) /\
       (eng_start (engine env) = Returns tt ->
        eng_launch (engine env) true = Returns tt ->
        (exists scale, In (NewContext (width + 100) (height + 200) scale) tr) /\
        ((3 | d) -> Z.abs d <= 2 ^ 53 ->
         In (NewContext (width + 100) (height + 200) (inject_Z d / 96)%Q) tr))).
Proof.
  split.
  - intros ppi_choice Hnone.
    assert (Hget : PPI_OPTIONS_get ppi_choice = 300)
      by (unfold PPI_OPTIONS_get; by rewrite Hnone).
    split; [exact Hget|]. intros env local_path file_obj.
    unfold process_local_path, process_zip_upload, zip_export_body.
    rewrite Hget.
    change (PPI_OPTIONS_get "300 PPI (高清印刷)") with 300. by split.
  - intros env path d width height sel w _.
    destruct (render_html_file_to_image env path d width height sel w)
      as [r w'] eqn:Hrun.
    destruct (render_inv _ _ _ _ _ _ _ _ _ Hrun)
      as (tr & -> & _ & [tr' ->] & Hlaunch & Hctx & _).
    exists tr'. cbn [snd calls]. split; [reflexivity|]. split.
    + intros Hs. destruct (Hlaunch Hs) as [Heq|Hin]; [discriminate|exact Hin].
    + intros Hs Hl.
      assert (Hin : In (NewContext (width + 100) (height + 200)
                          (inject_Z d / 96)%Q) tr')
        by (destruct (Hctx Hs Hl) as [Heq|Hin]; [discriminate|exact Hin]).
      split; [by eexists | by intros _ _].
Qed.

Lemma C4_density_unchecked_witness :
  PPI_OPTIONS_get "0 PPI" = 300 /\
  exists tr,
    calls (snd (render_html_file_to_image demo_env "/home/u/myposter.html"
                  (-72) 900 1200 "#poster" demo_world)) =
      calls demo_world ++ PlaywrightStart :: tr /\
    In (NewContext (900 + 100) (1200 + 200) (inject_Z (-72) / 96)%Q) tr.
Proof.
  destruct C4_density_unchecked as [Hget Hrender]. split.
  - apply (Hget "0 PPI"). vm_compute. reflexivity.
  - assert (Hrange : Z.abs (-72) < 2 ^ 1024 - 2 ^ 970)
      by (vm_compute; reflexivity).
    destruct (Hrender demo_env "/home/u/myposter.html" (-72) 900 1200
                "#poster" demo_world Hrange) as (tr & Hcalls & _ & Hctx).
    exists tr. split; [exact Hcalls|].
    apply (Hctx eq_refl eq_refl).
    + exists (-24). reflexivity.
    + vm_compute. discriminate.
Defined.

(** ** C7: the checks on a direct path *)

Lemma falsy_false s : s <> "" -> Py.falsy s = false.
Proof. intros H. unfold Py.falsy. by apply String.eqb_neq. Qed.

Lemma strip_nonblank s : Py.strip s <> "" -> s <> "".
Proof. intros H ->. by apply H. Qed.


(** A blank input is answered before either check, by a prompt. *)
Example blank_path_prompt env ppi_choice w :
  process_local_path env "   " ppi_choice w =
    (Returns (None, None, "⚠️ 请输入 HTML 文件路径"), w) /\
  preview_local_path env "" w = (Returns (None, "⏳ 请输入 HTML 文件路径"), w).
Proof. by split. Qed.


(** On the concrete system a regular file followed by a slash names
    nothing, so the poster with a trailing slash is not found; and white
    space outside ASCII around a path is stripped like a blank. *)
Example trailing_slash_not_found :
  process_local_path demo_env "/home/u/myposter.html/" "300 PPI (高清印刷)"
    demo_world =
    (Returns (None, None, "❌ 文件不存在: /home/u/myposter.html/"), demo_world) /\
  preview_local_path demo_env ("/home/u/notes.txt" +:+ nbsp) demo_world =
    (Returns (None, "❌ 请输入 HTML 文件路径"), demo_world) /\
  preview_local_path demo_env ("/home/u/../u/./notes.txt") demo_world =
    (Returns (None, "❌ 请输入 HTML 文件路径"), demo_world) /\
  preview_local_path demo_env "notes.txt" demo_world =
    (Returns (None, "❌ 请输入 HTML 文件路径"), demo_world).
Proof. repeat split; vm_compute; reflexivity. Qed.

(** ** Temporary names and the file system *)

Lemma first_fresh_spec m pre suf cands s :
  first_fresh m pre suf cands = Some s ->
  m !! Path_of_str s = None /\ exists c, In c cands /\ s = pre +:+ c +:+ suf.
Proof.
  induction cands as [|c cands IH]; [discriminate|]. cbn [first_fresh].
  destruct (m !! Path_of_str (pre +:+ c +:+ suf)) eqn:E.
  - intros H. destruct (IH H) as [Hm (c' & Hin & ->)].
    split; [exact Hm|]. exists c'. split; [by right | reflexivity].
  - intros [= <-]. split; [exact E|]. exists c. split; [by left | reflexivity].
Qed.

Lemma render_outcome_any_world env path ppi width height sel w1 w2 :
  fst (render_html_file_to_image env path ppi width height sel w1) =
  fst (render_html_file_to_image env path ppi width height sel w2).
Proof.
  cbv beta iota zeta delta
    [render_html_file_to_image async_with_playwright try_finally try_except
     bind call print ret fst snd fs calls stdout].
  repeat step_outcome; reflexivity.
Qed.

Lemma render_fs env path ppi width height sel w :
  fs (snd (render_html_file_to_image env path ppi width height sel w)) = fs w.
Proof.
  destruct (render_html_file_to_image env path ppi width height sel w)
    as [r w'] eqn:Hrun.
  by destruct (render_inv _ _ _ _ _ _ _ _ _ Hrun) as (tr & -> & _).
Qed.

(** What a kept temporary file looks like after a successful write. *)
Lemma NamedTemporaryFile_write_inv h suffix data w s w' :
  NamedTemporaryFile_write h suffix data w = (Returns s, w') ->
  fs w !! Path_of_str s = None /\
  (exists c, In c (host_random_names h) /\
             s = (host_tempdir h +:+ "/tmp") +:+ c +:+ suffix) /\
  fs w' = <[Path_of_str s := File data]> (<[Path_of_str s := File []]> (fs w)).
Proof.
  unfold NamedTemporaryFile_write, mkstemp_name.
  destruct (first_fresh _ _ _ _) as [s0|] eqn:E; [|discriminate].
  destruct (host_write h s0 data); [|discriminate].
  intros [= <- <-]. destruct (first_fresh_spec _ _ _ _ _ E) as [Hm Hc].
  by repeat split.
Qed.

(** ** The exported file *)

(** A run of the [try] block of [process_local_path] that ends in success. *)
Lemma process_local_path_success env local_path ppi_choice w out o2 status w' :
  process_local_path env local_path ppi_choice w =
    (Returns (Some out, o2, status), w') ->
  let p := host_expanduser (host env) (Py.strip local_path) in
  let ppi := PPI_OPTIONS_get ppi_choice in
  exists image_bytes w1 wd ht,
    sync_render_html_file_to_image env p ppi
      (snd (print ("📄 处理本地文件: " +:+ p) w)) = (Returns image_bytes, w1) /\
    NamedTemporaryFile_write (host env)
      ("_" +:+ stem (Path_of_str p) +:+ "_" +:+ Py.str_int ppi +:+ "PPI.png")
      image_bytes w1 = (Returns out, w') /\
    host_image_size (host env) image_bytes = Returns (wd, ht) /\
    status =
      "✅ 导出成功！" +:+ nl +:+
      "📐 输出尺寸: " +:+ Py.str_int wd +:+ " x " +:+
        Py.str_int ht +:+ " 像素" +:+ nl +:+
      "🎯 PPI: " +:+ Py.str_int ppi +:+ nl +:+
      "📁 文件大小: " +:+ format_mb (len image_bytes) +:+ " MB" +:+ nl +:+
      "📄 源文件: " +:+ p.
Proof.
  intros H p ppi. unfold process_local_path in H. fold p ppi in H.
  destruct (Py.falsy local_path || Py.falsy (Py.strip local_path));
    [discriminate H|].
  unfold bind at 1 in H. unfold os_path_exists in H.
  destruct (host_exists (host env) (fs w) p);
    cbn [negb] in H; [|discriminate H].
  destruct (negb (Py.endswith_any (Py.lower p) [".html"; ".htm"]));
    [discriminate H|].
  unfold try_except, bind in H.
  destruct (print ("📄 处理本地文件: " +:+ p) w) as [[[]|e0] w0] eqn:Hprint;
    [|discriminate Hprint].
  cbn [snd].
  destruct (sync_render_html_file_to_image env p ppi w0)
    as [[image_bytes|e1] w1]; [|destruct (exn_is_Exception e1); discriminate H].
  destruct (NamedTemporaryFile_write _ _ image_bytes w1)
    as [[s|e2] w2] eqn:Hwrite; [|destruct (exn_is_Exception e2); discriminate H].
  unfold lift in H.
  destruct (host_image_size (host env) image_bytes) as [[wd ht]|e3] eqn:Hsize;
    [|destruct (exn_is_Exception e3); discriminate H].
  unfold ret in H. injection H as <- <- <- <-.
  exists image_bytes, w1, wd, ht. repeat split; assumption.
Qed.

(** A run of [process_zip_upload] that ends in success. *)
Lemma process_zip_upload_success env file_path ppi_choice w out o2 status w' :
  process_zip_upload env (Some file_path) ppi_choice w =
    (Returns (Some out, o2, status), w') ->
  let h := host env in
  let ppi := PPI_OPTIONS_get ppi_choice in
  exists temp_dir html w0 image_bytes w1 w2 wd ht,
    extract_zip_to_temp h file_path (snd (print "📦 解压 ZIP 文件..." w)) =
      (Returns (temp_dir, html), w0) /\
    sync_render_html_file_to_image env html ppi
      (snd (print ("📄 渲染 HTML: " +:+ html) w0)) = (Returns image_bytes, w1) /\
    NamedTemporaryFile_write h ("_export_" +:+ Py.str_int ppi +:+ "PPI.png")
      image_bytes w1 = (Returns out, w2) /\
    host_image_size h image_bytes = Returns (wd, ht) /\
    cleanup h (Some temp_dir) w2 = (Returns tt, w') /\
    status =
      "✅ 导出成功！" +:+ nl +:+
      "📐 输出尺寸: " +:+ Py.str_int wd +:+ " x " +:+
        Py.str_int ht +:+ " 像素" +:+ nl +:+
      "🎯 PPI: " +:+ Py.str_int ppi +:+ nl +:+
      "📁 文件大小: " +:+ format_mb (len image_bytes) +:+ " MB".
Proof.
  intros H h ppi. unfold process_zip_upload in H. fold h ppi in H.
  destruct (negb (Py.endswith (Py.lower file_path) ".zip"));
    [discriminate H|].
  unfold attempt, bind at 1 in H.
  destruct (print "📦 解压 ZIP 文件..." w) as [[[]|e0] wp] eqn:Hprint;
    [|discriminate Hprint].
  destruct (extract_zip_to_temp h file_path wp)
    as [[[temp_dir html]|e1] w0] eqn:Hextract.
  2:{ unfold try_finally, try_except, raise, cleanup, ret in H.
      destruct (exn_is_Exception e1); discriminate H. }
  unfold try_finally in H.
  destruct (zip_export_body env ppi html w0) as [r w2] eqn:Hbody.
  destruct (cleanup h (Some temp_dir) w2) as [[[]|e2] w3] eqn:Hclean;
    [|discriminate H].
  injection H as -> <-.
  unfold zip_export_body, try_except, bind in Hbody. fold h in Hbody.
  destruct (print ("📄 渲染 HTML: " +:+ html) w0) as [[[]|e3] w0'] eqn:Hprint2;
    [|discriminate Hprint2].
  destruct (sync_render_html_file_to_image env html ppi w0')
    as [[image_bytes|e4] w1] eqn:Hrender;
    [|destruct (exn_is_Exception e4); discriminate Hbody].
  destruct (NamedTemporaryFile_write _ _ image_bytes w1)
    as [[s|e5] w4] eqn:Hwrite;
    [|destruct (exn_is_Exception e5); discriminate Hbody].
  unfold lift in Hbody.
  destruct (host_image_size h image_bytes) as [[wd ht]|e6] eqn:Hsize;
    [|destruct (exn_is_Exception e6); discriminate Hbody].
  unfold ret in Hbody. injection Hbody as E1 E2 E3 E4. subst s o2 status w4.
  exists temp_dir, html, w0, image_bytes, w1, w2, wd, ht.
  rewrite ?Hprint, ?Hprint2. cbn [snd]. repeat split; assumption.
Qed.

(** What a successful extraction has done. *)
Lemma extract_zip_to_temp_inv h zip_path w temp_dir html w0 :
  extract_zip_to_temp h zip_path w = (Returns (temp_dir, html), w0) ->
  exists tmp tree,
    mkdtemp_name h "poster_export_" (fs w) = Some tmp /\
    temp_dir = Path_of_str tmp /\
    host_extractall h zip_path = Returns tree /\
    html_candidates tree <> [] /\
    fs w0 = foldr (fun en m => <[joinpath temp_dir (fst en) := snd en]> m)
              (<[temp_dir := Dir]> (fs w)) tree /\
    calls w0 = calls w /\ stdout w0 = stdout w.
Proof.
  unfold extract_zip_to_temp, bind, mkdtemp, extractall.
  destruct (mkdtemp_name h "poster_export_" (fs w)) as [tmp|]; [|discriminate].
  cbn [fs set_fs].
  destruct (host_extractall h zip_path) as [tree|]; [|discriminate].
  rewrite rglob_candidates.
  destruct (html_candidates tree) as [|c0 cs] eqn:Ec; [discriminate|].
  cbn [List.map]. unfold ret. intros [= <- <- <-].
  exists tmp, tree. repeat split. by rewrite Ec.
Qed.

(** The other direction: an extraction that finds a candidate returns. *)
Lemma extract_zip_to_temp_returns h zip_path w tmp tree :
  mkdtemp_name h "poster_export_" (fs w) = Some tmp ->
  host_extractall h zip_path = Returns tree ->
  html_candidates tree <> [] ->
  exists html w0,
    extract_zip_to_temp h zip_path w = (Returns (Path_of_str tmp, html), w0).
Proof.
  intros Hmk Hex Hne.
  unfold extract_zip_to_temp, bind, mkdtemp, extractall.
  rewrite Hmk, Hex, rglob_candidates.
  destruct (html_candidates tree) as [|c0 cs]; [contradiction|].
  cbn [List.map]. unfold ret. by do 2 eexists.
Qed.

(** *** The file system *)

Lemma fs_grows_refl w : fs_grows w w.
Proof. by intros p. Qed.

Lemma fs_grows_trans w1 w2 w3 : fs_grows w1 w2 -> fs_grows w2 w3 -> fs_grows w1 w3.
Proof. intros H12 H23 p Hp. by apply H23, H12. Qed.

Lemma fs_grows_same w w' : fs w' = fs w -> fs_grows w w'.
Proof. intros E p. by rewrite E. Qed.

Lemma insert_is_Some_keep (m : gmap Path node) k v p :
  is_Some (m !! p) -> is_Some (<[k := v]> m !! p).
Proof. intros H. rewrite lookup_insert_is_Some'. by right. Qed.

Lemma extracted_keeps (m : gmap Path node) temp_dir
    (tree : list (list string * node)) p :
  is_Some (m !! p) ->
  is_Some (foldr (fun en m => <[joinpath temp_dir (fst en) := snd en]> m) m tree
           !! p).
Proof.
  intros Hp. induction tree as [|en tree IH]; [exact Hp|].
  cbn [foldr]. by apply insert_is_Some_keep.
Qed.

Lemma print_fs line : preserves fs_grows (print line).
Proof. intros w. by apply fs_grows_same. Qed.

Lemma NamedTemporaryFile_write_fs h suffix data :
  preserves fs_grows (NamedTemporaryFile_write h suffix data).
Proof.
  intros w p Hp. unfold NamedTemporaryFile_write.
  destruct (mkstemp_name h suffix (fs w)); [|exact Hp].
  destruct (host_write h s data); cbn [snd fs set_fs];
    repeat apply insert_is_Some_keep; exact Hp.
Qed.

Lemma sync_render_fs env path ppi :
  preserves fs_grows (sync_render_html_file_to_image env path ppi).
Proof. intros w. apply fs_grows_same, render_fs. Qed.

Ltac fs_side := first [exact fs_grows_refl | exact fs_grows_trans].

Ltac fs_leaf :=
  first [apply print_fs | apply NamedTemporaryFile_write_fs | apply sync_render_fs].

(** The [finally] clause touches nothing outside the scratch directory. *)
Lemma cleanup_outside h temp_dir w r w' :
  cleanup h (Some temp_dir) w = (r, w') ->
  forall p, under temp_dir p = false -> fs w' !! p = fs w !! p.
Proof.
  unfold cleanup, bind, Path_exists, try_except, rmtree, ret.
  destruct (bool_decide (is_Some (fs w !! temp_dir))); [|by intros [= <- <-]].
  destruct (host_rmtree h temp_dir) as [e|].
  - destruct (exn_is_Exception e); by intros [= <- <-].
  - intros [= <- <-] p Hp. cbn [fs set_fs].
    destruct (fs w !! p) as [n|] eqn:E.
    + apply map_lookup_filter_Some. by split.
    + apply map_lookup_filter_None. left. exact E.
Qed.

(** When the removal succeeds, nothing at or below the directory is left. *)
Lemma cleanup_removes h temp_dir w :
  is_Some (fs w !! temp_dir) ->
  host_rmtree h temp_dir = None ->
  fst (cleanup h (Some temp_dir) w) = Returns tt /\
  forall p, under temp_dir p = true ->
            fs (snd (cleanup h (Some temp_dir) w)) !! p = None.
Proof.
  intros Hex Hrm.
  unfold cleanup, bind, Path_exists, try_except, rmtree, ret.
  rewrite (bool_decide_eq_true_2 _ Hex), Hrm. cbn [fst snd fs set_fs].
  split; [reflexivity|]. intros p Hp.
  apply map_lookup_filter_None. right. intros n _. cbn [fst]. by rewrite Hp.
Qed.

(** A removal that fails with an [Exception] is passed over in silence. *)
Lemma cleanup_suppresses h temp_dir w e :
  host_rmtree h temp_dir = Some e -> exn_is_Exception e = true ->
  cleanup h (Some temp_dir) w = (Returns tt, w).
Proof.
  intros Hrm He.
  unfold cleanup, bind, Path_exists, try_except, rmtree, ret.
  rewrite Hrm, He. by destruct (bool_decide _).
Qed.

(** C9.  The export of an archive at a concrete input.  The document
    chosen in the archive is [docs/poster-final.html], its stem is
    [poster-final], and the name of the exported file holds the word
    "export" where the export of a local path puts the stem of its
    document (here [myposter]): the stem of the archive's document is
    nowhere in the name. *)
Lemma C9_zip_export_name_lacks_stem :
  (exists status,
     fst (process_zip_upload demo_env (Some "/uploads/poster.zip")
            "300 PPI (高清印刷)" demo_world) =
       Returns (Some "/tmp/tmpk3x9q2ab_export_300PPI.png",
                Some "/tmp/tmpk3x9q2ab_export_300PPI.png", status)) /\
  In (Goto "file:///tmp/poster_export_k3x9q2ab/docs/poster-final.html"
        "networkidle")
     (calls (snd (process_zip_upload demo_env (Some "/uploads/poster.zip")
                    "300 PPI (高清印刷)" demo_world))) /\
  stem (Path_of_str "/tmp/poster_export_k3x9q2ab/docs/poster-final.html") =
    "poster-final" /\
  Py.contains "poster-final" "/tmp/tmpk3x9q2ab_export_300PPI.png" = false /\
  fst (process_local_path demo_env "/home/u/myposter.html"
         "300 PPI (高清印刷)" demo_world) =
    Returns (Some "/tmp/tmpk3x9q2ab_myposter_300PPI.png",
             Some "/tmp/tmpk3x9q2ab_myposter_300PPI.png", demo_status) /\
  stem (Path_of_str "/home/u/myposter.html") = "myposter".
Proof.
  split; [eexists; vm_compute; reflexivity|].
  split; [vm_compute; tauto|].
  repeat split; vm_compute; reflexivity.
Qed.

(** X19.  In every successful export the bytes returned by the render
    are the content of a file that did not exist before, whose name is the
    one [tempfile] allots for the suffix: [_<stem>_<density>PPI.png] with
    the stem of the source document for a local path, and
    [_export_<density>PPI.png] for an archive (there the file is kept
    provided it does not lie in the scratch directory, which is removed).
    The width and height in the status are those the decoder reads from
    these bytes. *)
Theorem export_output env w out o2 status w' :
  (forall local_path ppi_choice,
     process_local_path env local_path ppi_choice w =
       (Returns (Some out, o2, status), w') ->
     let p := host_expanduser (host env) (Py.strip local_path) in
     let ppi := PPI_OPTIONS_get ppi_choice in
     exists image_bytes c wd ht,
       fst (sync_render_html_file_to_image env p ppi w) = Returns image_bytes /\
       In c (host_random_names (host env)) /\
       out = (host_tempdir (host env) +:+ "/tmp") +:+ c +:+
             ("_" +:+ stem (Path_of_str p) +:+ "_" +:+ Py.str_int ppi +:+ "PPI.png") /\
       fs w !! Path_of_str out = None /\
       fs w' !! Path_of_str out = Some (File image_bytes) /\
       host_image_size (host env) image_bytes = Returns (wd, ht) /\
       status =
         "✅ 导出成功！" +:+ nl +:+
         "📐 输出尺寸: " +:+ Py.str_int wd +:+ " x " +:+
           Py.str_int ht +:+ " 像素" +:+ nl +:+
         "🎯 PPI: " +:+ Py.str_int ppi +:+ nl +:+
         "📁 文件大小: " +:+ format_mb (len image_bytes) +:+ " MB" +:+ nl +:+
         "📄 源文件: " +:+ p) /\
  (forall file_path ppi_choice,
     process_zip_upload env (Some file_path) ppi_choice w =
       (Returns (Some out, o2, status), w') ->
     let ppi := PPI_OPTIONS_get ppi_choice in
     exists tmp html image_bytes c wd ht,
       mkdtemp_name (host env) "poster_export_" (fs w) = Some tmp /\
       fst (extract_zip_to_temp (host env) file_path w) =
         Returns (Path_of_str tmp, html) /\
       fst (sync_render_html_file_to_image env html ppi w) = Returns image_bytes /\
       In c (host_random_names (host env)) /\
       out = (host_tempdir (host env) +:+ "/tmp") +:+ c +:+
             ("_export_" +:+ Py.str_int ppi +:+ "PPI.png") /\
       fs w !! Path_of_str out = None /\
       (under (Path_of_str tmp) (Path_of_str out) = false ->
        fs w' !! Path_of_str out = Some (File image_bytes)) /\
       host_image_size (host env) image_bytes = Returns (wd, ht) /\
       status =
         "✅ 导出成功！" +:+ nl +:+
         "📐 输出尺寸: " +:+ Py.str_int wd +:+ " x " +:+
           Py.str_int ht +:+ " 像素" +:+ nl +:+
         "🎯 PPI: " +:+ Py.str_int ppi +:+ nl +:+
         "📁 文件大小: " +:+ format_mb (len image_bytes) +:+ " MB").
Proof.
  split.
  - intros local_path ppi_choice H p ppi.
    destruct (process_local_path_success _ _ _ _ _ _ _ _ H)
      as (image_bytes & w1 & wd & ht & Hrender & Hwrite & Hsize & Hstatus).
    fold p ppi in Hrender, Hwrite, Hstatus.
    destruct (NamedTemporaryFile_write_inv _ _ _ _ _ _ Hwrite)
      as (Hfresh & (c & Hc & Hname) & Hfs).
    assert (Hfs1 : fs w1 = fs w).
    { replace w1 with (snd (sync_render_html_file_to_image env p ppi
                              (snd (print ("📄 处理本地文件: " +:+ p) w))))
        by (by rewrite Hrender).
      unfold sync_render_html_file_to_image. by rewrite render_fs. }
    exists image_bytes, c, wd, ht. repeat split; try assumption.
    + unfold sync_render_html_file_to_image in *.
      rewrite (render_outcome_any_world _ _ _ _ _ _ w
                 (snd (print ("📄 处理本地文件: " +:+ p) w))).
      by rewrite Hrender.
    + by rewrite <- Hfs1.
    + rewrite Hfs. apply lookup_insert_eq.
  - intros file_path ppi_choice H ppi.
    destruct (process_zip_upload_success _ _ _ _ _ _ _ _ H)
      as (td & html & w0 & image_bytes & w1 & w2 & wd & ht &
          Hextract & Hrender & Hwrite & Hsize & Hclean & Hstatus).
    fold ppi in Hrender, Hwrite, Hstatus.
    destruct (extract_zip_to_temp_inv _ _ _ _ _ _ Hextract)
      as (tmp & tree & Hmk & -> & Hex & Hne & Hfs0 & _).
    cbn [print snd fs] in Hmk, Hfs0.
    destruct (NamedTemporaryFile_write_inv _ _ _ _ _ _ Hwrite)
      as (Hfresh & (c & Hc & Hname) & Hfs).
    assert (Hfs1 : fs w1 = fs w0).
    { replace w1 with (snd (sync_render_html_file_to_image env html ppi
                              (snd (print ("📄 渲染 HTML: " +:+ html) w0))))
        by (by rewrite Hrender).
      unfold sync_render_html_file_to_image. by rewrite render_fs. }
    exists tmp, html, image_bytes, c, wd, ht. repeat split; try assumption.
    + destruct (extract_zip_to_temp_returns _ _ w _ _ Hmk Hex Hne)
        as (html' & w0' & Hret).
      destruct (extract_zip_to_temp_returns _ _
                  (snd (print "📦 解压 ZIP 文件..." w)) _ _ Hmk Hex Hne)
        as (html'' & w0'' & Hret').
      rewrite Hret. cbn [fst]. rewrite Hextract in Hret'.
      injection Hret' as -> _. f_equal. f_equal.
      unfold extract_zip_to_temp, bind, mkdtemp, extractall in Hret, Hextract.
      cbn [print snd fs] in Hextract.
      rewrite Hmk, Hex, rglob_candidates in Hret, Hextract.
      destruct (html_candidates tree); [contradiction|].
      cbn [List.map] in Hret, Hextract. unfold ret in Hret, Hextract.
      injection Hret as <- _. by injection Hextract as <- _.
    + unfold sync_render_html_file_to_image in *.
      rewrite (render_outcome_any_world _ _ _ _ _ _ w
                 (snd (print ("📄 渲染 HTML: " +:+ html) w0))).
      by rewrite Hrender.
    + apply eq_None_not_Some. intros Hsome.
      assert (Hkept : is_Some (fs w1 !! Path_of_str out)).
      { rewrite Hfs1, Hfs0. by apply extracted_keeps, insert_is_Some_keep. }
      rewrite Hfresh in Hkept. by destruct Hkept.
    + intros Hout. rewrite (cleanup_outside _ _ _ _ _ Hclean _ Hout), Hfs.
      apply lookup_insert_eq.
Qed.

Lemma export_output_witness :
  exists image_bytes,
    fs demo_world !! Path_of_str demo_out = None /\
    fs demo_final_world !! Path_of_str demo_out = Some (File image_bytes).
Proof.
  pose proof
    (eq_refl (Returns (Some demo_out, Some demo_out, demo_status),
              demo_final_world) <:
       process_local_path demo_env "/home/u/myposter.html"
         "300 PPI (高清印刷)" demo_world =
       (Returns (Some demo_out, Some demo_out, demo_status),
        demo_final_world)) as H.
  destruct (proj1 (export_output demo_env demo_world demo_out
                     (Some demo_out) demo_status demo_final_world)
              "/home/u/myposter.html" "300 PPI (高清印刷)" H)
    as (image_bytes & c & wd & ht & _ & _ & _ & Hfresh & Hfile & _).
  exists image_bytes. split; [exact Hfresh | exact Hfile].
Defined.

(** ** C3: removal of the scratch directory *)

Lemma zip_export_body_fs env ppi html :
  preserves fs_grows (zip_export_body env ppi html).
Proof. unfold zip_export_body. repeat preserves_step fs_side fs_leaf. Qed.

Lemma zip_preview_body_fs env html :
  preserves fs_grows (zip_preview_body env html).
Proof. unfold zip_preview_body. repeat preserves_step fs_side fs_leaf. Qed.

(** A [try] block that loses no path, followed by the [finally] clause for
    a directory that exists when the block is entered. *)
Lemma try_finally_cleanup {A} (h : Host) (body : M A) temp_dir w0 :
  is_Some (fs w0 !! temp_dir) -> preserves fs_grows body ->
  (host_rmtree h temp_dir = None ->
   fst (try_finally body (cleanup h (Some temp_dir)) w0) = fst (body w0) /\
   forall p, under temp_dir p = true ->
     fs (snd (try_finally body (cleanup h (Some temp_dir)) w0)) !! p = None) /\
  (forall e, host_rmtree h temp_dir = Some e -> exn_is_Exception e = true ->
   try_finally body (cleanup h (Some temp_dir)) w0 = body w0).
Proof.
  intros Hex Hbody. specialize (Hbody w0 temp_dir Hex).
  unfold try_finally. destruct (body w0) as [r w2]; cbn [fst snd] in *. split.
  - intros Hrm. destruct (cleanup_removes h temp_dir w2 Hbody Hrm) as [Hret Hgone].
    destruct (cleanup h (Some temp_dir) w2) as [[[]|e] w3];
      cbn [fst snd] in *; [by split | discriminate Hret].
  - intros e Hrm He. by rewrite (cleanup_suppresses h temp_dir w2 e Hrm He).
Qed.

Lemma process_zip_upload_run env file_path ppi_choice w tmp tree :
  Py.endswith (Py.lower file_path) ".zip" = true ->
  mkdtemp_name (host env) "poster_export_" (fs w) = Some tmp ->
  host_extractall (host env) file_path = Returns tree ->
  html_candidates tree <> [] ->
  exists html w0,
    extract_zip_to_temp (host env) file_path
      (snd (print "📦 解压 ZIP 文件..." w)) = (Returns (Path_of_str tmp, html), w0) /\
    is_Some (fs w0 !! Path_of_str tmp) /\
    process_zip_upload env (Some file_path) ppi_choice w =
      try_finally (zip_export_body env (PPI_OPTIONS_get ppi_choice) html)
        (cleanup (host env) (Some (Path_of_str tmp))) w0.
Proof.
  intros Hzip Hmk Hex Hne.
  destruct (extract_zip_to_temp_returns (host env) file_path
              (snd (print "📦 解压 ZIP 文件..." w)) tmp tree Hmk Hex Hne)
    as (html & w0 & Hret).
  exists html, w0. split; [exact Hret|]. split.
  - destruct (extract_zip_to_temp_inv _ _ _ _ _ _ Hret)
      as (tmp' & tree' & _ & _ & _ & _ & -> & _).
    apply extracted_keeps. rewrite lookup_insert_eq. by eexists.
  - unfold process_zip_upload. rewrite Hzip. cbn [negb].
    unfold attempt, bind at 1. cbn [print]. cbn [print snd] in Hret.
    by rewrite Hret.
Qed.

Lemma preview_zip_upload_run env file_path w tmp tree :
  Py.endswith (Py.lower file_path) ".zip" = true ->
  mkdtemp_name (host env) "poster_export_" (fs w) = Some tmp ->
  host_extractall (host env) file_path = Returns tree ->
  html_candidates tree <> [] ->
  exists html w0,
    extract_zip_to_temp (host env) file_path
      (snd (print "📦 预览 ZIP 文件..." w)) = (Returns (Path_of_str tmp, html), w0) /\
    is_Some (fs w0 !! Path_of_str tmp) /\
    preview_zip_upload env (Some file_path) w =
      try_finally (zip_preview_body env html)
        (cleanup (host env) (Some (Path_of_str tmp))) w0.
Proof.
  intros Hzip Hmk Hex Hne.
  destruct (extract_zip_to_temp_returns (host env) file_path
              (snd (print "📦 预览 ZIP 文件..." w)) tmp tree Hmk Hex Hne)
    as (html & w0 & Hret).
  exists html, w0. split; [exact Hret|]. split.
  - destruct (extract_zip_to_temp_inv _ _ _ _ _ _ Hret)
      as (tmp' & tree' & _ & _ & _ & _ & -> & _).
    apply extracted_keeps. rewrite lookup_insert_eq. by eexists.
  - unfold preview_zip_upload. rewrite Hzip. cbn [negb].
    unfold attempt, bind at 1. cbn [print]. cbn [print snd] in Hret.
    by rewrite Hret.
Qed.

(** Changing the behaviour of [shutil.rmtree] changes nothing before the
    [finally] clause. *)
Lemma extract_zip_to_temp_with_rmtree env r zip_path :
  extract_zip_to_temp (host (with_rmtree env r)) zip_path =
  extract_zip_to_temp (host env) zip_path.
Proof. reflexivity. Qed.

Lemma zip_export_body_with_rmtree env r ppi html :
  zip_export_body (with_rmtree env r) ppi html = zip_export_body env ppi html.
Proof. reflexivity. Qed.

Lemma zip_preview_body_with_rmtree env r html :
  zip_preview_body (with_rmtree env r) html = zip_preview_body env html.
Proof. reflexivity. Qed.

(** C3.  Take an archive operation whose extraction has returned, so that
    the render is attempted: the upload is a [.zip], a scratch directory
    could be created and the extracted tree holds a candidate.  Whatever the
    render and the steps after it do, (1) when [shutil.rmtree] succeeds, no
    path at or below the scratch directory exists after the export or the
    preview, and (2) when it fails with an [Exception], the operation ends
    exactly as it does when the removal succeeds: the failure is not
    passed on. *)
Theorem C3_scratch_cleanup env file_path ppi_choice w tmp tree :
  Py.endswith (Py.lower file_path) ".zip" = true ->
  mkdtemp_name (host env) "poster_export_" (fs w) = Some tmp ->
  host_extractall (host env) file_path = Returns tree ->
  html_candidates tree <> [] ->
  (host_rmtree (host env) (Path_of_str tmp) = None ->
   forall p, under (Path_of_str tmp) p = true ->
     fs (snd (process_zip_upload env (Some file_path) ppi_choice w)) !! p = None /\
     fs (snd (preview_zip_upload env (Some file_path) w)) !! p = None) /\
  (forall e,
     host_rmtree (host env) (Path_of_str tmp) = Some e ->
     exn_is_Exception e = true ->
     fst (process_zip_upload env (Some file_path) ppi_choice w) =
       fst (process_zip_upload (with_rmtree env None) (Some file_path)
              ppi_choice w) /\
     fst (preview_zip_upload env (Some file_path) w) =
       fst (preview_zip_upload (with_rmtree env None) (Some file_path) w)).
Proof.
  intros Hzip Hmk Hex Hne.
  destruct (process_zip_upload_run env file_path ppi_choice w tmp tree
              Hzip Hmk Hex Hne) as (html & w0 & Hext & Hdir & Hrun).
  destruct (preview_zip_upload_run env file_path w tmp tree
              Hzip Hmk Hex Hne) as (html' & w0' & Hext' & Hdir' & Hrun').
  destruct (process_zip_upload_run (with_rmtree env None) file_path
              ppi_choice w tmp tree Hzip Hmk Hex Hne)
    as (html1 & w1 & Hext1 & _ & Hrun1).
  destruct (preview_zip_upload_run (with_rmtree env None) file_path
              w tmp tree Hzip Hmk Hex Hne)
    as (html1' & w1' & Hext1' & _ & Hrun1').
  rewrite extract_zip_to_temp_with_rmtree, Hext in Hext1.
  injection Hext1 as <- <-.
  rewrite extract_zip_to_temp_with_rmtree, Hext' in Hext1'.
  injection Hext1' as <- <-.
  rewrite zip_export_body_with_rmtree in Hrun1.
  rewrite zip_preview_body_with_rmtree in Hrun1'.
  rewrite Hrun, Hrun', Hrun1, Hrun1'.
  destruct (try_finally_cleanup (host env)
              (zip_export_body env (PPI_OPTIONS_get ppi_choice) html)
              (Path_of_str tmp) w0 Hdir (zip_export_body_fs _ _ _))
    as [Hok Hfail].
  destruct (try_finally_cleanup (host env) (zip_preview_body env html')
              (Path_of_str tmp) w0' Hdir' (zip_preview_body_fs _ _))
    as [Hok' Hfail'].
  destruct (try_finally_cleanup (host (with_rmtree env None))
              (zip_export_body env (PPI_OPTIONS_get ppi_choice) html)
              (Path_of_str tmp) w0 Hdir (zip_export_body_fs _ _ _))
    as [Hok1 _].
  destruct (try_finally_cleanup (host (with_rmtree env None))
              (zip_preview_body env html')
              (Path_of_str tmp) w0' Hdir' (zip_preview_body_fs _ _))
    as [Hok1' _].
  split.
  - intros Hrm p Hp. split; [by apply Hok | by apply Hok'].
  - intros e Hrm He. rewrite (Hfail e Hrm He), (Hfail' e Hrm He).
    split; symmetry; [apply (Hok1 eq_refl) | apply (Hok1' eq_refl)].
Qed.

Lemma C3_scratch_cleanup_witness :
  (forall p, under (Path_of_str "/tmp/poster_export_k3x9q2ab") p = true ->
     fs (snd (process_zip_upload demo_env (Some "/uploads/poster.zip")
                "300 PPI (高清印刷)" demo_world)) !! p = None /\
     fs (snd (preview_zip_upload demo_env (Some "/uploads/poster.zip")
                demo_world)) !! p = None) /\
  fst (process_zip_upload demo_env_locked (Some "/uploads/poster.zip")
         "300 PPI (高清印刷)" demo_world) =
  fst (process_zip_upload (with_rmtree demo_env_locked None)
         (Some "/uploads/poster.zip") "300 PPI (高清印刷)" demo_world).
Proof.
  split.
  - apply (C3_scratch_cleanup demo_env "/uploads/poster.zip"
             "300 PPI (高清印刷)" demo_world "/tmp/poster_export_k3x9q2ab"
             demo_tree); first [reflexivity | discriminate].
  - apply (C3_scratch_cleanup demo_env_locked "/uploads/poster.zip"
             "300 PPI (高清印刷)" demo_world "/tmp/poster_export_k3x9q2ab"
             demo_tree) with (e := mkExn true "[Errno 13] Permission denied");
      first [reflexivity | discriminate].
Defined.

(** The directory is created before the archive is read and searched:
    when no document is found, [extract_zip_to_temp] raises, the caller's
    [temp_dir] is still [None], and the scratch directory stays. *)
Example scratch_left_without_document :
  fst (process_zip_upload demo_env_no_html (Some "/uploads/poster.zip")
         "300 PPI (高清印刷)" demo_world) =
    Returns (None, None,
             export_failed (host demo_env_no_html) ValueError_no_html) /\
  fs (snd (process_zip_upload demo_env_no_html (Some "/uploads/poster.zip")
             "300 PPI (高清印刷)" demo_world))
    !! Path_of_str "/tmp/poster_export_k3x9q2ab" = Some Dir.
Proof. split; vm_compute; reflexivity. Qed.


(** * Further properties of the code *)

(** ** The selection loop in closed form *)

Lemma find_app_last {A} (P : A -> bool) (l : list A) (x : A) :
  List.find P (l ++ [x]) =
  match List.find P l with
  | Some y => Some y
  | None => if P x then Some x else None
  end.
Proof.
  induction l as [|a l IH]; cbn [app List.find]; [reflexivity|].
  by destruct (P a).
Qed.

(** X1.  The loop of [extract_zip_to_temp] ends with the first file of the
    list whose parent is the extraction root; if there is none, with the
    last file whose name has a keyword; if there is none either, with the
    initial value. *)
Theorem select_loop_closed_form (temp_dir html_file : Path)
    (html_files : list Path) :
  select_loop temp_dir html_file html_files =
  match List.find (fun f => bool_decide (parent f = temp_dir)) html_files with
  | Some f => f
  | None =>
      match List.find has_keyword (rev html_files) with
      | Some f => f
      | None => html_file
      end
  end.
Proof.
  revert html_file. induction html_files as [|f l IH]; intros html_file;
    [reflexivity|].
  cbn [select_loop List.find rev]. case_bool_decide; [reflexivity|].
  rewrite find_app_last.
  destruct (has_keyword f) eqn:Ek; rewrite IH;
    destruct (List.find _ l); try reflexivity;
    by destruct (List.find has_keyword (rev l)).
Qed.

(** ** The density table *)

Lemma PPI_OPTIONS_lookup c v :
  PPI_OPTIONS !! c = Some v ->
  (c = "72 PPI (屏幕预览)" /\ v = 72) \/ (c = "150 PPI (普通打印)" /\ v = 150) \/
  (c = "300 PPI (高清印刷)" /\ v = 300) \/ (c = "600 PPI (超清印刷)" /\ v = 600).
Proof.
  unfold PPI_OPTIONS. intros H.
  repeat (apply lookup_insert_Some in H as [[<- <-]|[_ H]]; [tauto|]).
  by rewrite lookup_empty in H.
Qed.

(** X2.  Whatever label is given, the density an export works with is one
    of 72, 150, 300 and 600, so every browser context of an export has one
    of the four scale factors of the presets; and each label of the table
    begins with the number it stands for. *)
Theorem export_density_is_preset :
  (forall ppi_choice, preset_density (PPI_OPTIONS_get ppi_choice)) /\
  (forall c v, PPI_OPTIONS !! c = Some v ->
     Py.startswith c (Py.str_int v +:+ " PPI") = true) /\
  (forall env local_path file_obj ppi_choice w,
     exists v, preset_density v /\
       calls_extend (context_scale (inject_Z v / 96)%Q) w
         (snd (process_local_path env local_path ppi_choice w)) /\
       calls_extend (context_scale (inject_Z v / 96)%Q) w
         (snd (process_zip_upload env file_obj ppi_choice w))).
Proof.
  assert (Hrange : forall ppi_choice, preset_density (PPI_OPTIONS_get ppi_choice)).
  { intros c. unfold PPI_OPTIONS_get, preset_density.
    destruct (PPI_OPTIONS !! c) as [v|] eqn:E; cbn [default]; [|tauto].
    destruct (PPI_OPTIONS_lookup c v E) as [[_ ->]|[[_ ->]|[[_ ->]|[_ ->]]]];
      tauto. }
  split; [exact Hrange|]. split.
  - intros c v E.
    destruct (PPI_OPTIONS_lookup c v E) as [[-> ->]|[[-> ->]|[[-> ->]|[-> ->]]]];
      reflexivity.
  - intros env local_path file_obj ppi_choice w.
    exists (PPI_OPTIONS_get ppi_choice). split; [apply Hrange|]. split.
    + apply process_local_path_scale.
    + apply process_zip_upload_scale.
Qed.

(** ** Stripping *)

Lemma string_lt_ind (P : string -> Prop) :
  (forall s,
     (forall t, (String.length t < String.length s)%nat -> P t) -> P s) ->
  forall s, P s.
Proof.
  intros H s. remember (String.length s) as n eqn:En. revert s En.
  induction n as [n IH] using lt_wf_ind. intros s ->.
  apply H. intros t Ht. by apply (IH _ Ht).
Qed.

Lemma lstrip_length s :
  (String.length (Py.lstrip s) <= String.length s)%nat.
Proof.
  induction s as [s IH] using string_lt_ind.
  destruct s as [|a s1]; [reflexivity|]. cbn [Py.lstrip].
  destruct (Py.isspace a);
    [etrans; [apply IH|]; cbn [String.length]; lia|].
  destruct s1 as [|b s2]; [reflexivity|].
  destruct (Py.isspace2 a b);
    [etrans; [apply IH|]; cbn [String.length]; lia|].
  destruct s2 as [|c s3]; [reflexivity|].
  destruct (Py.isspace3 a b c); [|reflexivity].
  etrans; [apply IH|]; cbn [String.length]; lia.
Qed.

Lemma lstrip_idempotent s : Py.lstrip (Py.lstrip s) = Py.lstrip s.
Proof.
  induction s as [s IH] using string_lt_ind.
  destruct s as [|a s1]; [reflexivity|]. cbn [Py.lstrip].
  destruct (Py.isspace a) eqn:Ea; [apply IH; cbn [String.length]; lia|].
  destruct s1 as [|b s2]; [cbn [Py.lstrip]; by rewrite Ea|].
  destruct (Py.isspace2 a b) eqn:Eb; [apply IH; cbn [String.length]; lia|].
  destruct s2 as [|c s3]; [cbn [Py.lstrip]; by rewrite Ea, Eb|].
  destruct (Py.isspace3 a b c) eqn:Ec; [apply IH; cbn [String.length]; lia|].
  cbn [Py.lstrip]. by rewrite Ea, Eb, Ec.
Qed.

(** White space in front of a string does not count. *)
Lemma lstrip_blank_app s w :
  Py.lstrip s = "" -> Py.lstrip (s +:+ w) = Py.lstrip w.
Proof.
  induction s as [s IH] using string_lt_ind.
  destruct s as [|a s1]; [reflexivity|].
  change (String a s1 +:+ w) with (String a (s1 +:+ w)).
  cbn [Py.lstrip].
  destruct (Py.isspace a) eqn:Ea;
    [intros H; apply IH; [cbn [String.length]; lia | exact H]|].
  destruct s1 as [|b s2]; [discriminate|].
  change (String b s2 +:+ w) with (String b (s2 +:+ w)). cbn iota.
  destruct (Py.isspace2 a b) eqn:Eb;
    [intros H; apply IH; [cbn [String.length]; lia | exact H]|].
  destruct s2 as [|c s3]; [discriminate|].
  change (String c s3 +:+ w) with (String c (s3 +:+ w)). cbn iota.
  destruct (Py.isspace3 a b c) eqn:Ec; [|discriminate].
  intros H. apply IH; [cbn [String.length]; lia | exact H].
Qed.

(** What [rstrip] drops is white space. *)
Lemma rstrip_split s :
  exists w, s = Py.rstrip s +:+ w /\ Py.lstrip w = "".
Proof.
  induction s as [|c s IH]; [by exists ""|]. cbn [Py.rstrip].
  destruct (String.eqb (Py.lstrip (String c s)) "") eqn:E.
  - exists (String c s). split; [reflexivity | by apply String.eqb_eq].
  - destruct IH as (w & Hw & Hb). exists w.
    change (String c (Py.rstrip s) +:+ w) with (String c (Py.rstrip s +:+ w)).
    split; [by f_equal | exact Hb].
Qed.

Lemma rstrip_idempotent s : Py.rstrip (Py.rstrip s) = Py.rstrip s.
Proof.
  induction s as [|c s IH]; [reflexivity|]. cbn [Py.rstrip].
  destruct (String.eqb (Py.lstrip (String c s)) "") eqn:E; [reflexivity|].
  cbn [Py.rstrip]. rewrite IH.
  destruct (String.eqb (Py.lstrip (String c (Py.rstrip s))) "") eqn:E';
    [|reflexivity].
  apply String.eqb_eq in E'. apply String.eqb_neq in E. exfalso. apply E.
  destruct (rstrip_split s) as (w & Hw & Hb).
  rewrite Hw at 1.
  change (String c (Py.rstrip s +:+ w)) with (String c (Py.rstrip s) +:+ w).
  by rewrite (lstrip_blank_app _ w E').
Qed.

(** A string that does not begin with white space has no prefix that
    does. *)
Lemma lstrip_prefix_fixed u w :
  Py.lstrip (u +:+ w) = u +:+ w -> Py.lstrip u = u.
Proof.
  assert (Hshort : forall t pre,
            (String.length t < String.length pre)%nat ->
            Py.lstrip t <> pre).
  { intros t pre Hlt E. pose proof (lstrip_length t) as Hle.
    rewrite E in Hle. lia. }
  destruct u as [|a u1]; [reflexivity|].
  change (String a u1 +:+ w) with (String a (u1 +:+ w)).
  cbn [Py.lstrip].
  destruct (Py.isspace a) eqn:Ea.
  { intros H. by apply Hshort in H; [|cbn [String.length]; lia]. }
  destruct u1 as [|b u2]; [reflexivity|].
  change (String b u2 +:+ w) with (String b (u2 +:+ w)). cbn iota.
  destruct (Py.isspace2 a b) eqn:Eb.
  { intros H. by apply Hshort in H; [|cbn [String.length]; lia]. }
  destruct u2 as [|c u3]; [reflexivity|].
  change (String c u3 +:+ w) with (String c (u3 +:+ w)). cbn iota.
  destruct (Py.isspace3 a b c) eqn:Ec; [|reflexivity].
  intros H. by apply Hshort in H; [|cbn [String.length]; lia].
Qed.

Lemma lstrip_rstrip_fixed t :
  Py.lstrip t = t -> Py.lstrip (Py.rstrip t) = Py.rstrip t.
Proof.
  intros H. destruct (rstrip_split t) as (w & Hw & _).
  apply (lstrip_prefix_fixed _ w). by rewrite <- Hw.
Qed.

Lemma strip_idempotent s : Py.strip (Py.strip s) = Py.strip s.
Proof.
  unfold Py.strip.
  rewrite (lstrip_rstrip_fixed _ (lstrip_idempotent s)).
  apply rstrip_idempotent.
Qed.

(** Stripping removes white space outside ASCII like a blank. *)
Example strip_unicode :
  Py.strip (nbsp +:+ " /home/u/x.html" +:+ ideographic_space +:+ nl) =
    "/home/u/x.html" /\
  Py.strip (ideographic_space +:+ nbsp) = "".
Proof. split; vm_compute; reflexivity. Qed.

(** ** The file dialogs *)

Lemma answered_stripped r p : answered r = Some p -> Py.strip p = p.
Proof.
  destruct r as [c|err]; [|discriminate]. cbn [answered].
  destruct (returncode c =? 0); [|discriminate].
  intros [= <-]. apply strip_idempotent.
Qed.

Lemma interrupted_not_Exception r e :
  interrupted r = Some e -> exn_is_Exception e = false.
Proof.
  destruct r as [c|err]; [discriminate|]. cbn [interrupted].
  destruct (exn_is_Exception (run_error_exn err)) eqn:E; [discriminate|].
  by intros [= <-].
Qed.

Ltac dialog_reduce :=
  cbn [negb returncode proc_stdout proc_stderr run_error_exn
       exn_is_Exception default fst snd].

Ltac dialog_cases :=
  dialog_reduce;
  repeat (match goal with
    | |- context [match ?r with Done _ => _ | Failed _ => _ end] =>
        is_var r; destruct r as [[rc out err]|[msg|msg|e]]
    | |- context [if ?rc =? 0 then _ else _] => destruct (rc =? 0)
    | |- context [if negb (Py.falsy ?p) then _ else _] =>
        let E := fresh "E" in
        destruct (Py.falsy p) eqn:E;
        [apply String.eqb_eq in E; try rewrite E|]
    | |- context [if exn_is_Exception ?e then _ else _] =>
        is_var e; destruct (exn_is_Exception e)
    end; dialog_reduce).

(** What one run of the macOS dialog comes to. *)
Lemma open_file_dialog_macos_run d s :
  exists lines,
    open_file_dialog_macos d s =
      (match interrupted (desk_run d ["osascript"; "-e"; macos_script] (Some 120)) with
       | Some e => Raises e
       | None =>
           Returns (default ""
             (answered (desk_run d ["osascript"; "-e"; macos_script] (Some 120))))
       end,
       {| desk_runs := desk_runs s ++ [(["osascript"; "-e"; macos_script], Some 120)];
          desk_printed := desk_printed s ++ lines;
          desk_launches := desk_launches s |}).
Proof.
  unfold open_file_dialog_macos, subprocess_run, interrupted, answered,
    dbind, dprint, dret.
  generalize (desk_run d ["osascript"; "-e"; macos_script] (Some 120)).
  intros r. dialog_cases;
    first [ by (exists []; rewrite app_nil_r) | by eexists ].
Qed.

Lemma open_file_dialog_windows_run d s :
  exists lines,
    open_file_dialog_windows d s =
      (match interrupted (desk_run d ["powershell"; "-Command"; windows_script]
                            (Some 120)) with
       | Some e => Raises e
       | None =>
           Returns (default ""
             (answered (desk_run d ["powershell"; "-Command"; windows_script]
                          (Some 120))))
       end,
       {| desk_runs :=
            desk_runs s ++ [(["powershell"; "-Command"; windows_script], Some 120)];
          desk_printed := desk_printed s ++ lines;
          desk_launches := desk_launches s |}).
Proof.
  unfold open_file_dialog_windows, subprocess_run, interrupted, answered,
    dbind, dprint, dret.
  generalize (desk_run d ["powershell"; "-Command"; windows_script] (Some 120)).
  intros r. dialog_cases;
    first [ by (exists []; rewrite app_nil_r) | by eexists ].
Qed.

Lemma linux_attempt_run d args label s :
  exists lines,
    linux_attempt d args label s =
      (match interrupted (desk_run d args (Some 120)) with
       | Some e => Raises e
       | None => Returns (answered (desk_run d args (Some 120)))
       end,
       {| desk_runs := desk_runs s ++ [(args, Some 120)];
          desk_printed := desk_printed s ++ lines;
          desk_launches := desk_launches s |}).
Proof.
  unfold linux_attempt, subprocess_run, interrupted, answered,
    dbind, dprint, dret.
  generalize (desk_run d args (Some 120)).
  intros r. dialog_cases;
    first [ by (exists []; rewrite app_nil_r) | by eexists ].
Qed.

Lemma open_file_dialog_linux_run d s :
  exists lines,
    open_file_dialog_linux d s =
      (match interrupted (desk_run d zenity_args (Some 120)) with
       | Some e => Raises e
       | None =>
           match answered (desk_run d zenity_args (Some 120)) with
           | Some p => Returns p
           | None =>
               match interrupted (desk_run d (kdialog_args d) (Some 120)) with
               | Some e => Raises e
               | None =>
                   Returns (default ""
                     (answered (desk_run d (kdialog_args d) (Some 120))))
               end
           end
       end,
       {| desk_runs :=
            desk_runs s ++
            (zenity_args, Some 120) ::
            match interrupted (desk_run d zenity_args (Some 120)),
                  answered (desk_run d zenity_args (Some 120)) with
            | None, None => [(kdialog_args d, Some 120)]
            | _, _ => []
            end;
          desk_printed := desk_printed s ++ lines;
          desk_launches := desk_launches s |}).
Proof.
  unfold open_file_dialog_linux, dbind at 1.
  destruct (linux_attempt_run d zenity_args "Zenity 错误: " s) as [l1 ->].
  destruct (interrupted (desk_run d zenity_args (Some 120))) as [e|];
    [by exists l1|].
  destruct (answered (desk_run d zenity_args (Some 120))) as [p|];
    [by exists l1|].
  unfold dbind.
  match goal with
  | |- context [linux_attempt d (kdialog_args d) ?lab ?s1] =>
      destruct (linux_attempt_run d (kdialog_args d) lab s1) as [l2 ->]
  end.
  cbn [desk_runs desk_printed desk_launches].
  exists (l1 ++ l2). rewrite <- !app_assoc. cbn [app].
  destruct (interrupted (desk_run d (kdialog_args d) (Some 120))) as [e|];
    [reflexivity|].
  by destruct (answered (desk_run d (kdialog_args d) (Some 120))).
Qed.

(** X3.  None of the three dialog functions lets an [Exception] out.  What
    they return is free of surrounding white space, and is either the empty
    string or the stripped output of a dialog command that was run with a
    timeout of 120 seconds and exited with code 0. *)
Theorem dialog_result d s f :
  In f [open_file_dialog_macos; open_file_dialog_windows;
        open_file_dialog_linux] ->
  (forall e, fst (f d s) = Raises e -> exn_is_Exception e = false) /\
  (forall p, fst (f d s) = Returns p ->
     Py.strip p = p /\
     (p = "" \/
      exists args,
        In (args, Some 120) (desk_runs (snd (f d s))) /\
        answered (desk_run d args (Some 120)) = Some p)).
Proof.
  intros [<-|[<-|[<-|[]]]].
  - destruct (open_file_dialog_macos_run d s) as [lines ->]. cbn [fst snd desk_runs].
    destruct (interrupted _) as [e0|] eqn:Ei.
    + split; [|discriminate]. intros e [= <-].
      eapply interrupted_not_Exception; eassumption.
    + split; [discriminate|]. intros p [= <-].
      destruct (answered _) as [p|] eqn:Ea; cbn [default]; [|by split; [|left]].
      split; [eapply answered_stripped; eassumption|]. right.
      eexists. split; [|exact Ea]. apply in_app_iff. right. by left.
  - destruct (open_file_dialog_windows_run d s) as [lines ->]. cbn [fst snd desk_runs].
    destruct (interrupted _) as [e0|] eqn:Ei.
    + split; [|discriminate]. intros e [= <-].
      eapply interrupted_not_Exception; eassumption.
    + split; [discriminate|]. intros p [= <-].
      destruct (answered _) as [p|] eqn:Ea; cbn [default]; [|by split; [|left]].
      split; [eapply answered_stripped; eassumption|]. right.
      eexists. split; [|exact Ea]. apply in_app_iff. right. by left.
  - destruct (open_file_dialog_linux_run d s) as [lines ->]. cbn [fst snd desk_runs].
    destruct (interrupted (desk_run d zenity_args (Some 120))) as [e0|] eqn:Ei.
    { split; [|discriminate]. intros e [= <-].
      eapply interrupted_not_Exception; eassumption. }
    destruct (answered (desk_run d zenity_args (Some 120))) as [p0|] eqn:Ea.
    { split; [discriminate|]. intros p [= <-].
      split; [eapply answered_stripped; eassumption|]. right.
      exists zenity_args. split; [|exact Ea]. apply in_app_iff. right. by left. }
    destruct (interrupted (desk_run d (kdialog_args d) (Some 120))) as [e1|] eqn:Ei'.
    { split; [|discriminate]. intros e [= <-].
      eapply interrupted_not_Exception; eassumption. }
    split; [discriminate|]. intros p [= <-].
    destruct (answered (desk_run d (kdialog_args d) (Some 120))) as [p1|] eqn:Ea';
      cbn [default]; [|by split; [|left]].
    split; [eapply answered_stripped; eassumption|]. right.
    exists (kdialog_args d). split; [|exact Ea'].
    apply in_app_iff. right. right. by left.
Qed.

Lemma dialog_result_witness :
  fst (open_file_dialog_linux demo_desktop demo_desk) =
    Returns "/home/u/myposter.html" /\
  Py.strip "/home/u/myposter.html" = "/home/u/myposter.html".
Proof.
  split; [reflexivity|].
  apply (dialog_result demo_desktop demo_desk open_file_dialog_linux);
    [right; right; by left | reflexivity].
Defined.

(** X4.  The macOS and the Windows dialog run exactly one command.  The
    Linux dialog always runs zenity first, and runs kdialog after it
    exactly when zenity neither exited with code 0 nor was interrupted:
    also when the user closed the zenity dialog. *)
Theorem dialog_commands d s :
  desk_runs (snd (open_file_dialog_macos d s)) =
    desk_runs s ++ [(["osascript"; "-e"; macos_script], Some 120)] /\
  desk_runs (snd (open_file_dialog_windows d s)) =
    desk_runs s ++ [(["powershell"; "-Command"; windows_script], Some 120)] /\
  desk_runs (snd (open_file_dialog_linux d s)) =
    desk_runs s ++
    (zenity_args, Some 120) ::
    match interrupted (desk_run d zenity_args (Some 120)),
          answered (desk_run d zenity_args (Some 120)) with
    | None, None => [(kdialog_args d, Some 120)]
    | _, _ => []
    end.
Proof.
  destruct (open_file_dialog_macos_run d s) as [l1 ->].
  destruct (open_file_dialog_windows_run d s) as [l2 ->].
  destruct (open_file_dialog_linux_run d s) as [l3 ->].
  by repeat split.
Qed.

(** A closed zenity dialog is followed by the kdialog one. *)
Example closed_zenity_opens_kdialog :
  List.map fst (desk_runs (snd (open_file_dialog_linux demo_desktop demo_desk))) =
    [zenity_args; kdialog_args demo_desktop].
Proof. reflexivity. Qed.

(** ** Browsing for a file *)







(** A dialog that prints the path followed by a no-break space and a line
    feed: the box gets the path alone, and the preview finds the poster. *)
Example browsed_path_is_stripped :
  fst (browse_file demo_desktop_nbsp demo_desk) =
    Returns (Some "/home/u/myposter.html", "✅ 已选择: myposter.html") /\
  exists preview,
    fst (preview_local_path demo_env "/home/u/myposter.html" demo_world) =
      Returns (Some preview,
               "✅ 预览已加载（72 PPI）" +:+ nl +:+
               "📄 文件: /home/u/myposter.html").
Proof. split; [|eexists]; vm_compute; reflexivity. Qed.

(** ** The entry point *)

(** X7.  [main] tries once to install the browser, without a timeout, and
    then launches the interface once, on localhost, port 7860, without a
    public link, and returns what the launch returns: a missing command, a
    non-zero exit code or any other [Exception] of the installation is only
    printed.  Only an exception that is no [Exception] stops [main] before
    the launch. *)
Theorem main_launches d s :
  desk_runs (snd (main d s)) =
    desk_runs s ++ [(["playwright"; "install"; "chromium"], None)] /\
  match interrupted (desk_run d ["playwright"; "install"; "chromium"] None) with
  | Some e =>
      fst (main d s) = Raises e /\
      desk_launches (snd (main d s)) = desk_launches s
  | None =>
      fst (main d s) = desk_launch d main_launch_args /\
      desk_launches (snd (main d s)) = desk_launches s ++ [main_launch_args]
  end /\
  server_name main_launch_args = "localhost" /\
  server_port main_launch_args = 7860 /\
  share main_launch_args = false.
Proof.
  unfold main, dbind, dprint, install_failed, subprocess_run, app_launch,
    interrupted.
  cbn [desk_runs desk_printed desk_launches fst snd].
  generalize (desk_run d ["playwright"; "install"; "chromium"] None).
  intros r. destruct r as [[rc out err]|[msg|msg|e]]; dialog_reduce;
    unfold dbind, dprint;
    try destruct (rc =? 0); try destruct (exn_is_Exception e);
    cbn [desk_runs desk_printed desk_launches fst snd]; by repeat split.
Qed.

(** ** The browser session of a render *)

Ltac give_body :=
  match goal with
  | |- exists body, PlaywrightStart :: ?l = PlaywrightStart :: body ++ _ /\ _ =>
      exists (removelast l); cbn [removelast app]
  end.

Lemma render_session env path ppi width height sel w r w' :
  render_html_file_to_image env path ppi width height sel w = (r, w') ->
  exists tr,
    calls w' = calls w ++ tr /\
    (forall e, eng_start (engine env) = Raises e ->
       tr = [PlaywrightStart] /\ r = Raises e) /\
    (forall u, eng_start (engine env) = Returns u ->
       exists shot,
         (shot = ElementScreenshot "png" false \/
          shot = PageScreenshot "png" false) /\
         (exists body,
            tr = PlaywrightStart :: body ++ [PlaywrightStop] /\
            body `prefix_of`
              session_body (file_url (host env) path) ppi width height sel shot) /\
         (forall b, r = Returns b ->
            tr = session (file_url (host env) path) ppi width height sel shot)) /\
    (In BrowserClose tr -> forall e, r = Raises e ->
       eng_close (engine env) = Raises e).
Proof.
  unfold file_url, session, session_body.
  run_render; intros [= <- <-]; cbn [calls];
    rewrite <- ?app_assoc; cbn [app];
    (eexists; split; [reflexivity|]; split;
     [ intros ? Hstart; first [congruence | by injection Hstart as <-] |]; split;
     [ intros ? Hstart; first
         [ congruence
         | exists (ElementScreenshot "png" false); split; [by left|]; split;
           [ give_body; split; [reflexivity | eexists; cbn [app]; reflexivity]
           | intros ? Hret; first [discriminate Hret | reflexivity] ]
         | exists (PageScreenshot "png" false); split; [by right|]; split;
           [ give_body; split; [reflexivity | eexists; cbn [app]; reflexivity]
           | intros ? Hret; first [discriminate Hret | reflexivity] ] ]
     | intros Hin ? Hraise;
       first [ discriminate Hraise
             | by injection Hraise as <-
             | exfalso; cbn in Hin; intuition discriminate ] ]).
Qed.

Lemma Forall_prefix {A} (P : A -> Prop) (l1 l2 : list A) :
  l1 `prefix_of` l2 -> Forall P l2 -> Forall P l1.
Proof. intros [k ->] H. by apply Forall_app in H as [H _]. Qed.

Lemma session_body_inner url ppi width height sel shot :
  shot = ElementScreenshot "png" false \/ shot = PageScreenshot "png" false ->
  Forall (fun ev => ev <> PlaywrightStart /\ ev <> PlaywrightStop)
    (session_body url ppi width height sel shot).
Proof.
  intros [->| ->]; unfold session_body; repeat constructor; discriminate.
Qed.

Lemma render_one_session env path ppi width height sel w :
  exists tr,
    calls (snd (render_html_file_to_image env path ppi width height sel w)) =
      calls w ++ tr /\
    one_session tr /\ tr <> [].
Proof.
  destruct (render_html_file_to_image env path ppi width height sel w)
    as [r w'] eqn:Hrun.
  destruct (render_session _ _ _ _ _ _ _ _ _ Hrun)
    as (tr & Hcalls & Hfail & Hok & _).
  exists tr. split; [exact Hcalls|].
  destruct (eng_start (engine env)) as [u|e] eqn:Es.
  - destruct (Hok u eq_refl) as (shot & Hshot & (body & -> & Hpre) & _).
    split; [|discriminate]. right. right. exists body. split; [reflexivity|].
    eapply Forall_prefix; [exact Hpre|]. by apply session_body_inner.
  - destruct (Hfail e eq_refl) as [-> _]. split; [|discriminate].
    right. by left.
Qed.

(** X8.  The browser session of a render.  If the driver cannot be
    started, nothing else is called and the render raises that exception.
    If it starts, the last call is always the stop of the driver, whatever
    fails in between, and the calls before it are first calls of a complete
    session.  A render that returns has made the complete session, closing
    the browser before the driver stops.  [browser.close()] is reached only
    after a successful capture: a render that raises has called it only
    when the close itself raised. *)
Theorem render_session_teardown env path ppi width height sel w :
  exists tr,
    calls (snd (render_html_file_to_image env path ppi width height sel w)) =
      calls w ++ tr /\
    one_session tr /\
    (forall e, eng_start (engine env) = Raises e ->
       tr = [PlaywrightStart] /\
       fst (render_html_file_to_image env path ppi width height sel w) = Raises e) /\
    (forall u, eng_start (engine env) = Returns u ->
       List.last tr PlaywrightStart = PlaywrightStop /\
       exists body shot,
         tr = PlaywrightStart :: body ++ [PlaywrightStop] /\
         body `prefix_of`
           session_body (file_url (host env) path) ppi width height sel shot) /\
    (forall b,
       fst (render_html_file_to_image env path ppi width height sel w) = Returns b ->
       exists shot,
         tr = session (file_url (host env) path) ppi width height sel shot) /\
    (In BrowserClose tr -> forall e,
       fst (render_html_file_to_image env path ppi width height sel w) = Raises e ->
       eng_close (engine env) = Raises e).
Proof.
  destruct (render_one_session env path ppi width height sel w)
    as (tr0 & Hcalls0 & Hone & _).
  destruct (render_html_file_to_image env path ppi width height sel w)
    as [r w'] eqn:Hrun.
  destruct (render_session _ _ _ _ _ _ _ _ _ Hrun)
    as (tr & Hcalls & Hfail & Hok & Hclose).
  cbn [fst snd] in *.
  assert (tr0 = tr) as -> by (apply (app_inv_head (calls w)); congruence).
  exists tr. split; [exact Hcalls|]. split; [exact Hone|].
  split; [exact Hfail|]. split; [|split; [|exact Hclose]].
  - intros u Hu. destruct (Hok u Hu) as (shot & _ & (body & -> & Hpre) & _).
    split; [|by exists body, shot].
    change (PlaywrightStart :: body ++ [PlaywrightStop])
      with ((PlaywrightStart :: body) ++ [PlaywrightStop]).
    apply last_last.
  - intros b Hb. destruct (eng_start (engine env)) as [u|e] eqn:Es.
    + destruct (Hok u eq_refl) as (shot & _ & _ & Hall). exists shot. exact (Hall b Hb).
    + destruct (Hfail e eq_refl) as [_ Hr]. congruence.
Qed.

Lemma render_session_teardown_witness :
  exists tr,
    calls (snd (render_html_file_to_image demo_env "/home/u/myposter.html"
                  300 900 1200 "#poster" demo_world)) = calls demo_world ++ tr /\
    List.last tr PlaywrightStart = PlaywrightStop.
Proof.
  destruct (render_session_teardown demo_env "/home/u/myposter.html"
              300 900 1200 "#poster" demo_world)
    as (tr & Hcalls & _ & _ & Hstop & _).
  exists tr. split; [exact Hcalls|]. exact (proj1 (Hstop tt eq_refl)).
Defined.

(** ** One session for each operation *)

Lemma no_calls_eq w w' : no_calls w w' -> calls w' = calls w.
Proof.
  intros (tr & E & F). destruct tr as [|ev tr]; [by rewrite app_nil_r in E|].
  by apply Forall_cons in F as [[] _].
Qed.

Lemma try_finally_snd {A} (body : M A) (fin : M unit) w :
  snd (try_finally body fin w) = snd (fin (snd (body w))).
Proof.
  unfold try_finally. destruct (body w) as [r w1]. cbn [snd].
  by destruct (fin w1) as [[u|e] w2].
Qed.

(** A [try] block that renders once between steps that call nothing. *)
Lemma try_except_one_render {A} (pre : M unit) (R : M bytes)
    (post : bytes -> M A) (handler : exn -> M A) w :
  preserves (calls_extend (fun _ => False)) pre ->
  (forall b, preserves (calls_extend (fun _ => False)) (post b)) ->
  (forall e, preserves (calls_extend (fun _ => False)) (handler e)) ->
  exists w0,
    calls w0 = calls w /\
    (calls (snd (try_except (bind pre (fun _ => bind R post)) handler w)) =
       calls w0 \/
     calls (snd (try_except (bind pre (fun _ => bind R post)) handler w)) =
       calls (snd (R w0))).
Proof.
  intros Hpre Hpost Hh. unfold try_except, bind.
  pose proof (no_calls_eq _ _ (Hpre w)) as Ew0.
  destruct (pre w) as [[u|e] w0]; cbn [snd] in Ew0; exists w0;
    (split; [exact Ew0|]).
  - right. destruct (R w0) as [[b|e] w1]; cbn [snd].
    + pose proof (no_calls_eq _ _ (Hpost b w1)) as Ew2.
      destruct (post b w1) as [[a|e] w2]; cbn [snd] in *; [exact Ew2|].
      destruct (exn_is_Exception e); [|exact Ew2].
      rewrite (no_calls_eq _ _ (Hh e w2)). exact Ew2.
    + destruct (exn_is_Exception e); [|reflexivity].
      apply (no_calls_eq _ _ (Hh e w1)).
  - left. destruct (exn_is_Exception e); [|reflexivity].
    apply (no_calls_eq _ _ (Hh e w0)).
Qed.

Lemma one_render_one_session {A} (T : M A) env path ppi w :
  (exists w0,
     calls w0 = calls w /\
     (calls (snd (T w)) = calls w0 \/
      calls (snd (T w)) =
        calls (snd (sync_render_html_file_to_image env path ppi w0)))) ->
  exists tr, calls (snd (T w)) = calls w ++ tr /\ one_session tr.
Proof.
  intros (w0 & E0 & [E|E]).
  - exists []. rewrite app_nil_r. split; [congruence | by left].
  - destruct (render_one_session env path ppi DEFAULT_WIDTH DEFAULT_HEIGHT
                "#poster" w0) as (tr & Hcalls & Hone & _).
    exists tr. split; [|exact Hone].
    rewrite E. unfold sync_render_html_file_to_image. by rewrite Hcalls, E0.
Qed.

Lemma process_local_path_one_session env local_path ppi_choice w :
  exists tr,
    calls (snd (process_local_path env local_path ppi_choice w)) = calls w ++ tr /\
    one_session tr.
Proof.
  assert (Hnone : exists tr, calls w = calls w ++ tr /\ one_session tr)
    by (exists []; rewrite app_nil_r; split; [reflexivity | by left]).
  unfold process_local_path.
  destruct (Py.falsy local_path || Py.falsy (Py.strip local_path));
    [exact Hnone|].
  unfold bind at 1, os_path_exists, Path_exists.
  destruct (negb _); [exact Hnone|]. destruct (negb _); [exact Hnone|].
  eapply one_render_one_session, try_except_one_render.
  - apply print_calls.
  - intros b. preserves_calls fail.
  - intros e. preserves_calls fail.
Qed.

Lemma preview_local_path_one_session env local_path w :
  exists tr,
    calls (snd (preview_local_path env local_path w)) = calls w ++ tr /\
    one_session tr.
Proof.
  assert (Hnone : exists tr, calls w = calls w ++ tr /\ one_session tr)
    by (exists []; rewrite app_nil_r; split; [reflexivity | by left]).
  unfold preview_local_path.
  destruct (Py.falsy local_path || Py.falsy (Py.strip local_path));
    [exact Hnone|].
  unfold bind at 1, os_path_exists, Path_exists.
  destruct (negb _); [exact Hnone|]. destruct (negb _); [exact Hnone|].
  eapply one_render_one_session, try_except_one_render.
  - apply print_calls.
  - intros b. preserves_calls fail.
  - intros e. preserves_calls fail.
Qed.

Lemma try_except_render_first {A} (R : M bytes) (post : bytes -> M A)
    (handler : exn -> M A) w :
  (forall b, preserves (calls_extend (fun _ => False)) (post b)) ->
  (forall e, preserves (calls_extend (fun _ => False)) (handler e)) ->
  exists w0,
    calls w0 = calls w /\
    (calls (snd (try_except (bind R post) handler w)) = calls w0 \/
     calls (snd (try_except (bind R post) handler w)) = calls (snd (R w0))).
Proof.
  intros Hpost Hh.
  exact (try_except_one_render (ret tt) R post handler w
           (preserves_ret _ (calls_extend_refl _) tt) Hpost Hh).
Qed.

Lemma zip_export_body_one_session env ppi html w :
  exists tr,
    calls (snd (zip_export_body env ppi html w)) = calls w ++ tr /\
    one_session tr.
Proof.
  unfold zip_export_body.
  eapply one_render_one_session, try_except_one_render.
  - apply print_calls.
  - intros b. preserves_calls fail.
  - intros e. preserves_calls fail.
Qed.

Lemma zip_preview_body_one_session env html w :
  exists tr,
    calls (snd (zip_preview_body env html w)) = calls w ++ tr /\
    one_session tr.
Proof.
  unfold zip_preview_body.
  eapply one_render_one_session, try_except_render_first.
  - intros b. preserves_calls fail.
  - intros e. preserves_calls fail.
Qed.

Lemma extraction_no_calls h line zip_path w :
  calls (snd ((print line >> extract_zip_to_temp h zip_path) w)) = calls w.
Proof.
  apply no_calls_eq.
  assert (H : preserves (calls_extend (fun _ => False))
                (print line >> extract_zip_to_temp h zip_path)).
  { preserves_calls ltac:(apply extract_zip_to_temp_calls). }
  apply H.
Qed.

Lemma cleanup_no_calls h temp_dir w :
  calls (snd (cleanup h temp_dir w)) = calls w.
Proof. apply no_calls_eq, (cleanup_calls (fun _ => False)). Qed.

Lemma process_zip_upload_one_session env file_obj ppi_choice w :
  exists tr,
    calls (snd (process_zip_upload env file_obj ppi_choice w)) = calls w ++ tr /\
    one_session tr.
Proof.
  assert (Hnone : forall w1, calls w1 = calls w ->
            exists tr, calls w1 = calls w ++ tr /\ one_session tr).
  { intros w1 E. exists []. rewrite app_nil_r. split; [exact E | by left]. }
  unfold process_zip_upload. destruct file_obj as [file_path|]; [|by apply Hnone].
  cbv zeta. destruct (negb _); [by apply Hnone|].
  unfold attempt.
  pose proof (extraction_no_calls (host env) "📦 解压 ZIP 文件..." file_path w) as E1.
  destruct ((print _ >> extract_zip_to_temp _ _) w) as [[[temp_dir html]|e] w1];
    cbn [snd] in E1; rewrite try_finally_snd, cleanup_no_calls.
  - destruct (zip_export_body_one_session env (PPI_OPTIONS_get ppi_choice) html w1)
      as (tr & Hcalls & Hone).
    exists tr. by rewrite Hcalls, E1.
  - apply Hnone. unfold try_except, raise. cbn [fst snd].
    by destruct (exn_is_Exception e).
Qed.

Lemma preview_zip_upload_one_session env file_obj w :
  exists tr,
    calls (snd (preview_zip_upload env file_obj w)) = calls w ++ tr /\
    one_session tr.
Proof.
  assert (Hnone : forall w1, calls w1 = calls w ->
            exists tr, calls w1 = calls w ++ tr /\ one_session tr).
  { intros w1 E. exists []. rewrite app_nil_r. split; [exact E | by left]. }
  unfold preview_zip_upload. destruct file_obj as [file_path|]; [|by apply Hnone].
  cbv zeta. destruct (negb _); [by apply Hnone|].
  unfold attempt.
  pose proof (extraction_no_calls (host env) "📦 预览 ZIP 文件..." file_path w) as E1.
  destruct ((print _ >> extract_zip_to_temp _ _) w) as [[[temp_dir html]|e] w1];
    cbn [snd] in E1; rewrite try_finally_snd, cleanup_no_calls.
  - destruct (zip_preview_body_one_session env html w1) as (tr & Hcalls & Hone).
    exists tr. by rewrite Hcalls, E1.
  - apply Hnone. unfold try_except, raise. cbn [fst snd].
    by destruct (exn_is_Exception e).
Qed.

(** X9.  Each of the four operations opens at most one browser session:
    the browser calls it adds are none, or a single failed start of the
    driver, or one start and one stop of the driver with the other calls in
    between.  No operation retries a render, and no operation leaves the
    driver running. *)
Theorem operations_one_session env w :
  (forall local_path ppi_choice, exists tr,
     calls (snd (process_local_path env local_path ppi_choice w)) = calls w ++ tr /\
     one_session tr) /\
  (forall local_path, exists tr,
     calls (snd (preview_local_path env local_path w)) = calls w ++ tr /\
     one_session tr) /\
  (forall file_obj ppi_choice, exists tr,
     calls (snd (process_zip_upload env file_obj ppi_choice w)) = calls w ++ tr /\
     one_session tr) /\
  (forall file_obj, exists tr,
     calls (snd (preview_zip_upload env file_obj w)) = calls w ++ tr /\
     one_session tr).
Proof.
  split; [|split; [|split]]; intros.
  - apply process_local_path_one_session.
  - apply preview_local_path_one_session.
  - apply process_zip_upload_one_session.
  - apply preview_zip_upload_one_session.
Qed.

(** ** Exceptions of the class [Exception] stay inside the operations *)














(** ** A failed render, a failed decoding *)

Lemma local_guards_pass env local_path w :
  Py.strip local_path <> "" ->
  host_exists (host env) (fs w)
    (host_expanduser (host env) (Py.strip local_path)) = true ->
  Py.endswith_any
    (Py.lower (host_expanduser (host env) (Py.strip local_path)))
    [".html"; ".htm"] = true ->
  Py.falsy local_path || Py.falsy (Py.strip local_path) = false /\
  negb (host_exists (host env) (fs w)
          (host_expanduser (host env) (Py.strip local_path))) = false /\
  negb (Py.endswith_any
          (Py.lower (host_expanduser (host env) (Py.strip local_path)))
          [".html"; ".htm"]) = false.
Proof.
  intros Hblank Hsome Hext.
  rewrite (falsy_false _ (strip_nonblank _ Hblank)), (falsy_false _ Hblank).
  rewrite Hsome, Hext. by repeat split.
Qed.

Lemma sync_render_at env path ppi w w0 r :
  fst (sync_render_html_file_to_image env path ppi w) = r ->
  fs w0 = fs w ->
  exists w1,
    sync_render_html_file_to_image env path ppi w0 = (r, w1) /\ fs w1 = fs w.
Proof.
  intros Hr Hfs. unfold sync_render_html_file_to_image in *.
  exists (snd (render_html_file_to_image env path ppi DEFAULT_WIDTH
                 DEFAULT_HEIGHT "#poster" w0)).
  split.
  - rewrite <- Hr.
    rewrite (render_outcome_any_world env path ppi DEFAULT_WIDTH DEFAULT_HEIGHT
               "#poster" w w0).
    by destruct (render_html_file_to_image _ _ _ _ _ _ w0).
  - by rewrite render_fs.
Qed.

(** X11.  For a path that passes the checks ([os.path.exists] answers yes
    and the extension is an HTML one), a render that raises an [Exception]
    makes the local export and the local preview return their failure
    status, built from the text of that exception and the traceback, with
    no file and no image; the file system is left as it was, so no output
    file has been created. *)
Theorem render_failure_reported env local_path ppi_choice w e :
  Py.strip local_path <> "" ->
  let p := host_expanduser (host env) (Py.strip local_path) in
  host_exists (host env) (fs w) p = true ->
  Py.endswith_any (Py.lower p) [".html"; ".htm"] = true ->
  exn_is_Exception e = true ->
  (fst (sync_render_html_file_to_image env p (PPI_OPTIONS_get ppi_choice) w) =
     Raises e ->
   fst (process_local_path env local_path ppi_choice w) =
     Returns (None, None, export_failed (host env) e) /\
   fs (snd (process_local_path env local_path ppi_choice w)) = fs w) /\
  (fst (sync_render_html_file_to_image env p 72 w) = Raises e ->
   fst (preview_local_path env local_path w) =
     Returns (None, preview_failed (host env) e) /\
   fs (snd (preview_local_path env local_path w)) = fs w).
Proof.
  intros Hblank p Hsome Hext He.
  destruct (local_guards_pass env local_path w Hblank Hsome Hext)
    as (G1 & G2 & G3).
  split; intros Hr.
  - destruct (sync_render_at env p (PPI_OPTIONS_get ppi_choice) w
                (snd (print ("📄 处理本地文件: " +:+ p) w)) _ Hr eq_refl)
      as (w1 & Hrun & Hfs).
    destruct (process_local_path env local_path ppi_choice w) as [r w'] eqn:Hop.
    unfold process_local_path in Hop. rewrite G1 in Hop.
    unfold bind at 1, os_path_exists in Hop.
    rewrite G2, G3 in Hop. fold p in Hop.
    unfold try_except, bind in Hop. cbn [print snd] in Hop, Hrun.
    rewrite Hrun, He in Hop. by injection Hop as <- <-.
  - destruct (sync_render_at env p 72 w
                (snd (print ("👁️ 预览本地文件: " +:+ p) w)) _ Hr eq_refl)
      as (w1 & Hrun & Hfs).
    destruct (preview_local_path env local_path w) as [r w'] eqn:Hop.
    unfold preview_local_path in Hop. rewrite G1 in Hop.
    unfold bind at 1, os_path_exists in Hop.
    rewrite G2, G3 in Hop. fold p in Hop.
    unfold try_except, bind in Hop. cbn [print snd] in Hop, Hrun.
    rewrite Hrun, He in Hop. by injection Hop as <- <-.
Qed.

Lemma render_failure_reported_witness :
  fst (process_local_path demo_env_no_browser "/home/u/myposter.html"
         "300 PPI (高清印刷)" demo_world) =
    Returns (None, None, export_failed demo_host demo_no_browser) /\
  fs (snd (process_local_path demo_env_no_browser "/home/u/myposter.html"
             "300 PPI (高清印刷)" demo_world)) = fs demo_world.
Proof.
  apply (render_failure_reported demo_env_no_browser "/home/u/myposter.html"
           "300 PPI (高清印刷)" demo_world demo_no_browser);
    [discriminate | by eexists | reflexivity | reflexivity
    | vm_compute; reflexivity].
Defined.

(** X12.  The export writes its output file before it decodes the image
    for the reported size.  For a path that passes the checks
    ([os.path.exists] answers yes and the extension is an HTML one), when
    the decoder raises an [Exception], the local export returns its failure
    status and no file name, and the file written just before stays in the
    temporary directory with the rendered bytes as its content: the handler
    removes nothing. *)
Theorem decode_failure_keeps_file env local_path ppi_choice w b s e :
  Py.strip local_path <> "" ->
  let p := host_expanduser (host env) (Py.strip local_path) in
  let ppi := PPI_OPTIONS_get ppi_choice in
  host_exists (host env) (fs w) p = true ->
  Py.endswith_any (Py.lower p) [".html"; ".htm"] = true ->
  fst (sync_render_html_file_to_image env p ppi w) = Returns b ->
  mkstemp_name (host env)
    ("_" +:+ stem (Path_of_str p) +:+ "_" +:+ Py.str_int ppi +:+ "PPI.png")
    (fs w) = Some s ->
  host_write (host env) s b = Returns tt ->
  host_image_size (host env) b = Raises e ->
  exn_is_Exception e = true ->
  fst (process_local_path env local_path ppi_choice w) =
    Returns (None, None, export_failed (host env) e) /\
  fs w !! Path_of_str s = None /\
  fs (snd (process_local_path env local_path ppi_choice w)) !! Path_of_str s =
    Some (File b).
Proof.
  intros Hblank p ppi Hsome Hext Hr Hname Hwrite Hsize He.
  destruct (local_guards_pass env local_path w Hblank Hsome Hext)
    as (G1 & G2 & G3).
  destruct (sync_render_at env p ppi w
              (snd (print ("📄 处理本地文件: " +:+ p) w)) _ Hr eq_refl)
    as (w1 & Hrun & Hfs).
  destruct (process_local_path env local_path ppi_choice w) as [r w'] eqn:Hop.
  unfold process_local_path in Hop. rewrite G1 in Hop.
  unfold bind at 1, os_path_exists in Hop.
  rewrite G2, G3 in Hop. fold p in Hop. cbv zeta in Hop. fold ppi in Hop.
  unfold try_except, bind in Hop. cbn [print snd] in Hop, Hrun.
  rewrite Hrun in Hop.
  unfold NamedTemporaryFile_write in Hop. rewrite Hfs, Hname, Hwrite in Hop.
  unfold lift in Hop. rewrite Hsize, He in Hop.
  injection Hop as <- <-. cbn [ret fst snd fs set_fs].
  split; [reflexivity|]. split.
  - unfold mkstemp_name in Hname. by apply first_fresh_spec in Hname as [? _].
  - by rewrite lookup_insert_eq.
Qed.

Lemma decode_failure_keeps_file_witness :
  fst (process_local_path demo_env_bad_image "/home/u/myposter.html"
         "300 PPI (高清印刷)" demo_world) =
    Returns (None, None, export_failed demo_host demo_bad_image) /\
  fs demo_world !! Path_of_str demo_out = None /\
  fs (snd (process_local_path demo_env_bad_image "/home/u/myposter.html"
             "300 PPI (高清印刷)" demo_world)) !! Path_of_str demo_out =
    Some (File demo_png).
Proof.
  apply (decode_failure_keeps_file demo_env_bad_image "/home/u/myposter.html"
           "300 PPI (高清印刷)" demo_world demo_png demo_out demo_bad_image);
    first [discriminate | by eexists | reflexivity | vm_compute; reflexivity].
Defined.

(** ** What the locator leaves behind *)

Lemma under_joinpath d rel : under d (joinpath d rel) = true.
Proof.
  unfold under, joinpath. apply bool_decide_eq_true_2. cbn [anchor parts].
  split; [reflexivity | by exists rel].
Qed.

Lemma under_self d : under d d = true.
Proof. unfold under. by apply bool_decide_eq_true_2. Qed.

Lemma extracted_outside (m : gmap Path node) temp_dir
    (tree : list (list string * node)) p :
  under temp_dir p = false ->
  foldr (fun en m => <[joinpath temp_dir (fst en) := snd en]> m) m tree !! p =
  m !! p.
Proof.
  intros Hout. induction tree as [|en tree IH]; [reflexivity|].
  cbn [foldr]. rewrite lookup_insert_ne; [exact IH|].
  intros <-. by rewrite under_joinpath in Hout.
Qed.

Lemma extracted_members (m : gmap Path node) temp_dir
    (tree : list (list string * node)) rel :
  In rel (List.map fst tree) ->
  is_Some (foldr (fun en m => <[joinpath temp_dir (fst en) := snd en]> m) m tree
           !! joinpath temp_dir rel).
Proof.
  induction tree as [|en tree IH]; [intros []|].
  cbn [List.map foldr]. intros [<-|Hin].
  - rewrite lookup_insert_eq. by eexists.
  - by apply insert_is_Some_keep, IH.
Qed.

Lemma glob_members_spec tree ext rel :
  In rel (glob_members tree ext) ->
  In rel (List.map fst tree) /\ rel <> [] /\
  Py.endswith (List.last rel "") ext = true.
Proof.
  unfold glob_members. rewrite !filter_In. intros [[Hin Hne] Hext].
  repeat split; [exact Hin| |exact Hext].
  intros ->. by rewrite bool_decide_eq_true_2 in Hne.
Qed.

(** X13.  What the locator guarantees when it returns.  The scratch
    directory did not exist before and exists afterwards; the returned
    document is a member of the archive below that directory, it exists,
    and its name ends in [.html] or [.htm] in exactly this case; every path
    outside the scratch directory is as it was; no browser call was made and
    nothing was printed. *)
Theorem extract_zip_to_temp_post h zip_path w temp_dir html w0 :
  extract_zip_to_temp h zip_path w = (Returns (temp_dir, html), w0) ->
  fs w !! temp_dir = None /\
  is_Some (fs w0 !! temp_dir) /\
  (exists rel,
     rel <> [] /\
     html = Path_str (joinpath temp_dir rel) /\
     under temp_dir (joinpath temp_dir rel) = true /\
     is_Some (fs w0 !! joinpath temp_dir rel) /\
     Py.endswith_any (List.last rel "") [".html"; ".htm"] = true) /\
  (forall p, under temp_dir p = false -> fs w0 !! p = fs w !! p) /\
  calls w0 = calls w /\ stdout w0 = stdout w.
Proof.
  intros Hrun.
  destruct (extract_zip_to_temp_inv _ _ _ _ _ _ Hrun)
    as (tmp & tree & Hname & Htd & Hex & Hne & Hfs & Hcalls & Hout).
  assert (Hfresh : fs w !! temp_dir = None).
  { subst temp_dir. unfold mkdtemp_name in Hname.
    by apply first_fresh_spec in Hname as [? _]. }
  split; [exact Hfresh|]. split.
  { rewrite Hfs. apply extracted_keeps. rewrite lookup_insert_eq. by eexists. }
  split; [|split; [|by split]].
  - revert Hrun. unfold extract_zip_to_temp, bind, mkdtemp, extractall.
    rewrite Hname, Hex. cbn [fs set_fs]. rewrite <- Htd.
    destruct (rglob temp_dir tree ".html" ++ rglob temp_dir tree ".htm")
      as [|f0 fl] eqn:Efiles; [discriminate|].
    assert (Hsel : In (select_loop temp_dir f0 (f0 :: fl)) (f0 :: fl)).
    { destruct (select_loop_In temp_dir f0 (f0 :: fl)) as [->|Hin];
        [by left | exact Hin]. }
    revert Hsel. generalize (select_loop temp_dir f0 (f0 :: fl)) as sel.
    intros sel Hsel. unfold ret. intros [= <- _].
    rewrite <- Efiles in Hsel. unfold rglob in Hsel.
    apply in_app_or in Hsel.
    assert (Hrel : exists rel ext,
              In rel (glob_members tree ext) /\ (ext = ".html" \/ ext = ".htm") /\
              sel = joinpath temp_dir rel).
    { destruct Hsel as [Hin|Hin]; apply in_map_iff in Hin as (rel & <- & Hrel);
        [exists rel, ".html" | exists rel, ".htm"]; repeat split; tauto. }
    destruct Hrel as (rel & ext & Hrel & Hext & ->).
    apply glob_members_spec in Hrel as (Hin & Hnil & Hend).
    exists rel. split; [exact Hnil|]. split; [reflexivity|].
    split; [apply under_joinpath|]. split.
    + rewrite Hfs. by apply extracted_members.
    + unfold Py.endswith_any. cbn [existsb].
      destruct Hext as [->| ->]; rewrite Hend; [reflexivity|].
      by rewrite orb_true_r.
  - intros p Hp. rewrite Hfs, extracted_outside by exact Hp.
    apply lookup_insert_ne. intros <-. by rewrite under_self in Hp.
Qed.

Lemma extract_zip_to_temp_post_witness :
  fs demo_world !! Path_of_str demo_scratch = None /\
  is_Some (fs demo_extracted !! Path_of_str demo_scratch) /\
  (exists rel,
     rel <> [] /\
     demo_document = Path_str (joinpath (Path_of_str demo_scratch) rel) /\
     under (Path_of_str demo_scratch)
       (joinpath (Path_of_str demo_scratch) rel) = true /\
     is_Some (fs demo_extracted !! joinpath (Path_of_str demo_scratch) rel) /\
     Py.endswith_any (List.last rel "") [".html"; ".htm"] = true) /\
  (forall p, under (Path_of_str demo_scratch) p = false ->
             fs demo_extracted !! p = fs demo_world !! p) /\
  calls demo_extracted = calls demo_world /\
  stdout demo_extracted = stdout demo_world.
Proof.
  apply (extract_zip_to_temp_post demo_host "/uploads/poster.zip" demo_world
           (Path_of_str demo_scratch) demo_document demo_extracted).
  exact (eq_refl (Returns (Path_of_str demo_scratch, demo_document),
                  demo_extracted)
         <: extract_zip_to_temp demo_host "/uploads/poster.zip" demo_world =
            (Returns (Path_of_str demo_scratch, demo_document), demo_extracted)).
Defined.

Lemma extract_zip_to_temp_fails h zip_path w tmp e :
  mkdtemp_name h "poster_export_" (fs w) = Some tmp ->
  (host_extractall h zip_path = Raises e \/
   exists tree,
     host_extractall h zip_path = Returns tree /\
     html_candidates tree = [] /\ e = ValueError_no_html) ->
  exists w1,
    extract_zip_to_temp h zip_path w = (Raises e, w1) /\
    is_Some (fs w1 !! Path_of_str tmp) /\
    calls w1 = calls w.
Proof.
  intros Hname Hfail.
  unfold extract_zip_to_temp, bind, mkdtemp, extractall.
  rewrite Hname. cbn [fs set_fs].
  destruct Hfail as [Hex|(tree & Hex & Hc & ->)]; rewrite Hex.
  - eexists. split; [reflexivity|]. cbn [fs calls set_fs].
    split; [|reflexivity]. rewrite lookup_insert_eq. by eexists.
  - rewrite rglob_candidates, Hc. cbn [List.map]. unfold raise.
    eexists. split; [reflexivity|]. cbn [fs calls set_fs].
    split; [|reflexivity]. apply extracted_keeps.
    rewrite lookup_insert_eq. by eexists.
Qed.

(** X14.  The scratch directory is created before the archive is read and
    searched.  When the archive cannot be read, or holds no HTML document,
    the locator raises and the caller's [temp_dir] is still [None]: the
    export and the preview return their failure status, make no browser
    call, and the scratch directory they created is left behind. *)
Theorem extraction_failure_leaves_scratch env file_path ppi_choice w tmp e :
  Py.endswith (Py.lower file_path) ".zip" = true ->
  mkdtemp_name (host env) "poster_export_" (fs w) = Some tmp ->
  (host_extractall (host env) file_path = Raises e \/
   exists tree,
     host_extractall (host env) file_path = Returns tree /\
     html_candidates tree = [] /\ e = ValueError_no_html) ->
  exn_is_Exception e = true ->
  fs w !! Path_of_str tmp = None /\
  (fst (process_zip_upload env (Some file_path) ppi_choice w) =
     Returns (None, None, export_failed (host env) e) /\
   is_Some (fs (snd (process_zip_upload env (Some file_path) ppi_choice w))
            !! Path_of_str tmp) /\
   calls (snd (process_zip_upload env (Some file_path) ppi_choice w)) =
     calls w) /\
  (fst (preview_zip_upload env (Some file_path) w) =
     Returns (None, preview_failed (host env) e) /\
   is_Some (fs (snd (preview_zip_upload env (Some file_path) w))
            !! Path_of_str tmp) /\
   calls (snd (preview_zip_upload env (Some file_path) w)) = calls w).
Proof.
  intros Hzip Hname Hfail He.
  split.
  { unfold mkdtemp_name in Hname. by apply first_fresh_spec in Hname as [? _]. }
  split.
  - destruct (extract_zip_to_temp_fails (host env) file_path
                (snd (print "📦 解压 ZIP 文件..." w)) tmp e Hname Hfail)
      as (w1 & Hrun & Hdir & Hcalls).
    destruct (process_zip_upload env (Some file_path) ppi_choice w)
      as [r w'] eqn:Hop.
    unfold process_zip_upload in Hop. rewrite Hzip in Hop.
    cbn [negb] in Hop. unfold attempt, bind in Hop.
    cbn [print snd] in Hop, Hrun. rewrite Hrun in Hop.
    unfold try_finally, try_except, raise, cleanup, ret in Hop.
    rewrite He in Hop. by injection Hop as <- <-.
  - destruct (extract_zip_to_temp_fails (host env) file_path
                (snd (print "📦 预览 ZIP 文件..." w)) tmp e Hname Hfail)
      as (w1 & Hrun & Hdir & Hcalls).
    destruct (preview_zip_upload env (Some file_path) w) as [r w'] eqn:Hop.
    unfold preview_zip_upload in Hop. rewrite Hzip in Hop.
    cbn [negb] in Hop. unfold attempt, bind in Hop.
    cbn [print snd] in Hop, Hrun. rewrite Hrun in Hop.
    unfold try_finally, try_except, raise, cleanup, ret in Hop.
    rewrite He in Hop. by injection Hop as <- <-.
Qed.

Lemma extraction_failure_leaves_scratch_witness :
  fs demo_world !! Path_of_str demo_scratch = None /\
  (fst (process_zip_upload demo_env_no_html (Some "/uploads/poster.zip")
          "300 PPI (高清印刷)" demo_world) =
     Returns (None, None,
              export_failed (host demo_env_no_html) ValueError_no_html) /\
   is_Some (fs (snd (process_zip_upload demo_env_no_html
                       (Some "/uploads/poster.zip") "300 PPI (高清印刷)"
                       demo_world))
            !! Path_of_str demo_scratch) /\
   calls (snd (process_zip_upload demo_env_no_html (Some "/uploads/poster.zip")
                 "300 PPI (高清印刷)" demo_world)) = calls demo_world) /\
  (fst (preview_zip_upload demo_env_no_html (Some "/uploads/poster.zip")
          demo_world) =
     Returns (None, preview_failed (host demo_env_no_html) ValueError_no_html) /\
   is_Some (fs (snd (preview_zip_upload demo_env_no_html
                       (Some "/uploads/poster.zip") demo_world))
            !! Path_of_str demo_scratch) /\
   calls (snd (preview_zip_upload demo_env_no_html (Some "/uploads/poster.zip")
                 demo_world)) = calls demo_world).
Proof.
  apply (extraction_failure_leaves_scratch demo_env_no_html
           "/uploads/poster.zip" "300 PPI (高清印刷)" demo_world demo_scratch
           ValueError_no_html); [reflexivity | reflexivity | | reflexivity].
  right. exists [(["readme.txt"], File [])]. by repeat split.
Defined.

(** ** Inputs that are absent *)

(** X15.  An input that is absent or of the wrong kind is answered at once,
    with the world unchanged: a path that is empty or made of white space
    only (of any kind [str.strip] removes) by the prompt to enter a path; a missing upload by the prompt to upload an archive; an
    upload whose lower-cased name does not end in [.zip] by the request for
    a ZIP file.  In none of these cases is a scratch directory created, a
    line printed or the browser called. *)
Theorem absent_input_prompts env w :
  (forall local_path ppi_choice,
     Py.strip local_path = "" ->
     process_local_path env local_path ppi_choice w =
       (Returns (None, None, "⚠️ 请输入 HTML 文件路径"), w) /\
     preview_local_path env local_path w =
       (Returns (None, "⏳ 请输入 HTML 文件路径"), w)) /\
  (forall ppi_choice,
     process_zip_upload env None ppi_choice w =
       (Returns (None, None, "⚠️ 请先上传 ZIP 文件"), w) /\
     preview_zip_upload env None w =
       (Returns (None, "⏳ 请上传 ZIP 文件"), w)) /\
  (forall file_path ppi_choice,
     Py.endswith (Py.lower file_path) ".zip" = false ->
     process_zip_upload env (Some file_path) ppi_choice w =
       (Returns (None, None, "❌ 请上传 ZIP 文件（包含 HTML 和资源）"), w) /\
     preview_zip_upload env (Some file_path) w =
       (Returns (None, "❌ 请上传 ZIP 文件"), w)).
Proof.
  split; [|split].
  - intros local_path ppi_choice Hblank.
    unfold process_local_path, preview_local_path.
    rewrite Hblank. cbn [Py.falsy]. rewrite orb_true_r. by split.
  - by split.
  - intros file_path ppi_choice Hzip.
    unfold process_zip_upload, preview_zip_upload. rewrite Hzip. by split.
Qed.

Lemma absent_input_prompts_witness :
  process_local_path demo_env "   " "300 PPI (高清印刷)" demo_world =
    (Returns (None, None, "⚠️ 请输入 HTML 文件路径"), demo_world) /\
  preview_local_path demo_env (ideographic_space +:+ nbsp) demo_world =
    (Returns (None, "⏳ 请输入 HTML 文件路径"), demo_world) /\
  process_zip_upload demo_env (Some "/uploads/poster.tar.gz")
    "300 PPI (高清印刷)" demo_world =
    (Returns (None, None, "❌ 请上传 ZIP 文件（包含 HTML 和资源）"), demo_world).
Proof.
  split; [|split].
  - apply (absent_input_prompts demo_env demo_world). reflexivity.
  - refine (proj2 (proj1 (absent_input_prompts demo_env demo_world)
                     (ideographic_space +:+ nbsp) "300 PPI (高清印刷)" _)).
    reflexivity.
  - apply (absent_input_prompts demo_env demo_world). reflexivity.
Defined.

(** ** Existing files are left alone *)

Lemma fs_keeps_refl w : fs_keeps w w.
Proof. by intros p n. Qed.

Lemma fs_keeps_trans w1 w2 w3 : fs_keeps w1 w2 -> fs_keeps w2 w3 -> fs_keeps w1 w3.
Proof. intros H12 H23 p n Hp. by apply H23, H12. Qed.

Lemma fs_keeps_same w w' : fs w' = fs w -> fs_keeps w w'.
Proof. intros E p n. by rewrite E. Qed.

Lemma print_keeps line : preserves fs_keeps (print line).
Proof. intros w. by apply fs_keeps_same. Qed.

Lemma Path_exists_keeps p : preserves fs_keeps (Path_exists p).
Proof. intros w. by apply fs_keeps_same. Qed.

Lemma os_path_exists_keeps h s : preserves fs_keeps (os_path_exists h s).
Proof. intros w. by apply fs_keeps_same. Qed.

Lemma sync_render_keeps env path ppi :
  preserves fs_keeps (sync_render_html_file_to_image env path ppi).
Proof. intros w. apply fs_keeps_same, render_fs. Qed.

Lemma NamedTemporaryFile_write_keeps h suffix data :
  preserves fs_keeps (NamedTemporaryFile_write h suffix data).
Proof.
  intros w p n Hp. unfold NamedTemporaryFile_write.
  destruct (mkstemp_name h suffix (fs w)) as [s|] eqn:Hname; [|exact Hp].
  unfold mkstemp_name in Hname. apply first_fresh_spec in Hname as [Hfresh _].
  assert (Path_of_str s <> p) by (intros <-; congruence).
  destruct (host_write h s data); cbn [snd fs set_fs];
    by rewrite ?lookup_insert_ne.
Qed.

Ltac keeps_side := first [exact fs_keeps_refl | exact fs_keeps_trans].

Ltac keeps_leaf :=
  first [ apply print_keeps | apply Path_exists_keeps
        | apply os_path_exists_keeps
        | apply NamedTemporaryFile_write_keeps | apply sync_render_keeps ].

Lemma process_local_path_keeps env local_path ppi_choice :
  preserves fs_keeps (process_local_path env local_path ppi_choice).
Proof.
  unfold process_local_path.
  repeat preserves_step keeps_side keeps_leaf.
Qed.

Lemma preview_local_path_keeps env local_path :
  preserves fs_keeps (preview_local_path env local_path).
Proof.
  unfold preview_local_path.
  repeat preserves_step keeps_side keeps_leaf.
Qed.

Lemma zip_export_body_keeps env ppi html :
  preserves fs_keeps (zip_export_body env ppi html).
Proof. unfold zip_export_body. repeat preserves_step keeps_side keeps_leaf. Qed.

Lemma zip_preview_body_keeps env html :
  preserves fs_keeps (zip_preview_body env html).
Proof. unfold zip_preview_body. repeat preserves_step keeps_side keeps_leaf. Qed.

Lemma extract_zip_to_temp_outside h zip_path w r w1 p n :
  extract_zip_to_temp h zip_path w = (r, w1) ->
  fs w !! p = Some n ->
  (forall tmp, mkdtemp_name h "poster_export_" (fs w) = Some tmp ->
               under (Path_of_str tmp) p = false) ->
  fs w1 !! p = Some n /\
  (forall temp_dir html, r = Returns (temp_dir, html) -> under temp_dir p = false).
Proof.
  intros Hrun Hp Hout. revert Hrun.
  unfold extract_zip_to_temp, bind, mkdtemp, extractall.
  destruct (mkdtemp_name h "poster_export_" (fs w)) as [tmp|];
    [|by intros [= <- <-]].
  specialize (Hout tmp eq_refl). cbn [fs set_fs].
  assert (Hdir : <[Path_of_str tmp := Dir]> (fs w) !! p = Some n).
  { rewrite lookup_insert_ne; [exact Hp|]. intros <-. by rewrite under_self in Hout. }
  destruct (host_extractall h zip_path) as [tree|e]; [|by intros [= <- <-]].
  destruct (rglob _ tree ".html" ++ rglob _ tree ".htm") as [|f0 fl];
    unfold raise, ret; intros [= <- <-]; cbn [fs set_fs];
    (split; [by rewrite extracted_outside|]); [discriminate|].
  by intros ? ? [= <- _].
Qed.

(** An archive operation: the extraction, then either the handler of its
    exception or a [try] block that keeps every file, and the [finally]
    clause. *)
Lemma archive_operation_keeps {A} (h : Host) (line zip_path : string)
    (failed : exn -> A) (body : string -> M A) w p n :
  (forall html, preserves fs_keeps (body html)) ->
  fs w !! p = Some n ->
  (forall tmp, mkdtemp_name h "poster_export_" (fs w) = Some tmp ->
               under (Path_of_str tmp) p = false) ->
  fs (snd (attempt (print line >> extract_zip_to_temp h zip_path)
             (fun extracted =>
                match extracted with
                | Raises e =>
                    try_finally (try_except (raise e) (fun e => ret (failed e)))
                      (cleanup h None)
                | Returns (temp_dir, html_file_path) =>
                    try_finally (body html_file_path)
                      (cleanup h (Some temp_dir))
                end) w)) !! p = Some n.
Proof.
  intros Hbody Hp Hout. unfold attempt, bind at 1. cbn [print].
  destruct (extract_zip_to_temp h zip_path _) as [r w1] eqn:Hrun.
  destruct (extract_zip_to_temp_outside _ _ _ _ _ p n Hrun Hp Hout)
    as [Hp1 Hunder].
  destruct r as [[temp_dir html]|e]; rewrite try_finally_snd.
  - specialize (Hunder temp_dir html eq_refl).
    destruct (cleanup h (Some temp_dir) (snd (body html w1))) as [r2 w3] eqn:Hc.
    cbn [snd]. rewrite (cleanup_outside _ _ _ _ _ Hc p Hunder).
    by apply (Hbody html w1).
  - unfold try_except, raise, cleanup, ret.
    by destruct (exn_is_Exception e).
Qed.

(** X16.  No operation changes or removes a file that was there before.
    The local export and the local preview keep every existing path with its
    content; the archive operations keep every existing path that does not
    lie under the scratch directory they are about to create.  The only
    paths an operation adds or removes are its new output file and its
    scratch directory. *)
Theorem existing_files_kept env w p n :
  fs w !! p = Some n ->
  (forall local_path ppi_choice,
     fs (snd (process_local_path env local_path ppi_choice w)) !! p = Some n) /\
  (forall local_path,
     fs (snd (preview_local_path env local_path w)) !! p = Some n) /\
  ((forall tmp, mkdtemp_name (host env) "poster_export_" (fs w) = Some tmp ->
                under (Path_of_str tmp) p = false) ->
   (forall file_obj ppi_choice,
      fs (snd (process_zip_upload env file_obj ppi_choice w)) !! p = Some n) /\
   (forall file_obj,
      fs (snd (preview_zip_upload env file_obj w)) !! p = Some n)).
Proof.
  intros Hp. split; [|split].
  - intros. by apply process_local_path_keeps.
  - intros. by apply preview_local_path_keeps.
  - intros Hout. split.
    + intros [file_path|] ppi_choice; [|exact Hp].
      unfold process_zip_upload. cbv zeta. destruct (negb _); [exact Hp|].
      apply (archive_operation_keeps (host env) _ file_path
               (fun e => (None, None, export_failed (host env) e))
               (zip_export_body env (PPI_OPTIONS_get ppi_choice)));
        [apply zip_export_body_keeps | exact Hp | exact Hout].
    + intros [file_path|]; [|exact Hp].
      unfold preview_zip_upload. cbv zeta. destruct (negb _); [exact Hp|].
      apply (archive_operation_keeps (host env) _ file_path
               (fun e => (None, preview_failed (host env) e))
               (zip_preview_body env));
        [apply zip_preview_body_keeps | exact Hp | exact Hout].
Qed.

Lemma existing_files_kept_witness :
  fs (snd (process_local_path demo_env "/home/u/myposter.html"
             "300 PPI (高清印刷)" demo_world))
    !! Path_of_str "/home/u/notes.txt" = Some (File []) /\
  fs (snd (process_zip_upload demo_env (Some "/uploads/poster.zip")
             "300 PPI (高清印刷)" demo_world))
    !! Path_of_str "/home/u/notes.txt" = Some (File []).
Proof.
  assert (Hp : fs demo_world !! Path_of_str "/home/u/notes.txt" =
               Some (File [])) by (vm_compute; reflexivity).
  assert (Hname : mkdtemp_name (host demo_env) "poster_export_" (fs demo_world) =
                  Some demo_scratch) by (vm_compute; reflexivity).
  assert (Hunder : under (Path_of_str demo_scratch)
                     (Path_of_str "/home/u/notes.txt") = false)
    by (vm_compute; reflexivity).
  destruct (existing_files_kept demo_env demo_world
              (Path_of_str "/home/u/notes.txt") (File []) Hp)
    as (Hlocal & _ & Hzip).
  split; [exact (Hlocal _ _)|].
  refine (proj1 (Hzip _) (Some "/uploads/poster.zip") "300 PPI (高清印刷)").
  intros tmp Htmp. rewrite Hname in Htmp. injection Htmp as <-. exact Hunder.
Defined.

(** ** The browser calls of the operations *)

Lemma file_url_scheme h path : Py.startswith (file_url h path) "file://" = true.
Proof. unfold file_url. by destruct (host_resolve _ _). Qed.

Lemma render_call_ok_operation h path ppi ev :
  render_call_ok (file_url h path) ppi DEFAULT_WIDTH DEFAULT_HEIGHT "#poster" ev ->
  operation_call ev.
Proof.
  destruct ev; cbn [render_call_ok operation_call]; try tauto.
  intros [-> ->]. split; [apply file_url_scheme | reflexivity].
Qed.

Lemma sync_render_operation env path ppi :
  preserves (calls_extend operation_call)
    (sync_render_html_file_to_image env path ppi).
Proof.
  intros w. eapply calls_extend_weaken; [apply render_call_ok_operation|].
  apply render_calls.
Qed.

(** X17.  Whatever the input, every browser call of the four operations
    has the fixed arguments: the browser is launched headless, the viewport
    is 1000 by 1400, the page is loaded from a [file://] URL and waited for
    until the network is idle, the element looked for is [#poster], and a
    capture is a PNG.  No operation navigates to a URL of another scheme. *)
Theorem operations_use_defaults env w :
  (forall local_path ppi_choice,
     calls_extend operation_call
       w (snd (process_local_path env local_path ppi_choice w))) /\
  (forall local_path,
     calls_extend operation_call w (snd (preview_local_path env local_path w))) /\
  (forall file_obj ppi_choice,
     calls_extend operation_call
       w (snd (process_zip_upload env file_obj ppi_choice w))) /\
  (forall file_obj,
     calls_extend operation_call w (snd (preview_zip_upload env file_obj w))).
Proof.
  split; [|split; [|split]]; intros.
  - revert w. change (preserves (calls_extend operation_call)
                        (process_local_path env local_path ppi_choice)).
    unfold process_local_path.
    preserves_calls ltac:(apply sync_render_operation).
  - revert w. change (preserves (calls_extend operation_call)
                        (preview_local_path env local_path)).
    unfold preview_local_path.
    preserves_calls ltac:(apply sync_render_operation).
  - revert w. change (preserves (calls_extend operation_call)
                        (process_zip_upload env file_obj ppi_choice)).
    unfold process_zip_upload, zip_export_body.
    preserves_calls
      ltac:(first [ apply extract_zip_to_temp_calls | apply cleanup_calls
                  | apply sync_render_operation ]).
  - revert w. change (preserves (calls_extend operation_call)
                        (preview_zip_upload env file_obj)).
    unfold preview_zip_upload, zip_preview_body.
    preserves_calls
      ltac:(first [ apply extract_zip_to_temp_calls | apply cleanup_calls
                  | apply sync_render_operation ]).
Qed.

(** The export of the concrete poster does navigate, to a file URL. *)
Example export_navigates_to_file_url :
  In (Goto "file:///home/u/myposter.html" "networkidle")
     (calls (snd (process_local_path demo_env "/home/u/myposter.html"
                    "300 PPI (高清印刷)" demo_world))).
Proof. vm_compute. tauto. Qed.

(** ** The output of a preview *)

Lemma extract_zip_to_temp_outcome h zip_path w w0 :
  fs w0 = fs w ->
  fst (extract_zip_to_temp h zip_path w0) = fst (extract_zip_to_temp h zip_path w).
Proof.
  intros E. unfold extract_zip_to_temp, bind, mkdtemp, extractall. rewrite E.
  destruct (mkdtemp_name h "poster_export_" (fs w)); [|reflexivity].
  cbn [fs set_fs]. destruct (host_extractall h zip_path); [|reflexivity].
  by destruct (rglob _ _ ".html" ++ rglob _ _ ".htm").
Qed.

(** A run of [preview_local_path] that ends in success. *)
Lemma preview_local_path_success env local_path w s status w' :
  preview_local_path env local_path w = (Returns (Some s, status), w') ->
  let p := host_expanduser (host env) (Py.strip local_path) in
  exists image_bytes w1,
    sync_render_html_file_to_image env p 72
      (snd (print ("👁️ 预览本地文件: " +:+ p) w)) = (Returns image_bytes, w1) /\
    NamedTemporaryFile_write (host env) "_preview.png" image_bytes w1 =
      (Returns s, w') /\
    status = "✅ 预览已加载（72 PPI）" +:+ nl +:+ "📄 文件: " +:+ p.
Proof.
  intros H p. unfold preview_local_path in H. fold p in H.
  destruct (Py.falsy local_path || Py.falsy (Py.strip local_path));
    [discriminate H|].
  unfold bind at 1 in H. unfold os_path_exists in H.
  destruct (host_exists (host env) (fs w) p);
    cbn [negb] in H; [|discriminate H].
  destruct (negb (Py.endswith_any (Py.lower p) [".html"; ".htm"]));
    [discriminate H|].
  unfold try_except, bind in H. cbn [print snd] in *.
  destruct (sync_render_html_file_to_image env p 72 _)
    as [[image_bytes|e1] w1]; [|destruct (exn_is_Exception e1); discriminate H].
  destruct (NamedTemporaryFile_write _ _ image_bytes w1)
    as [[s0|e2] w2] eqn:Hwrite; [|destruct (exn_is_Exception e2); discriminate H].
  unfold ret in H. injection H as <- <- <-.
  exists image_bytes, w1. by repeat split.
Qed.

(** A run of [preview_zip_upload] that ends in success. *)
Lemma preview_zip_upload_success env file_path w s status w' :
  preview_zip_upload env (Some file_path) w = (Returns (Some s, status), w') ->
  let h := host env in
  exists temp_dir html w0 image_bytes w1 w2,
    extract_zip_to_temp h file_path (snd (print "📦 预览 ZIP 文件..." w)) =
      (Returns (temp_dir, html), w0) /\
    sync_render_html_file_to_image env html 72 w0 = (Returns image_bytes, w1) /\
    NamedTemporaryFile_write h "_preview.png" image_bytes w1 = (Returns s, w2) /\
    cleanup h (Some temp_dir) w2 = (Returns tt, w') /\
    status = "✅ 预览已加载（72 PPI）".
Proof.
  intros H h. unfold preview_zip_upload in H. fold h in H.
  destruct (negb (Py.endswith (Py.lower file_path) ".zip"));
    [discriminate H|].
  unfold attempt, bind at 1 in H. cbn [print snd] in *.
  destruct (extract_zip_to_temp h file_path _)
    as [[[temp_dir html]|e1] w0] eqn:Hextract.
  2:{ unfold try_finally, try_except, raise, cleanup, ret in H.
      destruct (exn_is_Exception e1); discriminate H. }
  unfold try_finally in H.
  destruct (zip_preview_body env html w0) as [r w2] eqn:Hbody.
  destruct (cleanup h (Some temp_dir) w2) as [[[]|e2] w3] eqn:Hclean;
    [|discriminate H].
  injection H as -> <-.
  unfold zip_preview_body, try_except, bind in Hbody. fold h in Hbody.
  destruct (sync_render_html_file_to_image env html 72 w0)
    as [[image_bytes|e4] w1] eqn:Hrender;
    [|destruct (exn_is_Exception e4); discriminate Hbody].
  destruct (NamedTemporaryFile_write _ _ image_bytes w1)
    as [[s0|e5] w4] eqn:Hwrite;
    [|destruct (exn_is_Exception e5); discriminate Hbody].
  unfold ret in Hbody. injection Hbody as E1 E2 E3. subst s0 status w4.
  exists temp_dir, html, w0, image_bytes, w1, w2. by repeat split.
Qed.

(** X18.  In every successful preview the bytes of the render at density
    72 are the content of a file that did not exist before, whose name is
    the one [tempfile] allots for the suffix [_preview.png].  The status of
    a local preview names the expanded path; the status of an archive
    preview is the fixed text.  After an archive preview the file is there
    provided it does not lie in the scratch directory, which is removed. *)
Theorem preview_output env w s status w' :
  (forall local_path,
     preview_local_path env local_path w = (Returns (Some s, status), w') ->
     let p := host_expanduser (host env) (Py.strip local_path) in
     exists image_bytes c,
       fst (sync_render_html_file_to_image env p 72 w) = Returns image_bytes /\
       In c (host_random_names (host env)) /\
       s = (host_tempdir (host env) +:+ "/tmp") +:+ c +:+ "_preview.png" /\
       fs w !! Path_of_str s = None /\
       fs w' !! Path_of_str s = Some (File image_bytes) /\
       status = "✅ 预览已加载（72 PPI）" +:+ nl +:+ "📄 文件: " +:+ p) /\
  (forall file_path,
     preview_zip_upload env (Some file_path) w = (Returns (Some s, status), w') ->
     exists tmp html image_bytes c,
       mkdtemp_name (host env) "poster_export_" (fs w) = Some tmp /\
       fst (extract_zip_to_temp (host env) file_path w) =
         Returns (Path_of_str tmp, html) /\
       fst (sync_render_html_file_to_image env html 72 w) = Returns image_bytes /\
       In c (host_random_names (host env)) /\
       s = (host_tempdir (host env) +:+ "/tmp") +:+ c +:+ "_preview.png" /\
       fs w !! Path_of_str s = None /\
       (under (Path_of_str tmp) (Path_of_str s) = false ->
        fs w' !! Path_of_str s = Some (File image_bytes)) /\
       status = "✅ 预览已加载（72 PPI）").
Proof.
  split.
  - intros local_path H p.
    destruct (preview_local_path_success _ _ _ _ _ _ H)
      as (image_bytes & w1 & Hrender & Hwrite & Hstatus).
    fold p in Hrender, Hstatus.
    destruct (NamedTemporaryFile_write_inv _ _ _ _ _ _ Hwrite)
      as (Hfresh & (c & Hc & Hname) & Hfs).
    assert (Hfs1 : fs w1 = fs w).
    { replace w1 with (snd (sync_render_html_file_to_image env p 72
                              (snd (print ("👁️ 预览本地文件: " +:+ p) w))))
        by (by rewrite Hrender).
      unfold sync_render_html_file_to_image. by rewrite render_fs. }
    exists image_bytes, c. repeat split; try assumption.
    + unfold sync_render_html_file_to_image in *.
      rewrite (render_outcome_any_world _ _ _ _ _ _ w
                 (snd (print ("👁️ 预览本地文件: " +:+ p) w))).
      by rewrite Hrender.
    + by rewrite <- Hfs1.
    + rewrite Hfs. apply lookup_insert_eq.
  - intros file_path H.
    destruct (preview_zip_upload_success _ _ _ _ _ _ H)
      as (td & html & w0 & image_bytes & w1 & w2 &
          Hextract & Hrender & Hwrite & Hclean & Hstatus).
    destruct (extract_zip_to_temp_inv _ _ _ _ _ _ Hextract)
      as (tmp & tree & Hmk & -> & Hex & Hne & Hfs0 & _).
    cbn [print snd fs] in Hmk, Hfs0.
    destruct (NamedTemporaryFile_write_inv _ _ _ _ _ _ Hwrite)
      as (Hfresh & (c & Hc & Hname) & Hfs).
    assert (Hfs1 : fs w1 = fs w0).
    { replace w1 with (snd (sync_render_html_file_to_image env html 72 w0))
        by (by rewrite Hrender).
      unfold sync_render_html_file_to_image. by rewrite render_fs. }
    exists tmp, html, image_bytes, c. repeat split; try assumption.
    + rewrite <- (extract_zip_to_temp_outcome (host env) file_path w
                    (snd (print "📦 预览 ZIP 文件..." w)) eq_refl).
      by rewrite Hextract.
    + unfold sync_render_html_file_to_image in *.
      rewrite (render_outcome_any_world _ _ _ _ _ _ w w0).
      by rewrite Hrender.
    + apply eq_None_not_Some. intros Hsome.
      assert (Hkept : is_Some (fs w1 !! Path_of_str s)).
      { rewrite Hfs1, Hfs0. by apply extracted_keeps, insert_is_Some_keep. }
      rewrite Hfresh in Hkept. by destruct Hkept.
    + intros Hout. rewrite (cleanup_outside _ _ _ _ _ Hclean _ Hout), Hfs.
      apply lookup_insert_eq.
Qed.

Lemma preview_output_witness :
  exists image_bytes,
    fs demo_world !! Path_of_str demo_preview = None /\
    fs demo_preview_world !! Path_of_str demo_preview = Some (File image_bytes).
Proof.
  pose proof
    (eq_refl (Returns (Some demo_preview, demo_preview_status),
              demo_preview_world) <:
       preview_local_path demo_env "/home/u/myposter.html" demo_world =
       (Returns (Some demo_preview, demo_preview_status),
        demo_preview_world)) as H.
  destruct (proj1 (preview_output demo_env demo_world demo_preview
                     demo_preview_status demo_preview_world)
              "/home/u/myposter.html" H)
    as (image_bytes & c & _ & _ & _ & Hfresh & Hfile & _).
  exists image_bytes. split; [exact Hfresh | exact Hfile].
Defined.

(** ** C10: the density of a preview *)

(** The calls a render adds do not depend on the world it starts in. *)
Lemma sync_render_calls_at env path ppi w w0 :
  calls w0 = calls w ->
  calls (snd (sync_render_html_file_to_image env path ppi w0)) =
  calls (snd (sync_render_html_file_to_image env path ppi w)).
Proof.
  destruct w as [f c o], w0 as [f0 c0 o0]. cbn [calls]. intros ->.
  run_render; reflexivity.
Qed.

(** A [try] block that prints, renders and goes on without a browser call:
    its calls are those of the render. *)
Lemma try_except_render_calls {A} (pre : M unit) (R : M bytes)
    (post : bytes -> M A) (handler : exn -> M A) w :
  (exists u, fst (pre w) = Returns u) ->
  (forall b, preserves (calls_extend (fun _ => False)) (post b)) ->
  (forall e, preserves (calls_extend (fun _ => False)) (handler e)) ->
  calls (snd (try_except (bind pre (fun _ => bind R post)) handler w)) =
  calls (snd (R (snd (pre w)))).
Proof.
  intros [u Hu] Hpost Hh. unfold try_except, bind.
  destruct (pre w) as [r w0]. cbn [fst snd] in *. subst r.
  destruct (R w0) as [[b|e] w1]; cbn [snd].
  - pose proof (no_calls_eq _ _ (Hpost b w1)) as Ew2.
    destruct (post b w1) as [[a|e] w2]; cbn [snd] in *; [exact Ew2|].
    destruct (exn_is_Exception e); [|exact Ew2].
    rewrite (no_calls_eq _ _ (Hh e w2)). exact Ew2.
  - destruct (exn_is_Exception e); [|reflexivity].
    apply (no_calls_eq _ _ (Hh e w1)).
Qed.

Lemma try_except_render_first_calls {A} (R : M bytes) (post : bytes -> M A)
    (handler : exn -> M A) w :
  (forall b, preserves (calls_extend (fun _ => False)) (post b)) ->
  (forall e, preserves (calls_extend (fun _ => False)) (handler e)) ->
  calls (snd (try_except (bind R post) handler w)) = calls (snd (R w)).
Proof.
  intros Hpost Hh.
  exact (try_except_render_calls (ret tt) R post handler w
           (ex_intro _ tt eq_refl) Hpost Hh).
Qed.

Lemma preview_local_path_renders env local_path w :
  Py.strip local_path <> "" ->
  let p := host_expanduser (host env) (Py.strip local_path) in
  host_exists (host env) (fs w) p = true ->
  Py.endswith_any (Py.lower p) [".html"; ".htm"] = true ->
  calls (snd (preview_local_path env local_path w)) =
  calls (snd (sync_render_html_file_to_image env p 72 w)).
Proof.
  intros Hblank p Hsome Hext.
  destruct (local_guards_pass env local_path w Hblank Hsome Hext)
    as (G1 & G2 & G3).
  unfold preview_local_path. rewrite G1.
  unfold bind at 1, os_path_exists. rewrite G2, G3. fold p.
  rewrite try_except_render_calls.
  - by apply sync_render_calls_at.
  - by exists tt.
  - intros b. preserves_calls fail.
  - intros e. preserves_calls fail.
Qed.

Lemma process_local_path_renders env local_path ppi_choice w :
  Py.strip local_path <> "" ->
  let p := host_expanduser (host env) (Py.strip local_path) in
  host_exists (host env) (fs w) p = true ->
  Py.endswith_any (Py.lower p) [".html"; ".htm"] = true ->
  calls (snd (process_local_path env local_path ppi_choice w)) =
  calls (snd (sync_render_html_file_to_image env p
                (PPI_OPTIONS_get ppi_choice) w)).
Proof.
  intros Hblank p Hsome Hext.
  destruct (local_guards_pass env local_path w Hblank Hsome Hext)
    as (G1 & G2 & G3).
  unfold process_local_path. rewrite G1.
  unfold bind at 1, os_path_exists. rewrite G2, G3. fold p. cbv zeta.
  rewrite try_except_render_calls.
  - by apply sync_render_calls_at.
  - by exists tt.
  - intros b. preserves_calls fail.
  - intros e. preserves_calls fail.
Qed.

Lemma preview_zip_upload_renders env file_path w tmp tree :
  Py.endswith (Py.lower file_path) ".zip" = true ->
  mkdtemp_name (host env) "poster_export_" (fs w) = Some tmp ->
  host_extractall (host env) file_path = Returns tree ->
  html_candidates tree <> [] ->
  exists html,
    fst (extract_zip_to_temp (host env) file_path w) =
      Returns (Path_of_str tmp, html) /\
    calls (snd (preview_zip_upload env (Some file_path) w)) =
    calls (snd (sync_render_html_file_to_image env html 72 w)).
Proof.
  intros Hzip Hmk Hex Hne.
  destruct (preview_zip_upload_run env file_path w tmp tree Hzip Hmk Hex Hne)
    as (html & w0 & Hextract & _ & ->).
  exists html. split.
  - rewrite <- (extract_zip_to_temp_outcome (host env) file_path w
                  (snd (print "📦 预览 ZIP 文件..." w)) eq_refl).
    by rewrite Hextract.
  - destruct (extract_zip_to_temp_inv _ _ _ _ _ _ Hextract)
      as (_ & _ & _ & _ & _ & _ & _ & Hcalls & _).
    cbn [print snd calls] in Hcalls.
    rewrite try_finally_snd, cleanup_no_calls. unfold zip_preview_body.
    rewrite try_except_render_first_calls.
    + by apply sync_render_calls_at.
    + intros b. preserves_calls fail.
    + intros e. preserves_calls fail.
Qed.

Lemma process_zip_upload_renders env file_path ppi_choice w tmp tree :
  Py.endswith (Py.lower file_path) ".zip" = true ->
  mkdtemp_name (host env) "poster_export_" (fs w) = Some tmp ->
  host_extractall (host env) file_path = Returns tree ->
  html_candidates tree <> [] ->
  exists html,
    fst (extract_zip_to_temp (host env) file_path w) =
      Returns (Path_of_str tmp, html) /\
    calls (snd (process_zip_upload env (Some file_path) ppi_choice w)) =
    calls (snd (sync_render_html_file_to_image env html
                  (PPI_OPTIONS_get ppi_choice) w)).
Proof.
  intros Hzip Hmk Hex Hne.
  destruct (process_zip_upload_run env file_path ppi_choice w tmp tree
              Hzip Hmk Hex Hne) as (html & w0 & Hextract & _ & ->).
  exists html. split.
  - rewrite <- (extract_zip_to_temp_outcome (host env) file_path w
                  (snd (print "📦 解压 ZIP 文件..." w)) eq_refl).
    by rewrite Hextract.
  - destruct (extract_zip_to_temp_inv _ _ _ _ _ _ Hextract)
      as (_ & _ & _ & _ & _ & _ & _ & Hcalls & _).
    cbn [print snd calls] in Hcalls.
    rewrite try_finally_snd, cleanup_no_calls. unfold zip_export_body.
    rewrite try_except_render_calls.
    + by apply sync_render_calls_at.
    + by exists tt.
    + intros b. preserves_calls fail.
    + intros e. preserves_calls fail.
Qed.

(** What a render at a density asks the browser for. *)
Lemma sync_render_asks env path ppi w :
  exists tr,
    calls (snd (sync_render_html_file_to_image env path ppi w)) =
      calls w ++ PlaywrightStart :: tr /\
    (eng_start (engine env) = Returns tt ->
     eng_launch (engine env) true = Returns tt ->
     In (NewContext 1000 1400 (inject_Z ppi / 96)%Q) tr).
Proof.
  unfold sync_render_html_file_to_image.
  destruct (render_html_file_to_image env path ppi DEFAULT_WIDTH
              DEFAULT_HEIGHT "#poster" w) as [r w'] eqn:Hrun.
  destruct (render_inv _ _ _ _ _ _ _ _ _ Hrun)
    as (tr & -> & _ & [tr' ->] & _ & Hctx & _).
  exists tr'. cbn [snd calls]. split; [reflexivity|].
  intros Hs Hl. destruct (Hctx Hs Hl) as [Heq|Hin]; [discriminate|exact Hin].
Qed.

(** C10.  The two preview handlers do not read the density drop-down: with
    the same path (or upload) they run identically whatever preset is
    selected, and every browser context they ask for has the device scale
    factor of density 72.  A preview whose input passes the checks does
    invoke the render, at density 72: its browser calls are exactly those of
    [sync_render_html_file_to_image] on the document with [ppi=72], which
    start the driver and, with a driver and a browser that start, ask for a
    context of scale factor 72/96.  The export handlers make the calls of
    the render at the density of the selected preset. *)
Theorem C10_preview_density env ui ui' w :
  local_path_input ui = local_path_input ui' ->
  zip_input ui = zip_input ui' ->
  on_local_preview env ui w = on_local_preview env ui' w /\
  on_zip_preview env ui w = on_zip_preview env ui' w /\
  calls_extend (context_scale (inject_Z 72 / 96)%Q)
    w (snd (on_local_preview env ui w)) /\
  calls_extend (context_scale (inject_Z 72 / 96)%Q)
    w (snd (on_zip_preview env ui w)) /\
  calls_extend
    (context_scale (inject_Z (PPI_OPTIONS_get (ppi_dropdown ui)) / 96)%Q)
    w (snd (on_local_export env ui w)) /\
  calls_extend
    (context_scale (inject_Z (PPI_OPTIONS_get (ppi_dropdown ui)) / 96)%Q)
    w (snd (on_zip_export env ui w)) /\
  (let p := host_expanduser (host env) (Py.strip (local_path_input ui)) in
   Py.strip (local_path_input ui) <> "" ->
   host_exists (host env) (fs w) p = true ->
   Py.endswith_any (Py.lower p) [".html"; ".htm"] = true ->
   calls (snd (on_local_preview env ui w)) =
     calls (snd (sync_render_html_file_to_image env p 72 w)) /\
   calls (snd (on_local_export env ui w)) =
     calls (snd (sync_render_html_file_to_image env p
                   (PPI_OPTIONS_get (ppi_dropdown ui)) w))) /\
  (forall file_path tmp tree,
     zip_input ui = Some file_path ->
     Py.endswith (Py.lower file_path) ".zip" = true ->
     mkdtemp_name (host env) "poster_export_" (fs w) = Some tmp ->
     host_extractall (host env) file_path = Returns tree ->
     html_candidates tree <> [] ->
     exists html,
       fst (extract_zip_to_temp (host env) file_path w) =
         Returns (Path_of_str tmp, html) /\
       calls (snd (on_zip_preview env ui w)) =
         calls (snd (sync_render_html_file_to_image env html 72 w)) /\
       calls (snd (on_zip_export env ui w)) =
         calls (snd (sync_render_html_file_to_image env html
                       (PPI_OPTIONS_get (ppi_dropdown ui)) w))) /\
  (forall path ppi,
     exists tr,
       calls (snd (sync_render_html_file_to_image env path ppi w)) =
         calls w ++ PlaywrightStart :: tr /\
       (eng_start (engine env) = Returns tt ->
        eng_launch (engine env) true = Returns tt ->
        In (NewContext 1000 1400 (inject_Z ppi / 96)%Q) tr)).
Proof.
  intros Hp Hz.
  unfold on_local_preview, on_zip_preview, on_local_export, on_zip_export.
  rewrite <- Hp, <- Hz.
  split; [reflexivity|]. split; [reflexivity|].
  split; [apply preview_local_path_scale|].
  split; [apply preview_zip_upload_scale|].
  split; [apply process_local_path_scale|].
  split; [apply process_zip_upload_scale|].
  split; [|split].
  - intros Hblank Hsome Hext. split.
    + by apply preview_local_path_renders.
    + by apply process_local_path_renders.
  - intros file_path tmp tree -> Hzip Hmk Hex Hne.
    destruct (preview_zip_upload_renders env file_path w tmp tree
                Hzip Hmk Hex Hne) as (html & Hextract & Hpre).
    destruct (process_zip_upload_renders env file_path
                (ppi_dropdown ui) w tmp tree Hzip Hmk Hex Hne)
      as (html' & Hextract' & Hexp).
    assert (html' = html) as -> by congruence.
    exists html. by repeat split.
  - intros path ppi. apply sync_render_asks.
Qed.

Lemma C10_preview_density_witness :
  on_local_preview demo_env demo_ui demo_world =
    on_local_preview demo_env demo_ui_screen demo_world /\
  calls_extend (context_scale (inject_Z 72 / 96)%Q)
    demo_world (snd (on_local_preview demo_env demo_ui demo_world)) /\
  calls (snd (on_local_preview demo_env demo_ui demo_world)) =
    calls (snd (sync_render_html_file_to_image demo_env
                  "/home/u/myposter.html" 72 demo_world)).
Proof.
  destruct (C10_preview_density demo_env demo_ui demo_ui_screen demo_world
              eq_refl eq_refl) as (H1 & _ & H3 & _ & _ & _ & H7 & _).
  split; [exact H1|]. split; [exact H3|].
  refine (proj1 (H7 _ _ _)); [discriminate | reflexivity | reflexivity].
Defined.
